(** * SentinalX: the streaming risk pipeline, embedded and verified

    Shallow embedding of the core of the SentinalX client and of the
    server-side validator:

    - [shared/models.py]                  (module [models])
    - [client/feature_extractor.py]       (module [feature_extractor])
    - [client/baseline_builder.py]        (module [baseline_builder])
    - [client/activity_shift_detector.py] (module [activity_shift_detector])
    - [client/risk_engine.py]             (module [risk_engine])
    - [server/anomaly_validator.py]       (module [anomaly_validator])
    - [server/risk_aggregator.py]         (module [risk_aggregator])
    - [dashboard/app.py], [get_risk_level] (module [dashboard])
    - [main.py], the body of the client loop (module [client])

    Number model.  Python [float]s are idealised as exact rationals ([Q]):
    rounding, infinities and NaN are not modelled.  Python [int]s are [Z].
    Float division raises [ZeroDivisionError] on a zero divisor; this is
    kept, every [/] of the source is [py.div] in the error monad
    [py.PyResult].

    State model.  Each class is a record of its mutable attributes and each
    method takes the record and returns the new one.  Attributes that
    [__init__] sets to a literal and nothing reassigns (thresholds, scales,
    weights, bounds) are constants.  Logging has no effect on the state and
    is left out; [math.sqrt] is a parameter of the mouse-speed computation;
    the message of a validator rejection is a tag without the formatted
    numbers. *)

From Stdlib Require Import QArith Lqa ZArith Lia List Bool Sorted Permutation.
From Stdlib Require String.
Import ListNotations.
Open Scope Q_scope.

(** ** Python primitives *)

Module py.

Inductive PyExn : Type := ZeroDivisionError.

Inductive PyResult (A : Type) : Type :=
| Return (a : A)
| Raise (e : PyExn).
Arguments Return {A} a.
Arguments Raise {A} e.

Definition bind {A B : Type} (m : PyResult A) (k : A -> PyResult B) : PyResult B :=
  match m with
  | Return a => k a
  | Raise e => Raise e
  end.

(** [a < b], [a <= b], [a == b] on floats. *)
Definition ltb (a b : Q) : bool := negb (Qle_bool b a).
Definition leb (a b : Q) : bool := Qle_bool a b.
Definition eqb (a b : Q) : bool := Qeq_bool a b.

(** [a / b]: raises on a zero divisor. *)
Definition div (a b : Q) : PyResult Q :=
  if eqb b 0 then Raise ZeroDivisionError else Return (a / b).

(** [max(a, b)] keeps its first argument unless the second is strictly
    greater; [min(a, b)] unless the second is strictly smaller. *)
Definition max (a b : Q) : Q := if ltb a b then b else a.
Definition min (a b : Q) : Q := if ltb b a then b else a.
Definition max3 (a b c : Q) : Q := max (max a b) c.

(** [abs(a)]. *)
Definition abs (a : Q) : Q := if ltb a 0 then - a else a.

(** [sum(l)], starting from the integer 0. *)
Definition sum (l : list Q) : Q := fold_left Qplus l 0.

(** [len(l)] as a float operand. *)
Definition len {A : Type} (l : list A) : Q := inject_Z (Z.of_nat (length l)).

End py.

Notation "x <- m ;; k" := (py.bind m (fun x => k))
  (at level 61, m at next level, right associativity).

(** ** shared/models.py *)

Module models.

Inductive EventType : Type :=
| KEY_PRESS
| KEY_RELEASE
| MOUSE_MOVE
| FOCUS_LOST
| FOCUS_GAINED
| IDLE_PERIOD.

Definition EventType_eqb (a b : EventType) : bool :=
  match a, b with
  | KEY_PRESS, KEY_PRESS | KEY_RELEASE, KEY_RELEASE | MOUSE_MOVE, MOUSE_MOVE
  | FOCUS_LOST, FOCUS_LOST | FOCUS_GAINED, FOCUS_GAINED
  | IDLE_PERIOD, IDLE_PERIOD => true
  | _, _ => false
  end.

(** The subclasses of [BaseEvent] with the attributes each one adds. *)
Inductive EventClass : Type :=
| BaseEventOnly
| KeystrokeEvent
| MouseEvent (x y : Z)
| FocusEvent (lost_focus : bool)
| IdleEvent (duration : Q).

Record BaseEvent : Type := mkEvent {
  timestamp : Q;
  type : EventType;
  cls : EventClass
}.

(** [isinstance(ev, IdleEvent)] *)
Definition isinstance_IdleEvent (ev : BaseEvent) : bool :=
  match cls ev with IdleEvent _ => true | _ => false end.

(** [ev.duration] when [hasattr(ev, 'duration')] *)
Definition getattr_duration (ev : BaseEvent) : option Q :=
  match cls ev with IdleEvent d => Some d | _ => None end.

(** [(ev.x, ev.y)] when [hasattr(ev, 'x') and hasattr(ev, 'y')] *)
Definition getattr_xy (ev : BaseEvent) : option (Z * Z) :=
  match cls ev with MouseEvent x y => Some (x, y) | _ => None end.

(** [AnomalyScores] and [RiskData], the payload of POST /risk.  A Python
    [str] is a sequence of code points. *)
Record AnomalyScores : Type := mkAnomalyScores {
  idle_burst : Q;
  focus_instability : Q;
  behavioral_drift : Q;
  overall : Q
}.

Definition codepoint : Type := N.
Definition str : Type := list codepoint.

Record RiskData : Type := mkRiskData {
  rd_timestamp : Q;
  risk_score : Q;
  anomaly_scores : AnomalyScores;
  session_id : str;
  source : option str
}.

End models.

(** ** client/feature_extractor.py *)

Module feature_extractor.
Import models.

Record FeatureVector : Type := mkFeatureVector {
  avg_typing_speed : Q;
  avg_idle_duration : Q;
  focus_loss_count : Z;
  avg_mouse_speed : Q;
  inter_key_interval : Q;
  window_start : Q;
  window_end : Q;
  key_press_count : Z
}.

(** [FeatureVector()] with the dataclass defaults. *)
Definition FeatureVector_default : FeatureVector :=
  mkFeatureVector 0 0 0%Z 0 0 0 0 0%Z.

Record FeatureExtractor : Type := mkFeatureExtractor {
  window_duration : Q;
  _event_buffer : list BaseEvent
}.

Definition init (window_duration : Q) : FeatureExtractor :=
  mkFeatureExtractor window_duration [].

(** The [for i, e in enumerate(buffer)] loop of [add_event]: insert before
    the first buffered event that is strictly later; when the loop runs out
    nothing is inserted. *)
Fixpoint insert_out_of_order (event : BaseEvent) (buf : list BaseEvent)
  : list BaseEvent :=
  match buf with
  | [] => []
  | e :: rest =>
      if py.ltb (timestamp event) (timestamp e) then event :: e :: rest
      else e :: insert_out_of_order event rest
  end.

Definition add_event (self : FeatureExtractor) (event : BaseEvent)
  : FeatureExtractor :=
  let buf := _event_buffer self in
  match rev buf with
  | [] => mkFeatureExtractor (window_duration self) (buf ++ [event])
  | last :: _ =>
      if py.leb (timestamp last) (timestamp event)
      then mkFeatureExtractor (window_duration self) (buf ++ [event])
      else mkFeatureExtractor (window_duration self)
             (insert_out_of_order event buf)
  end.

(** The [while] loop of [_prune_buffer]: pop from the left while the head
    is older than the cutoff. *)
Fixpoint popleft_while_older (cutoff : Q) (buf : list BaseEvent)
  : list BaseEvent :=
  match buf with
  | [] => []
  | e :: rest =>
      if py.ltb (timestamp e) cutoff then popleft_while_older cutoff rest
      else buf
  end.

Definition _prune_buffer (self : FeatureExtractor) (current_time : Q)
  : FeatureExtractor :=
  let cutoff := current_time - window_duration self in
  mkFeatureExtractor (window_duration self)
    (popleft_while_older cutoff (_event_buffer self)).

(** [press_timestamps]: the timestamps of the KEY_PRESS events. *)
Definition press_timestamps (window_events : list BaseEvent) : list Q :=
  map timestamp
    (filter (fun ev => EventType_eqb (type ev) KEY_PRESS) window_events).

(** [[ts[i+1] - ts[i] for i in range(len(ts)-1)]] *)
Fixpoint intervals (ts : list Q) : list Q :=
  match ts with
  | a :: (b :: _) as rest => (b - a) :: intervals rest
  | _ => []
  end.

Definition idle_durations (window_events : list BaseEvent) : list Q :=
  flat_map
    (fun ev =>
       if isinstance_IdleEvent ev || EventType_eqb (type ev) IDLE_PERIOD
       then match getattr_duration ev with Some d => [d] | None => [] end
       else [])
    window_events.

Definition count_focus_lost (window_events : list BaseEvent) : Z :=
  Z.of_nat
    (length (filter (fun ev => EventType_eqb (type ev) FOCUS_LOST) window_events)).

Definition mouse_positions (window_events : list BaseEvent)
  : list (Q * Z * Z) :=
  flat_map
    (fun ev =>
       if EventType_eqb (type ev) MOUSE_MOVE
       then match getattr_xy ev with
            | Some (x, y) => [(timestamp ev, x, y)]
            | None => []
            end
       else [])
    window_events.

Section WithSqrt.

(** [math.sqrt] is not a rational function; it is a parameter of the
    mouse-speed computation, the only place that uses it. *)
Variable sqrt : Q -> Q.

Fixpoint total_distance (ps : list (Q * Z * Z)) : Q :=
  match ps with
  | (_, x1, y1) :: ((_, x2, y2) :: _) as rest =>
      let dx := (x2 - x1)%Z in
      let dy := (y2 - y1)%Z in
      sqrt (inject_Z (dx * dx + dy * dy)) + total_distance rest
  | _ => 0
  end.

(** [current_time] is always given: the clock behind its default is
    outside the model.  A feature that the source leaves untouched keeps
    the default 0 of the fresh [FeatureVector]. *)
Definition compute_features (self : FeatureExtractor) (current_time : Q)
  : py.PyResult (FeatureVector * FeatureExtractor) :=
  let self := _prune_buffer self current_time in
  let window_events := _event_buffer self in
  let fv_window_start := current_time - window_duration self in
  let fv_window_end := current_time in
  (* keystroke features *)
  let presses := press_timestamps window_events in
  let fv_key_press_count := Z.of_nat (length presses) in
  keys <-
    (if (2 <=? length presses)%nat then
       iki <- py.div (py.sum (intervals presses)) (py.len (intervals presses)) ;;
       let window_len := current_time - fv_window_start in
       if py.ltb 0 window_len then
         q <- py.div (py.len presses) window_len ;;
         py.Return (iki, q * 60)
       else py.Return (iki, 0)
     else py.Return (0, 0)) ;;
  let '(fv_inter_key_interval, fv_avg_typing_speed) := keys in
  (* idle duration *)
  let idles := idle_durations window_events in
  fv_avg_idle_duration <-
    (match idles with
     | [] => py.Return 0
     | _ => py.div (py.sum idles) (py.len idles)
     end) ;;
  (* focus loss count *)
  let fv_focus_loss_count := count_focus_lost window_events in
  (* mouse speed *)
  let ps := mouse_positions window_events in
  fv_avg_mouse_speed <-
    (if (2 <=? length ps)%nat then
       let time_span := fst (fst (last ps (0, 0%Z, 0%Z)))
                        - fst (fst (hd (0, 0%Z, 0%Z) ps)) in
       if py.ltb 0 time_span then py.div (total_distance ps) time_span
       else py.Return 0
     else py.Return 0) ;;
  py.Return
    (mkFeatureVector fv_avg_typing_speed fv_avg_idle_duration
       fv_focus_loss_count fv_avg_mouse_speed fv_inter_key_interval
       fv_window_start fv_window_end fv_key_press_count,
     self).

End WithSqrt.

Definition clear (self : FeatureExtractor) : FeatureExtractor :=
  mkFeatureExtractor (window_duration self) [].

End feature_extractor.

(** ** client/baseline_builder.py *)

Module baseline_builder.
Import feature_extractor.

Record BaselineProfile : Type := mkBaselineProfile {
  avg_typing_speed : Q;
  avg_idle_duration : Q;
  avg_focus_rate : Q
}.

Record BaselineBuilder : Type := mkBaselineBuilder {
  calibration_duration : Q;
  _feature_history : list FeatureVector;
  _baseline : option BaselineProfile;
  _calibration_start : option Q
}.

(** Assigned once in [__init__] and never changed. *)
Definition _min_samples_required : nat := 5.

Definition init (calibration_duration : Q) : BaselineBuilder :=
  mkBaselineBuilder calibration_duration [] None None.

Definition start_calibration (self : BaselineBuilder) (start_time : Q)
  : BaselineBuilder :=
  mkBaselineBuilder (calibration_duration self) [] None (Some start_time).

Definition _has_typing_data (self : BaselineBuilder) : bool :=
  existsb
    (fun fv =>
       py.ltb 5 (feature_extractor.avg_typing_speed fv)
       || (2 <? key_press_count fv)%Z)
    (_feature_history self).

(** The filter of [_build_baseline]: windows with a typing signal. *)
Definition valid_filter (history : list FeatureVector) : list FeatureVector :=
  filter
    (fun fv =>
       py.ltb 0 (feature_extractor.avg_typing_speed fv)
       || (0 <? key_press_count fv)%Z)
    history.

Definition _build_baseline (self : BaselineBuilder)
  : py.PyResult BaselineBuilder :=
  match _feature_history self with
  | [] =>
      py.Return
        (mkBaselineBuilder (calibration_duration self) (_feature_history self)
           (Some (mkBaselineProfile 150 2 0.5)) (_calibration_start self))
  | _ =>
      let history := _feature_history self in
      let chosen :=
        match valid_filter history with
        | [] => if (10 <=? length history)%nat then Some history else None
        | v => Some v
        end in
      match chosen with
      | None => py.Return self
      | Some valid_features =>
          let total_typing_speed :=
            fold_left (fun acc fv => acc + feature_extractor.avg_typing_speed fv)
              valid_features 0 in
          let total_idle_duration :=
            fold_left (fun acc fv => acc + feature_extractor.avg_idle_duration fv)
              valid_features 0 in
          let total_focus_loss :=
            fold_left (fun acc fv => acc + inject_Z (focus_loss_count fv))
              valid_features 0 in
          let valid_count := length valid_features in
          typing <-
            (if (0 <? valid_count)%nat
             then py.div total_typing_speed (py.len valid_features)
             else py.Return 150) ;;
          idle <-
            (if (0 <? valid_count)%nat
             then py.div total_idle_duration (py.len valid_features)
             else py.Return 2) ;;
          focus <-
            (match valid_features with
             | first :: _ =>
                 avg_focus_per_window <-
                   py.div total_focus_loss (py.len valid_features) ;;
                 let window_duration := window_end first - window_start first in
                 let window_duration :=
                   if py.leb window_duration 0 then 30 else window_duration in
                 per_minute <- py.div 60 window_duration ;;
                 py.Return (avg_focus_per_window * per_minute)
             | [] => py.Return 0.5
             end) ;;
          py.Return
            (mkBaselineBuilder (calibration_duration self) []
               (Some (mkBaselineProfile typing idle focus))
               (_calibration_start self))
      end
  end.

Definition update (self : BaselineBuilder) (features : FeatureVector)
  (current_time : Q) : py.PyResult BaselineBuilder :=
  match _baseline self with
  | Some _ => py.Return self
  | None =>
      match _calibration_start self with
      | None => py.Return (start_calibration self current_time)
      | Some start =>
          let time_in_calibration := current_time - start in
          if py.leb time_in_calibration (calibration_duration self) then
            let self :=
              mkBaselineBuilder (calibration_duration self)
                (_feature_history self ++ [features])
                (_baseline self) (_calibration_start self) in
            if (_min_samples_required <=? length (_feature_history self))%nat
               && py.leb (calibration_duration self * 0.5) time_in_calibration
            then
              if _has_typing_data self then _build_baseline self
              else py.Return self
            else py.Return self
          else _build_baseline self
      end
  end.

Definition baseline (self : BaselineBuilder) : option BaselineProfile :=
  _baseline self.

Definition is_calibrated (self : BaselineBuilder) : bool :=
  match _baseline self with Some _ => true | None => false end.

Definition reset (self : BaselineBuilder) : BaselineBuilder :=
  mkBaselineBuilder (calibration_duration self) [] None None.

(** The property [calibration_progress]; the reading of [time.time()] is
    the argument [now]. *)
Definition calibration_progress (self : BaselineBuilder) (now : Q)
  : py.PyResult Q :=
  match _calibration_start self with
  | None => py.Return 0
  | Some start =>
      match _baseline self with
      | Some _ => py.Return 100
      | None =>
          let elapsed := now - start in
          fraction <- py.div elapsed (calibration_duration self) ;;
          py.Return (py.min 100 (fraction * 100))
      end
  end.

End baseline_builder.

(** ** client/activity_shift_detector.py *)

Module activity_shift_detector.
Import feature_extractor.

Record AnomalyScores : Type := mkAnomalyScores {
  idle_burst : Q;
  focus_instability : Q;
  behavioral_drift : Q;
  overall : Q
}.

(** [AnomalyScores()] with the dataclass defaults. *)
Definition AnomalyScores_default : AnomalyScores := mkAnomalyScores 0 0 0 0.

Record ActivityShiftDetector : Type := mkDetector {
  _baseline : option baseline_builder.BaselineProfile;
  _recent_scores : list Q
}.

(** Attributes assigned once in [__init__] and never changed. *)
Definition _max_history : nat := 10.
Definition idle_multiplier : Q := 1.2.
Definition typing_speed_multiplier : Q := 1.3.
Definition focus_rate_multiplier : Q := 1.5.
Definition drift_threshold : Q := 0.3.
Definition idle_burst_scale : Q := 70.
Definition focus_scale : Q := 70.
Definition drift_scale : Q := 70.

Definition init (baseline : option baseline_builder.BaselineProfile)
  : ActivityShiftDetector :=
  mkDetector baseline [].

Definition set_baseline (self : ActivityShiftDetector)
  (value : baseline_builder.BaselineProfile) : ActivityShiftDetector :=
  mkDetector (Some value) (_recent_scores self).

(** The three rules read [self._baseline], which [compute_scores] has
    checked to be set; they take the profile itself. *)
Definition _detect_idle_burst (b : baseline_builder.BaselineProfile)
  (features : FeatureVector) : py.PyResult Q :=
  let idle_threshold := baseline_builder.avg_idle_duration b * idle_multiplier in
  if py.ltb idle_threshold (avg_idle_duration features) then
    let typing_threshold :=
      baseline_builder.avg_typing_speed b * typing_speed_multiplier in
    if py.ltb typing_threshold (avg_typing_speed features) then
      ratio <- py.div (avg_typing_speed features)
                 (baseline_builder.avg_typing_speed b) ;;
      let raw_score := (ratio - typing_speed_multiplier) * 100 in
      py.Return (py.min idle_burst_scale (py.max 0 raw_score))
    else py.Return 0
  else py.Return 0.

Definition _detect_focus_instability (b : baseline_builder.BaselineProfile)
  (features : FeatureVector) : py.PyResult Q :=
  let window_duration := window_end features - window_start features in
  focus_rate <-
    (if py.ltb 0 window_duration then
       per_minute <- py.div 60 window_duration ;;
       py.Return (inject_Z (focus_loss_count features) * per_minute)
     else py.Return 0) ;;
  let focus_threshold :=
    baseline_builder.avg_focus_rate b * focus_rate_multiplier in
  if py.ltb focus_threshold focus_rate
     && py.ltb 0 (baseline_builder.avg_focus_rate b)
  then
    ratio <- py.div focus_rate (baseline_builder.avg_focus_rate b) ;;
    let raw_score := (ratio - focus_rate_multiplier) * 70 in
    py.Return (py.min focus_scale (py.max 0 raw_score))
  else py.Return 0.

Definition _detect_behavioral_drift (b : baseline_builder.BaselineProfile)
  (features : FeatureVector) : py.PyResult Q :=
  if py.leb (baseline_builder.avg_typing_speed b) 0 then py.Return 0
  else
    let deviation :=
      py.abs (avg_typing_speed features - baseline_builder.avg_typing_speed b) in
    deviation_pct <- py.div deviation (baseline_builder.avg_typing_speed b) ;;
    if py.ltb drift_threshold deviation_pct then
      let raw_score := (deviation_pct - drift_threshold) * 200 in
      py.Return (py.min drift_scale (py.max 0 raw_score))
    else py.Return 0.

(** [self._recent_scores.append(x)], then [pop(0)] past [_max_history]. *)
Definition remember (recent : list Q) (x : Q) : list Q :=
  let recent := recent ++ [x] in
  if (_max_history <? length recent)%nat then tl recent else recent.

Definition compute_scores (self : ActivityShiftDetector)
  (features : FeatureVector)
  : py.PyResult (AnomalyScores * ActivityShiftDetector) :=
  match _baseline self with
  | None => py.Return (AnomalyScores_default, self)
  | Some b =>
      s_idle_burst <- _detect_idle_burst b features ;;
      s_focus_instability <- _detect_focus_instability b features ;;
      s_behavioral_drift <- _detect_behavioral_drift b features ;;
      let s_overall :=
        py.max3 s_idle_burst s_focus_instability s_behavioral_drift in
      py.Return
        (mkAnomalyScores s_idle_burst s_focus_instability s_behavioral_drift
           s_overall,
         mkDetector (_baseline self) (remember (_recent_scores self) s_overall))
  end.

Definition reset (self : ActivityShiftDetector) : ActivityShiftDetector :=
  mkDetector (_baseline self) [].

(** [get_anomaly_explanation]; the text is kept as the bytes of its UTF-8
    encoding. *)
Import String.

Definition get_anomaly_explanation (scores : AnomalyScores) : string :=
  let explanations :=
    (if py.ltb 60 (idle_burst scores)
     then ["🔴 CRITICAL: Extreme typing burst after idle - possible copy-paste"%string]
     else if py.ltb 30 (idle_burst scores)
     then ["🟠 WARNING: Unusual typing pattern after idle"%string]
     else [])
    ++ (if py.ltb 60 (focus_instability scores)
        then ["🔴 CRITICAL: Excessive window/tab switching"%string]
        else if py.ltb 30 (focus_instability scores)
        then ["🟠 WARNING: Frequent focus changes"%string]
        else [])
    ++ (if py.ltb 60 (behavioral_drift scores)
        then ["🔴 CRITICAL: Typing speed drastically changed"%string]
        else if py.ltb 30 (behavioral_drift scores)
        then ["🟠 WARNING: Typing pattern shifted"%string]
        else []) in
  match explanations with
  | [] => "Normal behavior detected"%string
  | _ => concat " | "%string explanations
  end.

End activity_shift_detector.

(** ** client/risk_engine.py *)

Module risk_engine.
Import activity_shift_detector.

Record RiskEngine : Type := mkRiskEngine {
  smoothing_window : nat;
  _risk_history : list Q;
  _last_raw_risk : Q;
  _last_smoothed_risk : Q
}.

(** Attributes assigned once in [__init__] and never changed. *)
Definition weight_idle_burst : Q := 0.4.
Definition weight_focus_instability : Q := 0.35.
Definition weight_behavioral_drift : Q := 0.25.

(** [deque(maxlen=n)] rejects a negative [n], hence [nat]. *)
Definition init (smoothing_window : nat) : RiskEngine :=
  mkRiskEngine smoothing_window [] 0 0.

(** [deque.append] on a bounded deque: append on the right, then drop the
    leftmost entry when the length exceeds [maxlen]. *)
Definition deque_append (maxlen : nat) (d : list Q) (x : Q) : list Q :=
  let d := d ++ [x] in
  if (maxlen <? length d)%nat then tl d else d.

Definition compute_risk (self : RiskEngine) (anomaly_scores : AnomalyScores)
  : py.PyResult (Q * RiskEngine) :=
  let raw_risk :=
    weight_idle_burst * idle_burst anomaly_scores
    + weight_focus_instability * focus_instability anomaly_scores
    + weight_behavioral_drift * behavioral_drift anomaly_scores in
  let raw_risk := py.max 0 (py.min 100 raw_risk) in
  let history := deque_append (smoothing_window self) (_risk_history self) raw_risk in
  smoothed <-
    (if (0 <? length history)%nat then
       if (length history =? 1)%nat then py.Return raw_risk
       else
         history_avg <-
           py.div (py.sum (removelast history))
             (inject_Z (Z.of_nat (length history) - 1)) ;;
         py.Return (0.6 * raw_risk + 0.4 * history_avg)
     else py.Return raw_risk) ;;
  py.Return
    (smoothed, mkRiskEngine (smoothing_window self) history raw_risk smoothed).

Definition current_risk (self : RiskEngine) : Q := _last_smoothed_risk self.

Definition raw_risk (self : RiskEngine) : Q := _last_raw_risk self.

Definition reset (self : RiskEngine) : RiskEngine :=
  mkRiskEngine (smoothing_window self) [] 0 0.

End risk_engine.

(** ** server/anomaly_validator.py *)

Module anomaly_validator.
Import models.

(** Attributes assigned once in [__init__] and never changed. *)
Definition risk_score_min : Q := 0.
Definition risk_score_max : Q := 100.
Definition anomaly_score_min : Q := 0.
Definition anomaly_score_max : Q := 100.

(** The characters [str.strip()] removes: Unicode white space. *)
Definition isspace (c : codepoint) : bool :=
  ((9 <=? c) && (c <=? 13) || (28 <=? c) && (c <=? 32)
   || (c =? 133) || (c =? 160) || (c =? 5760)
   || (8192 <=? c) && (c <=? 8202)
   || (c =? 8232) || (c =? 8233) || (c =? 8239) || (c =? 8287)
   || (c =? 12288))%N.

Fixpoint lstrip (s : str) : str :=
  match s with
  | [] => []
  | c :: rest => if isspace c then lstrip rest else s
  end.

Definition strip (s : str) : str := rev (lstrip (rev (lstrip s))).

(** Truth value of a [str]: non-empty. *)
Definition truthy (s : str) : bool :=
  match s with [] => false | _ => true end.

(** The message of a rejection, without its formatted numbers.  In
    [AnomalyScoreOutOfRange] the field is its position in the list
    [idle_burst, focus_instability, behavioral_drift]. *)
Inductive Reason : Type :=
| Accepted
| RiskScoreOutOfRange
| AnomalyScoreOutOfRange (field : nat)
| ZeroRiskNonZeroScores
| SessionIdEmpty
| InvalidTimestamp.

Definition in_range (lo x hi : Q) : bool := py.leb lo x && py.leb x hi.

(** The [for field, value in [...]] loop of [validate]: the index of the
    first of the three scores that is out of range. *)
Fixpoint first_out_of_range (i : nat) (values : list Q) : option nat :=
  match values with
  | [] => None
  | v :: rest =>
      if negb (in_range anomaly_score_min v anomaly_score_max) then Some i
      else first_out_of_range (S i) rest
  end.

(** [payload.timestamp] is a [float] by the type of [RiskData], so the
    [isinstance] half of the last test always passes. *)
Definition validate (payload : RiskData) : bool * Reason :=
  if negb (in_range risk_score_min (risk_score payload) risk_score_max)
  then (false, RiskScoreOutOfRange)
  else
    let scores := anomaly_scores payload in
    match first_out_of_range 0
            [idle_burst scores; focus_instability scores; behavioral_drift scores]
    with
    | Some i => (false, AnomalyScoreOutOfRange i)
    | None =>
        if py.eqb (risk_score payload) 0
           && (negb (py.eqb (idle_burst scores) 0)
               || negb (py.eqb (focus_instability scores) 0)
               || negb (py.eqb (behavioral_drift scores) 0))
        then (false, ZeroRiskNonZeroScores)
        else if negb (truthy (session_id payload))
                || negb (truthy (strip (session_id payload)))
        then (false, SessionIdEmpty)
        else if py.leb (rd_timestamp payload) 0
        then (false, InvalidTimestamp)
        else (true, Accepted)
    end.

End anomaly_validator.

(** ** server/risk_aggregator.py *)

(** A Python [dict] with [str] keys, as an association list in insertion
    order with one binding per key. *)
Module pydict.

Fixpoint str_eqb (a b : models.str) : bool :=
  match a, b with
  | [], [] => true
  | x :: a', y :: b' => (x =? y)%N && str_eqb a' b'
  | _, _ => false
  end.

Section Dict.
Variable V : Type.

Definition dict : Type := list (models.str * V).

(** [d.get(k)] *)
Fixpoint get (d : dict) (k : models.str) : option V :=
  match d with
  | [] => None
  | (k', v) :: rest => if str_eqb k k' then Some v else get rest k
  end.

(** [k in d] *)
Definition contains (d : dict) (k : models.str) : bool :=
  match get d k with Some _ => true | None => false end.

(** [d[k] = v] *)
Fixpoint set (d : dict) (k : models.str) (v : V) : dict :=
  match d with
  | [] => [(k, v)]
  | (k', v') :: rest =>
      if str_eqb k k' then (k', v) :: rest else (k', v') :: set rest k v
  end.

(** [del d[k]], for a key that is present *)
Fixpoint del (d : dict) (k : models.str) : dict :=
  match d with
  | [] => []
  | (k', v') :: rest =>
      if str_eqb k k' then del rest k else (k', v') :: del rest k
  end.

End Dict.

Arguments get {V} d k.
Arguments contains {V} d k.
Arguments set {V} d k v.
Arguments del {V} d k.

End pydict.

Module risk_aggregator.
Import models.

(** The inner dict of [_session_anomaly_counts], with its three fixed
    keys. *)
Record AnomalyCounts : Type := mkAnomalyCounts {
  count_idle_burst : Z;
  count_focus_instability : Z;
  count_behavioral_drift : Z
}.

(** What the [defaultdict] factories produce. *)
Definition default_history : list Q := [].
Definition default_counts : AnomalyCounts := mkAnomalyCounts 0 0 0.

Record RiskAggregator : Type := mkRiskAggregator {
  _session_risk_history : pydict.dict (list Q);
  _session_anomaly_counts : pydict.dict AnomalyCounts
}.

Definition init : RiskAggregator := mkRiskAggregator [] [].

(** [d[k]] on a [defaultdict]: the value, and the dict with the default
    inserted when the key was missing. *)
Definition getitem_default {V : Type} (default : V) (d : pydict.dict V)
  (k : str) : V * pydict.dict V :=
  match pydict.get d k with
  | Some v => (v, d)
  | None => (default, pydict.set d k default)
  end.

(** [counts[session_id][field] += 1] *)
Definition bump (field : AnomalyCounts -> AnomalyCounts)
  (counts : pydict.dict AnomalyCounts) (session_id : str)
  : pydict.dict AnomalyCounts :=
  let '(c, counts) := getitem_default default_counts counts session_id in
  pydict.set counts session_id (field c).

Definition bump_idle_burst (c : AnomalyCounts) : AnomalyCounts :=
  mkAnomalyCounts (count_idle_burst c + 1) (count_focus_instability c)
    (count_behavioral_drift c).
Definition bump_focus_instability (c : AnomalyCounts) : AnomalyCounts :=
  mkAnomalyCounts (count_idle_burst c) (count_focus_instability c + 1)
    (count_behavioral_drift c).
Definition bump_behavioral_drift (c : AnomalyCounts) : AnomalyCounts :=
  mkAnomalyCounts (count_idle_burst c) (count_focus_instability c)
    (count_behavioral_drift c + 1).

Definition add_risk_data (self : RiskAggregator) (risk_data : RiskData)
  : RiskAggregator :=
  let sid := session_id risk_data in
  let '(history, histories) :=
    getitem_default default_history (_session_risk_history self) sid in
  let histories := pydict.set histories sid (history ++ [risk_score risk_data]) in
  let anomaly := anomaly_scores risk_data in
  let counts := _session_anomaly_counts self in
  let counts :=
    if py.ltb 50 (idle_burst anomaly)
    then bump bump_idle_burst counts sid else counts in
  let counts :=
    if py.ltb 50 (focus_instability anomaly)
    then bump bump_focus_instability counts sid else counts in
  let counts :=
    if py.ltb 50 (behavioral_drift anomaly)
    then bump bump_behavioral_drift counts sid else counts in
  mkRiskAggregator histories counts.

(** The dict [get_session_summary] returns, as a record. *)
Record Summary : Type := mkSummary {
  summary_session_id : str;
  risk_count : Z;
  average_risk : Q;
  max_risk : Q;
  min_risk : Q;
  anomaly_counts : AnomalyCounts
}.

(** [max(history)] and [min(history)] on a non-empty list. *)
Definition list_max (first : Q) (rest : list Q) : Q := fold_left py.max rest first.
Definition list_min (first : Q) (rest : list Q) : Q := fold_left py.min rest first.

(** Reading [_session_anomaly_counts[session_id]] inserts the default
    counts for a session that has none, so the aggregator is returned
    too. *)
Definition get_session_summary (self : RiskAggregator) (session_id : str)
  : py.PyResult (option Summary * RiskAggregator) :=
  if negb (pydict.contains (_session_risk_history self) session_id)
  then py.Return (None, self)
  else
    let history :=
      match pydict.get (_session_risk_history self) session_id with
      | Some h => h
      | None => default_history
      end in
    match history with
    | [] => py.Return (None, self)
    | first :: rest =>
        average <- py.div (py.sum history) (py.len history) ;;
        let '(c, counts) :=
          getitem_default default_counts (_session_anomaly_counts self)
            session_id in
        py.Return
          (Some (mkSummary session_id (Z.of_nat (length history)) average
                   (list_max first rest) (list_min first rest) c),
           mkRiskAggregator (_session_risk_history self) counts)
    end.

Definition reset_session (self : RiskAggregator) (session_id : str)
  : RiskAggregator :=
  let histories :=
    if pydict.contains (_session_risk_history self) session_id
    then pydict.del (_session_risk_history self) session_id
    else _session_risk_history self in
  let counts :=
    if pydict.contains (_session_anomaly_counts self) session_id
    then pydict.del (_session_anomaly_counts self) session_id
    else _session_anomaly_counts self in
  mkRiskAggregator histories counts.

End risk_aggregator.

(** ** dashboard/app.py *)

Module dashboard.
Import String.

(** [get_risk_level]: level, colour and icon. *)
Definition get_risk_level (score : Q) : string * string * string :=
  (if py.leb 80 score then ("CRITICAL", "#ff1744", "🔥")
   else if py.leb 60 score then ("HIGH", "#ff4b4b", "🔴")
   else if py.leb 30 score then ("MEDIUM", "#ffa64b", "🟠")
   else if py.leb 10 score then ("LOW", "#4bff4b", "🟡")
   else ("NORMAL", "#00e5ff", "🟢"))%string.

End dashboard.

(** ** main.py: the body of the client loop

    One pass of the [while True] loop of [run_simulation], without the
    printing and the HTTP post: the events the listener delivered are
    added, the features are computed, the builder is updated, the detector
    receives the baseline once, the scores and the risk are computed when
    a baseline is there, and the calibration progress is computed while
    the builder is not calibrated.  The clock readings of a pass (the
    [current_time] of the loop and the [time.time()] inside
    [compute_features]) are taken as one value [now].  The progress is
    only printed, but its division by [Config.CALIBRATION_DURATION] raises
    when that is 0, and an exception ends the loop. *)

Module client.

(** The components and the local [calibration_start_time] of
    [run_simulation], with the [Config.CALIBRATION_DURATION] it reads. *)
Record Client : Type := mkClient {
  extractor : feature_extractor.FeatureExtractor;
  baseline_builder : baseline_builder.BaselineBuilder;
  detector : activity_shift_detector.ActivityShiftDetector;
  risk_engine : risk_engine.RiskEngine;
  CALIBRATION_DURATION : Q;
  calibration_start_time : Q
}.

(** The state as [run_simulation] sets it up before the loop;
    [calibration_start_time] is the clock reading taken there. *)
Definition init (feature_window calibration_duration calibration_start_time : Q)
  : Client :=
  mkClient (feature_extractor.init feature_window)
    (baseline_builder.init calibration_duration)
    (activity_shift_detector.init None)
    (risk_engine.init 3)
    calibration_duration
    calibration_start_time.

(** [int(x)] on a float: truncation towards zero. *)
Definition int (x : Q) : Z := Z.quot (Qnum x) (Zpos (Qden x)).

(** [min(100, int((elapsed / Config.CALIBRATION_DURATION) * 100))], the
    percentage the loop prints while the builder is not calibrated. *)
Definition progress (c : Client) (current_time : Q) : py.PyResult Z :=
  let elapsed := current_time - calibration_start_time c in
  fraction <- py.div elapsed (CALIBRATION_DURATION c) ;;
  let percent := int (fraction * 100) in
  py.Return (if (percent <? 100)%Z then percent else 100%Z).

Section WithSqrt.
Variable sqrt : Q -> Q.

Definition tick (c : Client) (events : list models.BaseEvent) (now : Q)
  : py.PyResult
      (Client * option (Q * activity_shift_detector.AnomalyScores)) :=
  let ex := fold_left feature_extractor.add_event events (extractor c) in
  r <- feature_extractor.compute_features sqrt ex now ;;
  let features := fst r in
  let ex := snd r in
  bb <- baseline_builder.update (baseline_builder c) features
          (feature_extractor.window_end features) ;;
  let det :=
    match baseline_builder.baseline bb, activity_shift_detector._baseline (detector c) with
    | Some profile, None => activity_shift_detector.set_baseline (detector c) profile
    | _, _ => detector c
    end in
  out <-
    match activity_shift_detector._baseline det with
    | Some _ =>
        r1 <- activity_shift_detector.compute_scores det features ;;
        r2 <- risk_engine.compute_risk (risk_engine c) (fst r1) ;;
        py.Return
          (mkClient ex bb (snd r1) (snd r2)
             (CALIBRATION_DURATION c) (calibration_start_time c),
           Some (fst r2, fst r1))
    | None =>
        py.Return
          (mkClient ex bb det (risk_engine c)
             (CALIBRATION_DURATION c) (calibration_start_time c),
           None)
    end ;;
  _ <- (if negb (baseline_builder.is_calibrated bb)
        then percent <- progress c now ;; py.Return (Some percent)
        else py.Return None) ;;
  py.Return out.

(** The loop over the successive deliveries and clock readings. *)
Fixpoint run (c : Client) (passes : list (list models.BaseEvent * Q))
  : py.PyResult Client :=
  match passes with
  | [] => py.Return c
  | (events, now) :: rest => r <- tick c events now ;; run (fst r) rest
  end.

End WithSqrt.

(** The [RiskData(...)] a pass builds for the sink.  The pydantic model
    checks its [ge=0.0, le=100.0] fields when it is built; [None] stands
    for its [ValidationError]. *)
Definition in_field_bounds (x : Q) : bool := py.leb 0 x && py.leb x 100.

Definition make_payload (current_time risk_score : Q)
  (a : activity_shift_detector.AnomalyScores) (session_id : models.str)
  (source : models.str) : option models.RiskData :=
  if in_field_bounds risk_score
     && in_field_bounds (activity_shift_detector.idle_burst a)
     && in_field_bounds (activity_shift_detector.focus_instability a)
     && in_field_bounds (activity_shift_detector.behavioral_drift a)
     && in_field_bounds (activity_shift_detector.overall a)
  then Some (models.mkRiskData current_time risk_score
               (models.mkAnomalyScores
                  (activity_shift_detector.idle_burst a)
                  (activity_shift_detector.focus_instability a)
                  (activity_shift_detector.behavioral_drift a)
                  (activity_shift_detector.overall a))
               session_id (Some source))
  else None.

End client.

(** ** Call sequences and specification-side notions

    Drivers that apply the methods above in sequence, and the notions the
    properties are phrased with (arithmetic mean, ordered buffer). *)

Module spec.

(** Sum and arithmetic mean, as mathematics has them. *)
Fixpoint Qsum (l : list Q) : Q :=
  match l with
  | [] => 0
  | x :: rest => x + Qsum rest
  end.

Definition mean (l : list Q) : Q := Qsum l / inject_Z (Z.of_nat (length l)).

(** Two floats agree within the tolerance of a float comparison: they
    differ by at most 1e-9. *)
Definition within_tolerance (a b : Q) : Prop :=
  - 1e-9 <= a - b /\ a - b <= 1e-9.

(** The buffer is ordered by timestamp. *)
Definition ordered (buf : list models.BaseEvent) : Prop :=
  StronglySorted (fun a b => models.timestamp a <= models.timestamp b) buf.

(** No buffered event is older than [bound]. *)
Definition none_older (bound : Q) (buf : list models.BaseEvent) : Prop :=
  Forall (fun e => bound <= models.timestamp e) buf.

Definition is_key_press (ev : models.BaseEvent) : bool :=
  models.EventType_eqb (models.type ev) models.KEY_PRESS.

(** [l1] is [l2] with some entries left out, order kept. *)
Inductive subseq {A : Type} : list A -> list A -> Prop :=
| subseq_nil : subseq [] []
| subseq_skip (x : A) (l1 l2 : list A) : subseq l1 l2 -> subseq l1 (x :: l2)
| subseq_take (x : A) (l1 l2 : list A) :
    subseq l1 l2 -> subseq (x :: l1) (x :: l2).

(** The differences between consecutive entries of a list of times. *)
Definition deltas (ts : list Q) : list Q :=
  map (fun p => snd p - fst p) (combine ts (tl ts)).

End spec.

(** Calls on a [FeatureExtractor]. *)
Module extractor_calls.
Import feature_extractor.

Inductive Call : Type :=
| AddEvent (event : models.BaseEvent)
| ComputeFeatures (current_time : Q).

Section WithSqrt.
Variable sqrt : Q -> Q.

Definition step (self : FeatureExtractor) (c : Call)
  : py.PyResult FeatureExtractor :=
  match c with
  | AddEvent event => py.Return (add_event self event)
  | ComputeFeatures current_time =>
      r <- compute_features sqrt self current_time ;;
      py.Return (snd r)
  end.

Fixpoint run (self : FeatureExtractor) (calls : list Call)
  : py.PyResult FeatureExtractor :=
  match calls with
  | [] => py.Return self
  | c :: rest => self' <- step self c ;; run self' rest
  end.

End WithSqrt.

(** The most recent reference time: the argument of the last
    [compute_features] call, if any. *)
Fixpoint last_reference (calls : list Call) (seen : option Q) : option Q :=
  match calls with
  | [] => seen
  | AddEvent _ :: rest => last_reference rest seen
  | ComputeFeatures t :: rest => last_reference rest (Some t)
  end.

(** Every event added after a [compute_features(t)] call is stamped no
    earlier than [t - window]: no event is delivered later than a whole
    window after it happened. *)
Fixpoint timely (window : Q) (calls : list Call) (seen : option Q) : Prop :=
  match calls with
  | [] => True
  | AddEvent e :: rest =>
      match seen with
      | Some t => t - window <= models.timestamp e
      | None => True
      end /\ timely window rest seen
  | ComputeFeatures t :: rest => timely window rest (Some t)
  end.

End extractor_calls.

(** Calls on a [BaselineBuilder]. *)
Module builder_calls.
Import baseline_builder.

Inductive Call : Type :=
| StartCalibration (start_time : Q)
| Update (features : feature_extractor.FeatureVector) (current_time : Q)
| Reset.

Definition step (self : BaselineBuilder) (c : Call)
  : py.PyResult BaselineBuilder :=
  match c with
  | StartCalibration t => py.Return (start_calibration self t)
  | Update f t => update self f t
  | Reset => py.Return (reset self)
  end.

Fixpoint run (self : BaselineBuilder) (calls : list Call)
  : py.PyResult BaselineBuilder :=
  match calls with
  | [] => py.Return self
  | c :: rest => self' <- step self c ;; run self' rest
  end.

(** The feature vectors observed during the calibration in progress:
    those the [update] calls passed since the last [start_calibration] or
    [reset] call (since the beginning when there was none), in order.  A
    call that starts or resets a calibration forgets what was observed
    before it. *)
Definition observe (seen : list feature_extractor.FeatureVector) (c : Call)
  : list feature_extractor.FeatureVector :=
  match c with
  | StartCalibration _ => []
  | Update f _ => seen ++ [f]
  | Reset => []
  end.

Definition observed_in_calibration (calls : list Call)
  : list feature_extractor.FeatureVector :=
  fold_left observe calls [].

End builder_calls.

(** Feeding a [RiskEngine] the same anomaly scores several times in a
    row; the result is the smoothed value of the last call, which the
    engine keeps as [current_risk]. *)
Module engine_calls.
Import risk_engine.

(** The raw score [compute_risk] derives from the scores, before and
    after its [max(0.0, min(100.0, .))]. *)
Definition weighted (s : activity_shift_detector.AnomalyScores) : Q :=
  weight_idle_burst * activity_shift_detector.idle_burst s
  + weight_focus_instability * activity_shift_detector.focus_instability s
  + weight_behavioral_drift * activity_shift_detector.behavioral_drift s.

Definition clamped (s : activity_shift_detector.AnomalyScores) : Q :=
  py.max 0 (py.min 100 (weighted s)).

Fixpoint feed (n : nat) (self : RiskEngine)
  (scores : activity_shift_detector.AnomalyScores)
  : py.PyResult (Q * RiskEngine) :=
  match n with
  | O => py.Return (current_risk self, self)
  | S m =>
      r <- compute_risk self scores ;;
      feed m (snd r) scores
  end.

(** Calls on a [RiskEngine]. *)
Inductive Call : Type :=
| ComputeRisk (scores : activity_shift_detector.AnomalyScores)
| Reset.

Definition step (self : RiskEngine) (c : Call) : py.PyResult RiskEngine :=
  match c with
  | ComputeRisk scores => r <- compute_risk self scores ;; py.Return (snd r)
  | Reset => py.Return (reset self)
  end.

Fixpoint run (self : RiskEngine) (calls : list Call) : py.PyResult RiskEngine :=
  match calls with
  | [] => py.Return self
  | c :: rest => self' <- step self c ;; run self' rest
  end.

End engine_calls.

(** Calls on an [ActivityShiftDetector]. *)
Module detector_calls.
Import activity_shift_detector.

Inductive Call : Type :=
| SetBaseline (value : baseline_builder.BaselineProfile)
| ComputeScores (features : feature_extractor.FeatureVector)
| Reset.

Definition step (self : ActivityShiftDetector) (c : Call)
  : py.PyResult ActivityShiftDetector :=
  match c with
  | SetBaseline value => py.Return (set_baseline self value)
  | ComputeScores features =>
      r <- compute_scores self features ;; py.Return (snd r)
  | Reset => py.Return (reset self)
  end.

Fixpoint run (self : ActivityShiftDetector) (calls : list Call)
  : py.PyResult ActivityShiftDetector :=
  match calls with
  | [] => py.Return self
  | c :: rest => self' <- step self c ;; run self' rest
  end.

End detector_calls.

(** Calls on a [RiskAggregator]. *)
Module aggregator_calls.
Import risk_aggregator.

Inductive Call : Type :=
| AddRiskData (risk_data : models.RiskData)
| GetSessionSummary (session_id : models.str)
| ResetSession (session_id : models.str).

Definition step (self : RiskAggregator) (c : Call)
  : py.PyResult RiskAggregator :=
  match c with
  | AddRiskData risk_data => py.Return (add_risk_data self risk_data)
  | GetSessionSummary session_id =>
      r <- get_session_summary self session_id ;; py.Return (snd r)
  | ResetSession session_id => py.Return (reset_session self session_id)
  end.

Fixpoint run (self : RiskAggregator) (calls : list Call)
  : py.PyResult RiskAggregator :=
  match calls with
  | [] => py.Return self
  | c :: rest => self' <- step self c ;; run self' rest
  end.

(** Each of the three counts lies between 0 and [n]. *)
Definition counts_within (c : AnomalyCounts) (n : Z) : Prop :=
  (0 <= count_idle_burst c <= n)%Z
  /\ (0 <= count_focus_instability c <= n)%Z
  /\ (0 <= count_behavioral_drift c <= n)%Z.

(** The counts of a session, the default ones when it has none. *)
Definition current_counts (counts : pydict.dict AnomalyCounts)
  (session_id : models.str) : AnomalyCounts :=
  match pydict.get counts session_id with
  | Some c => c
  | None => default_counts
  end.

(** What a caller of [get_session_summary] sees: the returned value. *)
Definition summary_of (self : RiskAggregator) (session_id : models.str)
  : py.PyResult (option Summary) :=
  r <- get_session_summary self session_id ;; py.Return (fst r).

End aggregator_calls.

(** * Verification *)

(** ** Facts about the Python primitives *)

Section PyFacts.
Import py.

Lemma ltb_true (a b : Q) : ltb a b = true <-> a < b.
Proof.
  unfold ltb. rewrite negb_true_iff.
  split; intro H.
  - apply Qnot_le_lt. intro Hle. apply Qle_bool_iff in Hle. congruence.
  - destruct (Qle_bool b a) eqn:E; [|reflexivity].
    apply Qle_bool_iff in E. exfalso. apply (Qlt_not_le _ _ H E).
Qed.

Lemma ltb_false (a b : Q) : ltb a b = false <-> b <= a.
Proof.
  unfold ltb. rewrite negb_false_iff. apply Qle_bool_iff.
Qed.

Lemma leb_true (a b : Q) : leb a b = true <-> a <= b.
Proof. apply Qle_bool_iff. Qed.

Lemma leb_false (a b : Q) : leb a b = false <-> b < a.
Proof.
  unfold leb. split; intro H.
  - apply Qnot_le_lt. intro Hle. apply Qle_bool_iff in Hle. congruence.
  - destruct (Qle_bool a b) eqn:E; [|reflexivity].
    apply Qle_bool_iff in E. exfalso. apply (Qlt_not_le _ _ H E).
Qed.

Lemma eqb_true (a b : Q) : eqb a b = true <-> a == b.
Proof. apply Qeq_bool_iff. Qed.

Lemma eqb_false (a b : Q) : eqb a b = false <-> ~ a == b.
Proof.
  unfold eqb. split; intro H.
  - intro E. apply Qeq_bool_iff in E. congruence.
  - destruct (Qeq_bool a b) eqn:E; [|reflexivity].
    apply Qeq_bool_iff in E. contradiction.
Qed.

Lemma div_returns (a b : Q) : ~ b == 0 -> div a b = Return (a / b).
Proof.
  intro H. unfold div. apply eqb_false in H. now rewrite H.
Qed.

Lemma div_raises (a b : Q) : b == 0 -> div a b = Raise ZeroDivisionError.
Proof.
  intro H. unfold div. apply eqb_true in H. now rewrite H.
Qed.

Lemma max_cases (a b : Q) :
  (max a b = a /\ b <= a) \/ (max a b = b /\ a < b).
Proof.
  unfold max. destruct (ltb a b) eqn:E.
  - right. split; [reflexivity|now apply ltb_true].
  - left. split; [reflexivity|now apply ltb_false].
Qed.

Lemma min_cases (a b : Q) :
  (min a b = a /\ a <= b) \/ (min a b = b /\ b < a).
Proof.
  unfold min. destruct (ltb b a) eqn:E.
  - right. split; [reflexivity|now apply ltb_true].
  - left. split; [reflexivity|now apply ltb_false].
Qed.

(** [min(hi, max(lo, x))] is the clamp of [x] to [[lo, hi]]. *)
Lemma min_max_clamp (lo hi x : Q) :
  lo <= hi ->
  lo <= min hi (max lo x) <= hi
  /\ (lo <= x <= hi -> min hi (max lo x) == x).
Proof.
  intro Hlh.
  destruct (max_cases lo x) as [[-> H1]|[-> H1]];
    destruct (min_cases hi lo) as [[E2 H2]|[E2 H2]];
    destruct (min_cases hi x) as [[E3 H3]|[E3 H3]];
    rewrite ?E2, ?E3;
    (split; [split|intros [Ha Hb]]); lra.
Qed.

(** [max(lo, min(hi, x))], the order [risk_engine] uses. *)
Lemma max_min_clamp (lo hi x : Q) :
  lo <= hi ->
  lo <= max lo (min hi x) <= hi
  /\ (lo <= x <= hi -> max lo (min hi x) == x)
  /\ (x < lo -> max lo (min hi x) == lo)
  /\ (hi < x -> max lo (min hi x) == hi).
Proof.
  intro Hlh.
  destruct (min_cases hi x) as [[-> H1]|[-> H1]];
    destruct (max_cases lo hi) as [[E2 H2]|[E2 H2]];
    destruct (max_cases lo x) as [[E3 H3]|[E3 H3]];
    rewrite ?E2, ?E3;
    (split; [split|split; [intros [Ha Hb]|split; intro Ha]]); lra.
Qed.

Lemma max3_upper (a b c : Q) :
  a <= max3 a b c /\ b <= max3 a b c /\ c <= max3 a b c
  /\ (max3 a b c = a \/ max3 a b c = b \/ max3 a b c = c).
Proof.
  unfold max3.
  destruct (max_cases a b) as [[E1 H1]|[E1 H1]];
    destruct (max_cases (max a b) c) as [[E2 H2]|[E2 H2]];
    rewrite E2; rewrite E1 in *; repeat split; try lra; auto.
Qed.

End PyFacts.

(** ** Activity shift detector *)

Section DetectorFacts.
Import feature_extractor activity_shift_detector.

Local Ltac clamp70 :=
  match goal with
  | |- context [py.min ?hi (py.max 0 ?x)] =>
      let H := fresh in
      assert (H : 0 <= hi) by (unfold hi; lra);
      destruct (min_max_clamp 0 hi x H) as [? _];
      unfold hi in *; assumption
  end.

Lemma detect_idle_burst_range b f x :
  _detect_idle_burst b f = py.Return x -> 0 <= x <= 70.
Proof.
  unfold _detect_idle_burst.
  destruct (py.ltb _ (avg_idle_duration f)); [|intros [= <-]; lra].
  destruct (py.ltb _ (avg_typing_speed f)); [|intros [= <-]; lra].
  destruct (py.div _ _) as [ratio|e]; simpl; [|discriminate].
  intros [= <-]. clamp70.
Qed.

Lemma detect_focus_instability_range b f x :
  _detect_focus_instability b f = py.Return x -> 0 <= x <= 70.
Proof.
  unfold _detect_focus_instability.
  set (fr := if py.ltb 0 _ then _ else _).
  destruct fr as [focus_rate|e]; simpl; [|discriminate].
  destruct (_ && _); [|intros [= <-]; lra].
  destruct (py.div _ _) as [ratio|e]; simpl; [|discriminate].
  intros [= <-]. clamp70.
Qed.

Lemma detect_behavioral_drift_range b f x :
  _detect_behavioral_drift b f = py.Return x -> 0 <= x <= 70.
Proof.
  unfold _detect_behavioral_drift.
  destruct (py.leb _ 0); [intros [= <-]; lra|].
  destruct (py.div _ _) as [pct|e]; simpl; [|discriminate].
  destruct (py.ltb _ _); [|intros [= <-]; lra].
  intros [= <-]. clamp70.
Qed.

(** The focus and drift rules guard their divisions. *)
Lemma detect_focus_instability_total b f :
  exists x, _detect_focus_instability b f = py.Return x.
Proof.
  unfold _detect_focus_instability.
  destruct (py.ltb 0 (window_end f - window_start f)) eqn:Ew.
  - apply ltb_true in Ew.
    rewrite div_returns by lra. simpl.
    destruct (py.ltb _ _ && py.ltb 0 _) eqn:Eg; [|eauto].
    apply andb_true_iff in Eg as [_ Eg]. apply ltb_true in Eg.
    rewrite div_returns by lra. simpl. eauto.
  - simpl.
    destruct (py.ltb _ _ && py.ltb 0 _) eqn:Eg; [|eauto].
    apply andb_true_iff in Eg as [_ Eg]. apply ltb_true in Eg.
    rewrite div_returns by lra. simpl. eauto.
Qed.

Lemma detect_behavioral_drift_total b f :
  exists x, _detect_behavioral_drift b f = py.Return x.
Proof.
  unfold _detect_behavioral_drift.
  destruct (py.leb _ 0) eqn:Eg; [eauto|].
  apply leb_false in Eg.
  rewrite div_returns by lra. simpl.
  destruct (py.ltb _ _); eauto.
Qed.

(** The idle-burst rule divides by the baseline typing speed without a
    guard: it returns exactly when the division is not reached or the
    divisor is not zero. *)
Lemma detect_idle_burst_raises b f :
  baseline_builder.avg_typing_speed b == 0 ->
  baseline_builder.avg_idle_duration b * idle_multiplier < avg_idle_duration f ->
  0 < avg_typing_speed f ->
  _detect_idle_burst b f = py.Raise py.ZeroDivisionError.
Proof.
  intros Hz Hidle Htyping. unfold _detect_idle_burst.
  apply ltb_true in Hidle. rewrite Hidle.
  assert (Ht : py.ltb
                 (baseline_builder.avg_typing_speed b * typing_speed_multiplier)
                 (avg_typing_speed f) = true).
  { apply ltb_true. rewrite Hz. lra. }
  rewrite Ht. now rewrite div_raises.
Qed.

Lemma detect_idle_burst_total b f :
  ~ baseline_builder.avg_typing_speed b == 0 ->
  exists x, _detect_idle_burst b f = py.Return x.
Proof.
  intro Hnz. unfold _detect_idle_burst.
  destruct (py.ltb _ (avg_idle_duration f)); [|eauto].
  destruct (py.ltb _ (avg_typing_speed f)); [|eauto].
  rewrite div_returns by assumption. simpl. eauto.
Qed.

(** With a baseline whose typing speed is not zero, or with no baseline,
    [compute_scores] returns. *)
Lemma compute_scores_total_nonzero d f :
  match _baseline d with
  | Some b => ~ baseline_builder.avg_typing_speed b == 0
  | None => True
  end ->
  exists s d', compute_scores d f = py.Return (s, d').
Proof.
  unfold compute_scores. destruct (_baseline d) as [b|]; [|eauto].
  intro Hnz.
  destruct (detect_idle_burst_total b f Hnz) as [x ->].
  destruct (detect_focus_instability_total b f) as [y ->].
  destruct (detect_behavioral_drift_total b f) as [z ->].
  simpl. eauto.
Qed.

End DetectorFacts.

(** C1.  Whenever [compute_scores] returns, for a detector with or without
    a baseline and for any feature vector, each of [idle_burst],
    [focus_instability] and [behavioral_drift] lies in [[0, 70]], and
    [overall] is their maximum: it is the value Python's [max] yields, it
    bounds the three from above, it is one of them, and so it lies in
    [[0, 70]] too. *)
Theorem C1_compute_scores_range
  (d d' : activity_shift_detector.ActivityShiftDetector)
  (f : feature_extractor.FeatureVector)
  (s : activity_shift_detector.AnomalyScores) :
  activity_shift_detector.compute_scores d f = py.Return (s, d') ->
  let i := activity_shift_detector.idle_burst s in
  let fo := activity_shift_detector.focus_instability s in
  let dr := activity_shift_detector.behavioral_drift s in
  let o := activity_shift_detector.overall s in
  0 <= i <= 70 /\ 0 <= fo <= 70 /\ 0 <= dr <= 70 /\ 0 <= o <= 70
  /\ o = py.max3 i fo dr
  /\ i <= o /\ fo <= o /\ dr <= o /\ (o = i \/ o = fo \/ o = dr).
Proof.
  unfold activity_shift_detector.compute_scores.
  destruct (activity_shift_detector._baseline d) as [b|].
  - destruct (activity_shift_detector._detect_idle_burst b f) as [x|e] eqn:Ex;
      simpl; [|discriminate].
    destruct (activity_shift_detector._detect_focus_instability b f) as [y|e] eqn:Ey;
      simpl; [|discriminate].
    destruct (activity_shift_detector._detect_behavioral_drift b f) as [z|e] eqn:Ez;
      simpl; [|discriminate].
    intros [= <- <-]. simpl.
    pose proof (detect_idle_burst_range _ _ _ Ex) as Hx.
    pose proof (detect_focus_instability_range _ _ _ Ey) as Hy.
    pose proof (detect_behavioral_drift_range _ _ _ Ez) as Hz.
    destruct (max3_upper x y z) as (Ha & Hb & Hc & Hd).
    repeat split; try tauto; try lra;
      destruct Hd as [Hd | [Hd | Hd]]; rewrite Hd; lra.
  - intros [= <- <-]. simpl.
    repeat split; try lra; try reflexivity. now left.
Qed.

(** C1, at a concrete input: scenario A of the specification, a typing
    burst at twice the baseline speed after a long idle period. *)
Lemma C1_compute_scores_range_witness :
  let d := activity_shift_detector.init
             (Some (baseline_builder.mkBaselineProfile 200 2 0.5)) in
  let f := feature_extractor.mkFeatureVector 400 5 0%Z 0 0 0 30 0%Z in
  exists s d',
    activity_shift_detector.compute_scores d f = py.Return (s, d')
    /\ activity_shift_detector.idle_burst s == 70
    /\ 0 <= activity_shift_detector.overall s <= 70.
Proof.
  eexists. eexists.
  split; [vm_compute; reflexivity|].
  split; [reflexivity|].
  eapply (C1_compute_scores_range
            (activity_shift_detector.init
               (Some (baseline_builder.mkBaselineProfile 200 2 0.5)))
            _
            (feature_extractor.mkFeatureVector 400 5 0%Z 0 0 0 30 0%Z)).
  vm_compute. reflexivity.
Defined.

(** C2.  [compute_scores] is not total.  A baseline with a typing speed
    of zero (a calibration in which nothing was typed), met by a window
    with some idle time and some typing, reaches the unguarded division
    of the idle-burst rule: [ZeroDivisionError] is raised where the
    sibling rules return 0. *)
Theorem C2_compute_scores_zero_baseline_raises :
  let d := activity_shift_detector.init
             (Some (baseline_builder.mkBaselineProfile 0 0 0)) in
  let f := feature_extractor.mkFeatureVector 120 3.5 0%Z 0 0.5 0 30 60%Z in
  activity_shift_detector.compute_scores d f = py.Raise py.ZeroDivisionError
  /\ activity_shift_detector._detect_focus_instability
       (baseline_builder.mkBaselineProfile 0 0 0) f = py.Return 0
  /\ activity_shift_detector._detect_behavioral_drift
       (baseline_builder.mkBaselineProfile 0 0 0) f = py.Return 0.
Proof.
  repeat split; vm_compute; reflexivity.
Qed.

(** ** Risk engine *)

Section EngineFacts.
Import activity_shift_detector risk_engine engine_calls.

Lemma fold_left_Qplus (l : list Q) (a : Q) :
  fold_left Qplus l a == a + spec.Qsum l.
Proof.
  revert a. induction l as [|x l IH]; intro a; simpl.
  - lra.
  - rewrite IH. lra.
Qed.

Lemma sum_Qsum (l : list Q) : py.sum l == spec.Qsum l.
Proof. unfold py.sum. rewrite fold_left_Qplus. lra. Qed.

Lemma inject_Z_nonzero (z : Z) : z <> 0%Z -> ~ inject_Z z == 0.
Proof.
  intros Hz E. apply Hz.
  unfold Qeq in E. simpl in E. lia.
Qed.

(** What one call does: it always returns, records the clamped raw score
    and the new history, and smooths over the new history. *)
Lemma compute_risk_returns (e : RiskEngine) (s : AnomalyScores) :
  let r := clamped s in
  let h := deque_append (smoothing_window e) (_risk_history e) r in
  exists sm,
    compute_risk e s = py.Return (sm, mkRiskEngine (smoothing_window e) h r sm)
    /\ ((length h <= 1)%nat -> sm = r)
    /\ ((2 <= length h)%nat ->
        sm = 0.6 * r
             + 0.4 * (py.sum (removelast h)
                      / inject_Z (Z.of_nat (length h) - 1))).
Proof.
  intros r h. unfold compute_risk.
  fold (weighted s). fold (clamped s). fold r. fold h.
  destruct (0 <? length h)%nat eqn:E0.
  - destruct (length h =? 1)%nat eqn:E1.
    + simpl. eexists. split; [reflexivity|].
      apply Nat.eqb_eq in E1. split; [reflexivity|lia].
    + apply Nat.eqb_neq in E1. apply Nat.ltb_lt in E0.
      rewrite div_returns by (apply inject_Z_nonzero; lia).
      simpl. eexists. split; [reflexivity|].
      split; [lia|reflexivity].
  - apply Nat.ltb_ge in E0. simpl. eexists. split; [reflexivity|].
    split; [reflexivity|lia].
Qed.

End EngineFacts.

(** C3.  For every engine state and every anomaly scores,
    [compute_risk] returns, and the raw risk it records, which [raw_risk]
    then reads back, is [0.4*idle_burst + 0.35*focus_instability +
    0.25*behavioral_drift] clamped to [[0, 100]]: within the bounds, equal
    to the weighted sum when that lies in the bounds, 0 below them and 100
    above. *)
Theorem C3_raw_risk_weighted_clamp
  (e : risk_engine.RiskEngine) (s : activity_shift_detector.AnomalyScores) :
  let w := 0.4 * activity_shift_detector.idle_burst s
           + 0.35 * activity_shift_detector.focus_instability s
           + 0.25 * activity_shift_detector.behavioral_drift s in
  exists smoothed e',
    risk_engine.compute_risk e s = py.Return (smoothed, e')
    /\ 0 <= risk_engine.raw_risk e' <= 100
    /\ (0 <= w <= 100 -> risk_engine.raw_risk e' == w)
    /\ (w < 0 -> risk_engine.raw_risk e' == 0)
    /\ (100 < w -> risk_engine.raw_risk e' == 100).
Proof.
  intro w.
  destruct (compute_risk_returns e s) as (sm & Hret & _).
  eexists. eexists. split; [exact Hret|].
  unfold risk_engine.raw_risk. simpl. unfold engine_calls.clamped.
  set (ws := engine_calls.weighted s).
  assert (Hw : ws == w).
  { unfold ws, engine_calls.weighted, w, risk_engine.weight_idle_burst,
      risk_engine.weight_focus_instability,
      risk_engine.weight_behavioral_drift. reflexivity. }
  assert (H0 : 0 <= 100) by lra.
  destruct (max_min_clamp 0 100 ws H0) as (Hb & Hin & Hlo & Hhi).
  split; [exact Hb|].
  split; [intro H; rewrite Hin; lra|].
  split; [intro H; apply Hlo; lra|intro H; apply Hhi; lra].
Qed.

(** C3, at a concrete input: a fresh default engine and scores whose
    weighted sum, 36.75, lies inside the bounds. *)
Lemma C3_raw_risk_weighted_clamp_witness :
  let e := risk_engine.init 3 in
  let s := activity_shift_detector.mkAnomalyScores 70 0 35 70 in
  exists smoothed e',
    risk_engine.compute_risk e s = py.Return (smoothed, e')
    /\ risk_engine.raw_risk e' == 36.75.
Proof.
  intros e s.
  pose proof (C3_raw_risk_weighted_clamp e s) as H. cbv zeta in H.
  destruct H as (sm & e' & Hret & _ & Hin & _).
  exists sm, e'. split; [exact Hret|].
  rewrite Hin; [vm_compute; reflexivity|].
  split; vm_compute; discriminate.
Defined.

Section SmoothingFacts.
Import activity_shift_detector risk_engine engine_calls.

Lemma repeat_snoc (r : Q) (m : nat) : repeat r m ++ [r] = repeat r (S m).
Proof.
  induction m as [|m IH]; simpl; [reflexivity|]. now rewrite IH.
Qed.

Lemma removelast_repeat (r : Q) (m : nat) :
  removelast (repeat r (S m)) = repeat r m.
Proof.
  rewrite <- repeat_snoc. apply removelast_last.
Qed.

Lemma Qsum_repeat (r : Q) (m : nat) :
  spec.Qsum (repeat r m) == inject_Z (Z.of_nat m) * r.
Proof.
  induction m as [|m IH].
  - cbn [repeat spec.Qsum Z.of_nat]. change (inject_Z 0) with 0. ring.
  - cbn [repeat spec.Qsum]. rewrite IH.
    rewrite Nat2Z.inj_succ. unfold Z.succ. rewrite inject_Z_plus.
    change (inject_Z 1) with 1. ring.
Qed.

(** With capacity at least 1 the appended value is the last entry. *)
Lemma deque_append_ends (w : nat) (h : list Q) (r : Q) :
  (1 <= w)%nat ->
  deque_append w h r = removelast (deque_append w h r) ++ [r].
Proof.
  intro Hw. unfold deque_append.
  destruct (w <? length (h ++ [r]))%nat eqn:E.
  - destruct h as [|a h].
    + apply Nat.ltb_lt in E. simpl in E. lia.
    + simpl. now rewrite removelast_last.
  - now rewrite removelast_last.
Qed.

(** A bounded history whose tail is a run of [r] keeps that shape, one
    longer, after appending [r]. *)
Lemma deque_append_run (w k : nat) (h pre : list Q) (r : Q) :
  (length h <= w)%nat ->
  h = pre ++ repeat r (Nat.min k w) ->
  (length (deque_append w h r) <= w)%nat
  /\ exists pre', deque_append w h r = pre' ++ repeat r (Nat.min (S k) w).
Proof.
  intros Hlen Hh. unfold deque_append.
  assert (Hl : length h = (length pre + Nat.min k w)%nat).
  { rewrite Hh, length_app, repeat_length. reflexivity. }
  assert (Happ : h ++ [r] = pre ++ repeat r (S (Nat.min k w))).
  { rewrite Hh, <- app_assoc, repeat_snoc. reflexivity. }
  destruct (w <? length (h ++ [r]))%nat eqn:E.
  - apply Nat.ltb_lt in E. rewrite length_app in E. simpl in E.
    assert (Hw : length h = w) by lia.
    split.
    + destruct h; simpl; [lia|]. rewrite length_app. simpl in *. lia.
    + rewrite Happ. destruct pre as [|p pre].
      * exists [].
        replace (Nat.min (S k) w) with (Nat.min k w) by (simpl in Hl; lia).
        reflexivity.
      * exists pre.
        replace (Nat.min (S k) w) with (S (Nat.min k w)) by (simpl in Hl; lia).
        reflexivity.
  - apply Nat.ltb_ge in E. rewrite length_app in E. simpl in E.
    split; [rewrite length_app; simpl; lia|].
    exists pre. rewrite Happ.
    replace (Nat.min (S k) w) with (S (Nat.min k w)) by lia.
    reflexivity.
Qed.

(** Smoothing over a history that holds [r] only gives [r] back. *)
Lemma smoothing_constant_history (e : RiskEngine) (s : AnomalyScores) (m : nat) :
  deque_append (smoothing_window e) (_risk_history e) (clamped s)
  = repeat (clamped s) m ->
  exists sm e',
    compute_risk e s = py.Return (sm, e')
    /\ raw_risk e' = clamped s /\ current_risk e' = sm /\ sm == clamped s.
Proof.
  intro Hh.
  destruct (compute_risk_returns e s) as (sm & Hret & Hle & Hge).
  rewrite Hh in *. rewrite repeat_length in *.
  exists sm. eexists. split; [exact Hret|].
  split; [reflexivity|]. split; [reflexivity|].
  destruct m as [|[|m]].
  - rewrite Hle by lia. reflexivity.
  - rewrite Hle by lia. reflexivity.
  - rewrite Hge by lia.
    rewrite removelast_repeat, sum_Qsum, Qsum_repeat.
    replace (Z.of_nat (S (S m)) - 1)%Z with (Z.of_nat (S m)) by lia.
    assert (Hnz : ~ inject_Z (Z.of_nat (S m)) == 0)
      by (apply inject_Z_nonzero; lia).
    field. exact Hnz.
Qed.

Lemma feed_constant (s : AnomalyScores) (n : nat) :
  forall (e : RiskEngine) (k : nat) (pre : list Q),
    (length (_risk_history e) <= smoothing_window e)%nat ->
    _risk_history e = pre ++ repeat (clamped s) (Nat.min k (smoothing_window e)) ->
    (smoothing_window e <= k + S n)%nat ->
    exists sm e',
      feed (S n) e s = py.Return (sm, e')
      /\ raw_risk e' = clamped s /\ sm == clamped s.
Proof.
  induction n as [|n IH]; intros e k pre Hlen Hh Hk.
  - destruct (deque_append_run _ k _ pre (clamped s) Hlen Hh) as (Hlen' & pre' & Hh').
    assert (Hall : deque_append (smoothing_window e) (_risk_history e) (clamped s)
                   = repeat (clamped s) (smoothing_window e)).
    { rewrite Hh' in Hlen'. rewrite length_app, repeat_length in Hlen'.
      replace (Nat.min (S k) (smoothing_window e)) with (smoothing_window e)
        in * by lia.
      destruct pre'; [exact Hh'|simpl in Hlen'; lia]. }
    destruct (smoothing_constant_history e s _ Hall)
      as (sm & e' & Hret & Hraw & Hcur & Hsm).
    exists sm, e'. cbn [feed]. rewrite Hret. cbn [py.bind snd feed].
    rewrite Hcur. auto.
  - destruct (deque_append_run _ k _ pre (clamped s) Hlen Hh) as (Hlen' & pre' & Hh').
    destruct (compute_risk_returns e s) as (sm1 & Hret & _).
    change (feed (S (S n)) e s)
      with (r <- compute_risk e s ;; feed (S n) (snd r) s).
    rewrite Hret. cbn [py.bind snd].
    apply (IH _ (S k) pre'); cbn [smoothing_window _risk_history];
      [exact Hlen'|exact Hh'|lia].
Qed.

End SmoothingFacts.

Lemma removelast_length_Z (h : list Q) :
  (1 <= length h)%nat ->
  (Z.of_nat (length h) - 1)%Z = Z.of_nat (length (removelast h)).
Proof.
  intro Hlen. destruct h as [|a h]; [simpl in Hlen; lia|].
  assert (Hne : a :: h <> []) by discriminate.
  rewrite (app_removelast_last 0 Hne) at 1.
  rewrite length_app. simpl length. lia.
Qed.

(** C4 (as amended).  One call of [compute_risk] always returns; it
    appends the raw score [r] to the bounded history; when the history
    then holds exactly one entry, or none (capacity 0, where the append
    keeps nothing), the smoothed value is [r], otherwise it is
    [0.6*r + 0.4*mean] of the entries other than the just-appended [r],
    which is the last entry.  Feeding the same scores [n] times in a row,
    with [n >= 1] and [n] at least the smoothing window (so 3 times at the
    default window of 3), makes the smoothed value equal to the raw score
    within the floating tolerance. *)
Theorem C4_smoothing :
  (forall (e : risk_engine.RiskEngine)
          (s : activity_shift_detector.AnomalyScores),
      exists sm e',
        risk_engine.compute_risk e s = py.Return (sm, e')
        /\ risk_engine.current_risk e' = sm
        /\ risk_engine._risk_history e'
           = risk_engine.deque_append (risk_engine.smoothing_window e)
               (risk_engine._risk_history e) (risk_engine.raw_risk e')
        /\ ((1 <= risk_engine.smoothing_window e)%nat ->
            risk_engine._risk_history e'
            = removelast (risk_engine._risk_history e')
              ++ [risk_engine.raw_risk e'])
        /\ ((length (risk_engine._risk_history e') <= 1)%nat ->
            sm == risk_engine.raw_risk e')
        /\ ((2 <= length (risk_engine._risk_history e'))%nat ->
            sm == 0.6 * risk_engine.raw_risk e'
                  + 0.4 * spec.mean (removelast (risk_engine._risk_history e'))))
  /\ (forall (n : nat) (e : risk_engine.RiskEngine)
             (s : activity_shift_detector.AnomalyScores),
         (length (risk_engine._risk_history e)
          <= risk_engine.smoothing_window e)%nat ->
         (1 <= n)%nat ->
         (risk_engine.smoothing_window e <= n)%nat ->
         exists sm e',
           engine_calls.feed n e s = py.Return (sm, e')
           /\ spec.within_tolerance sm (risk_engine.raw_risk e')).
Proof.
  split.
  - intros e s.
    destruct (compute_risk_returns e s) as (sm & Hret & Hle & Hge).
    exists sm. eexists. split; [exact Hret|].
    unfold risk_engine.current_risk, risk_engine.raw_risk.
    cbn [risk_engine._last_smoothed_risk risk_engine._last_raw_risk
         risk_engine._risk_history].
    split; [reflexivity|]. split; [reflexivity|].
    split; [intro Hw; now apply deque_append_ends|].
    split.
    + intro H. rewrite (Hle H). reflexivity.
    + intro H. rewrite (Hge H). unfold spec.mean.
      rewrite sum_Qsum, removelast_length_Z by lia. reflexivity.
  - intros n e s Hlen Hn Hw.
    destruct n as [|n]; [lia|].
    destruct (feed_constant s n e 0%nat (risk_engine._risk_history e))
      as (sm & e' & Hret & Hraw & Hsm).
    + exact Hlen.
    + cbn [Nat.min repeat]. now rewrite app_nil_r.
    + lia.
    + exists sm, e'. split; [exact Hret|].
      unfold risk_engine.raw_risk in *. rewrite Hraw.
      unfold spec.within_tolerance.
      assert (E : sm - engine_calls.clamped s == 0) by (rewrite Hsm; ring).
      rewrite E. split; vm_compute; discriminate.
Qed.

(** C4, at a concrete input: a default engine that has seen two high
    scores is fed the all-zero scores three times. *)
Lemma C4_smoothing_witness :
  let e := risk_engine.mkRiskEngine 3 [70; 70] 70 70 in
  let s := activity_shift_detector.mkAnomalyScores 0 0 0 0 in
  (length (risk_engine._risk_history e) <= risk_engine.smoothing_window e)%nat
  /\ (1 <= 3)%nat
  /\ (risk_engine.smoothing_window e <= 3)%nat
  /\ exists sm e',
       engine_calls.feed 3 e s = py.Return (sm, e')
       /\ spec.within_tolerance sm (risk_engine.raw_risk e').
Proof.
  split; [simpl; lia|]. split; [lia|]. split; [simpl; lia|].
  apply (proj2 C4_smoothing 3%nat
           (risk_engine.mkRiskEngine 3 [70; 70] 70 70)
           (activity_shift_detector.mkAnomalyScores 0 0 0 0));
    simpl; lia.
Defined.

(** C4 as stated fails in two places.  For a smoothing window above 3:
    an engine with window 4 that has seen the maximal scores four times
    still averages over one of them after three all-zero inputs, and
    returns 28/3 for a raw score of 0.  For a smoothing window of 0: the
    bounded history keeps nothing, so after the append it holds no entry
    rather than exactly one, and the raw score, here 10, is returned as it
    is, not the [0.6*r + 0.4*mean] of the other case (6, with a mean of 0
    over no entries; the formula would give 10 only if that mean were the
    raw score itself). *)
Lemma C4_counterexample_windows_4_and_0 :
  let hi := activity_shift_detector.mkAnomalyScores 70 70 70 70 in
  let lo := activity_shift_detector.mkAnomalyScores 0 0 0 0 in
  let drift := activity_shift_detector.mkAnomalyScores 0 0 40 40 in
  (exists sm0 e0 sm e',
     engine_calls.feed 4 (risk_engine.init 4) hi = py.Return (sm0, e0)
     /\ (length (risk_engine._risk_history e0)
         <= risk_engine.smoothing_window e0)%nat
     /\ engine_calls.feed 3 e0 lo = py.Return (sm, e')
     /\ risk_engine.raw_risk e' == 0
     /\ sm == 28 # 3
     /\ ~ spec.within_tolerance sm (risk_engine.raw_risk e'))
  /\ (exists sm e',
        risk_engine.compute_risk (risk_engine.init 0) drift = py.Return (sm, e')
        /\ length (risk_engine._risk_history e') = 0%nat
        /\ risk_engine.raw_risk e' == 10
        /\ sm == 10
        /\ ~ sm == 0.6 * risk_engine.raw_risk e'
                   + 0.4 * spec.mean (removelast (risk_engine._risk_history e'))
        /\ forall m, sm == 0.6 * risk_engine.raw_risk e' + 0.4 * m ->
                     m == risk_engine.raw_risk e').
Proof.
  split.
  - eexists. eexists. eexists. eexists.
    split; [vm_compute; reflexivity|].
    split; [vm_compute; lia|].
    split; [vm_compute; reflexivity|].
    split; [vm_compute; reflexivity|].
    split; [vm_compute; reflexivity|].
    intros [_ H]. vm_compute in H. apply H. reflexivity.
  - eexists. eexists.
    split; [vm_compute; reflexivity|].
    split; [reflexivity|].
    split; [vm_compute; reflexivity|].
    split; [vm_compute; reflexivity|].
    split; [intro H; vm_compute in H; discriminate H|].
    cbn [risk_engine.raw_risk risk_engine._last_raw_risk].
    intros m H.
    assert (E : py.max 0 (py.min 100
                  (risk_engine.weight_idle_burst * 0
                   + risk_engine.weight_focus_instability * 0
                   + risk_engine.weight_behavioral_drift * 40)) == 10)
      by (vm_compute; reflexivity).
    rewrite E in *. lra.
Qed.

(** ** Baseline builder *)

Section BuilderFacts.
Import feature_extractor baseline_builder builder_calls.

Lemma len_cons_nonzero {A : Type} (x : A) (l : list A) :
  ~ py.len (x :: l) == 0.
Proof.
  unfold py.len. apply inject_Z_nonzero. simpl length. lia.
Qed.

(** The averages of [_build_baseline] over a non-empty list never raise. *)
Lemma build_profile_returns (first : FeatureVector) (rest : list FeatureVector)
  (cd : Q) (start : option Q) :
  let valid_features := first :: rest in
  exists p,
    (typing <-
       (if (0 <? length valid_features)%nat
        then py.div
               (fold_left (fun acc fv => acc + feature_extractor.avg_typing_speed fv)
                  valid_features 0)
               (py.len valid_features)
        else py.Return 150) ;;
     idle <-
       (if (0 <? length valid_features)%nat
        then py.div
               (fold_left (fun acc fv => acc + feature_extractor.avg_idle_duration fv)
                  valid_features 0)
               (py.len valid_features)
        else py.Return 2) ;;
     focus <-
       (match valid_features with
        | first :: _ =>
            avg_focus_per_window <-
              py.div
                (fold_left (fun acc fv => acc + inject_Z (focus_loss_count fv))
                   valid_features 0)
                (py.len valid_features) ;;
            let window_duration := window_end first - window_start first in
            let window_duration :=
              if py.leb window_duration 0 then 30 else window_duration in
            per_minute <- py.div 60 window_duration ;;
            py.Return (avg_focus_per_window * per_minute)
        | [] => py.Return 0.5
        end) ;;
     py.Return
       (mkBaselineBuilder cd [] (Some (mkBaselineProfile typing idle focus)) start))
    = py.Return (mkBaselineBuilder cd [] (Some p) start).
Proof.
  intro valid_features. unfold valid_features.
  cbn [length Nat.ltb Nat.leb].
  rewrite !div_returns by apply len_cons_nonzero.
  cbn [py.bind].
  destruct (py.leb (window_end first - window_start first) 0) eqn:E.
  - rewrite div_returns by lra. cbn [py.bind]. eauto.
  - apply leb_false in E. rewrite div_returns by lra. cbn [py.bind]. eauto.
Qed.

(** [_build_baseline] always returns.  Either it defers, leaving the
    builder as it is (some history, no window with a typing signal, fewer
    than 10 samples), or it freezes a profile and the history is empty. *)
Lemma build_baseline_cases (b : BaselineBuilder) :
  exists b',
    _build_baseline b = py.Return b'
    /\ calibration_duration b' = calibration_duration b
    /\ _calibration_start b' = _calibration_start b
    /\ ((b' = b /\ _feature_history b <> []
         /\ valid_filter (_feature_history b) = []
         /\ (length (_feature_history b) < 10)%nat)
        \/ (is_calibrated b' = true /\ _feature_history b' = [])).
Proof.
  unfold _build_baseline.
  destruct (_feature_history b) as [|f0 h] eqn:Eh.
  - eexists. split; [reflexivity|]. cbn. auto.
  - destruct (valid_filter (f0 :: h)) as [|v vs] eqn:Ev.
    + destruct (10 <=? length (f0 :: h))%nat eqn:E10.
      * destruct (build_profile_returns f0 h (calibration_duration b)
                    (_calibration_start b)) as [p Hp].
        cbv zeta in Hp. rewrite Hp.
        eexists. split; [reflexivity|]. cbn. auto.
      * apply Nat.leb_gt in E10.
        exists b. split; [reflexivity|].
        split; [reflexivity|]. split; [reflexivity|].
        left. repeat split; auto. discriminate.
    + destruct (build_profile_returns v vs (calibration_duration b)
                  (_calibration_start b)) as [p Hp].
      cbv zeta in Hp. rewrite Hp.
      eexists. split; [reflexivity|]. cbn. auto.
Qed.

(** A window that passes [_has_typing_data] also passes the filter of
    [_build_baseline]. *)
Lemma has_typing_data_valid (b : BaselineBuilder) :
  _has_typing_data b = true -> valid_filter (_feature_history b) <> [].
Proof.
  unfold _has_typing_data, valid_filter. intro H.
  apply existsb_exists in H as (fv & Hin & Hfv).
  intro Hnil.
  assert (Hv : In fv (filter
                 (fun fv => py.ltb 0 (feature_extractor.avg_typing_speed fv)
                            || (0 <? key_press_count fv)%Z)
                 (_feature_history b))).
  { apply filter_In. split; [exact Hin|].
    apply orb_true_iff in Hfv as [Hs|Hk]; apply orb_true_iff.
    - left. apply ltb_true in Hs. apply ltb_true. lra.
    - right. apply Z.ltb_lt in Hk. apply Z.ltb_lt. lia. }
  rewrite Hnil in Hv. exact Hv.
Qed.

Lemma has_typing_data_Exists (b : BaselineBuilder) :
  _has_typing_data b = true
  <-> Exists (fun fv => 5 < feature_extractor.avg_typing_speed fv
                        \/ (2 < key_press_count fv)%Z)
        (_feature_history b).
Proof.
  unfold _has_typing_data. rewrite existsb_exists, Exists_exists.
  split; intros (fv & Hin & H); exists fv; (split; [exact Hin|]).
  - apply orb_true_iff in H as [H|H]; [left; now apply ltb_true|right; lia].
  - apply orb_true_iff. destruct H as [H|H]; [left; now apply ltb_true|right; lia].
Qed.

End BuilderFacts.

Section UpdateFacts.
Import feature_extractor baseline_builder builder_calls.

Lemma is_calibrated_false (b : BaselineBuilder) :
  is_calibrated b = false <-> _baseline b = None.
Proof.
  unfold is_calibrated. destruct (_baseline b); split; congruence.
Qed.

Lemma update_calibrated (b : BaselineBuilder) (f : FeatureVector) (t : Q) :
  is_calibrated b = true -> update b f t = py.Return b.
Proof.
  unfold is_calibrated, update. destruct (_baseline b); [reflexivity|discriminate].
Qed.

(** An update inside the calibration window appends the vector, and
    builds the baseline exactly when the three early conditions hold. *)
Lemma update_within_window (b : BaselineBuilder) (f : FeatureVector)
  (t start : Q) :
  _baseline b = None ->
  _calibration_start b = Some start ->
  t - start <= calibration_duration b ->
  let b1 := mkBaselineBuilder (calibration_duration b)
              (_feature_history b ++ [f]) None (Some start) in
  let early :=
    (_min_samples_required <=? length (_feature_history b ++ [f]))%nat
    && py.leb (calibration_duration b * 0.5) (t - start)
    && _has_typing_data b1 in
  exists b',
    update b f t = py.Return b'
    /\ calibration_duration b' = calibration_duration b
    /\ _calibration_start b' = Some start
    /\ (early = true -> is_calibrated b' = true /\ _feature_history b' = [])
    /\ (early = false -> b' = b1).
Proof.
  intros Hb Hs Hin b1 early. unfold update. rewrite Hb, Hs.
  apply leb_true in Hin. rewrite Hin.
  cbn [_feature_history calibration_duration _baseline _calibration_start].
  fold b1. unfold early.
  destruct ((_min_samples_required <=? length (_feature_history b ++ [f]))%nat
            && py.leb (calibration_duration b * 0.5) (t - start)) eqn:E1;
    cbn [andb].
  - destruct (_has_typing_data b1) eqn:E2.
    + destruct (build_baseline_cases b1) as (b' & Hret & Hcd & Hst & Hcase).
      exists b'. split; [exact Hret|].
      split; [exact Hcd|]. split; [exact Hst|].
      split; [|discriminate]. intros _.
      destruct Hcase as [(_ & _ & Hnil & _)|Hok]; [|exact Hok].
      exfalso. exact (has_typing_data_valid b1 E2 Hnil).
    + exists b1. repeat split; try reflexivity; discriminate.
  - exists b1. repeat split; try reflexivity; discriminate.
Qed.

Lemma update_after_window (b : BaselineBuilder) (f : FeatureVector)
  (t start : Q) :
  _baseline b = None ->
  _calibration_start b = Some start ->
  calibration_duration b < t - start ->
  update b f t = _build_baseline b.
Proof.
  intros Hb Hs Hout. unfold update. rewrite Hb, Hs.
  apply leb_false in Hout. now rewrite Hout.
Qed.

(** [update] never raises and keeps the configured duration. *)
Lemma update_total (b : BaselineBuilder) (f : FeatureVector) (t : Q) :
  exists b',
    update b f t = py.Return b'
    /\ calibration_duration b' = calibration_duration b.
Proof.
  destruct (_baseline b) as [p|] eqn:Hb.
  - exists b. unfold update. rewrite Hb. auto.
  - destruct (_calibration_start b) as [start|] eqn:Hs.
    + destruct (Qlt_le_dec (calibration_duration b) (t - start)) as [Hout|Hin].
      * rewrite (update_after_window b f t start Hb Hs Hout).
        destruct (build_baseline_cases b) as (b' & Hret & Hcd & _).
        eauto.
      * destruct (update_within_window b f t start Hb Hs Hin)
          as (b' & Hret & Hcd & _).
        eauto.
    + unfold update. rewrite Hb, Hs. eexists. split; reflexivity.
Qed.

(** The step that calibrates: from an uncalibrated builder, an update
    yields a baseline only with at least 5 samples in the history, or
    past the calibration duration. *)
Lemma update_calibrates (b b' : BaselineBuilder) (f : FeatureVector) (t : Q) :
  update b f t = py.Return b' ->
  is_calibrated b = false ->
  is_calibrated b' = true ->
  exists start,
    _calibration_start b = Some start
    /\ ((t - start <= calibration_duration b
         /\ (5 <= length (_feature_history b ++ [f]))%nat)
        \/ calibration_duration b < t - start).
Proof.
  intros Hup Hb Hb'. apply is_calibrated_false in Hb.
  destruct (_calibration_start b) as [start|] eqn:Hs.
  - exists start. split; [reflexivity|].
    destruct (Qlt_le_dec (calibration_duration b) (t - start)) as [Hout|Hin];
      [now right|left].
    split; [exact Hin|].
    destruct (update_within_window b f t start Hb Hs Hin)
      as (b2 & Hret & _ & _ & _ & Hlate).
    rewrite Hret in Hup. injection Hup as ->.
    destruct ((_min_samples_required <=? length (_feature_history b ++ [f]))%nat)
      eqn:E5.
    + apply Nat.leb_le in E5. exact E5.
    + rewrite (Hlate eq_refl) in Hb'. discriminate Hb'.
  - unfold update in Hup. rewrite Hb, Hs in Hup. injection Hup as <-.
    discriminate Hb'.
Qed.

Lemma run_app (b : BaselineBuilder) (l1 l2 : list Call) :
  run b (l1 ++ l2) = (b1 <- run b l1 ;; run b1 l2).
Proof.
  revert b. induction l1 as [|c l1 IH]; intro b; [reflexivity|].
  cbn [app run]. destruct (step b c) as [b1|e]; [|reflexivity].
  cbn [py.bind]. apply IH.
Qed.

Lemma step_duration (b b' : BaselineBuilder) (c : Call) :
  step b c = py.Return b' -> calibration_duration b' = calibration_duration b.
Proof.
  destruct c as [t|f t|]; cbn [step].
  - intros [= <-]. reflexivity.
  - intro H. destruct (update_total b f t) as (b2 & Hret & Hcd).
    rewrite Hret in H. now injection H as <-.
  - intros [= <-]. reflexivity.
Qed.

Lemma run_duration (calls : list Call) :
  forall b b', run b calls = py.Return b' ->
               calibration_duration b' = calibration_duration b.
Proof.
  induction calls as [|c calls IH]; intros b b'; cbn [run].
  - intros [= <-]. reflexivity.
  - destruct (step b c) as [b1|e] eqn:Es; cbn [py.bind]; [|discriminate].
    intro H. rewrite (IH _ _ H). exact (step_duration _ _ _ Es).
Qed.

(** Every call sequence runs to completion. *)
Lemma run_total (calls : list Call) :
  forall b, exists b', run b calls = py.Return b'.
Proof.
  induction calls as [|c calls IH]; intro b; cbn [run]; [eauto|].
  destruct c as [t|f t|]; cbn [step py.bind]; try apply IH.
  destruct (update_total b f t) as (b1 & -> & _). cbn [py.bind]. apply IH.
Qed.

End UpdateFacts.

Section ObservedFacts.
Import feature_extractor baseline_builder builder_calls.

Lemma subseq_nil_l {A : Type} (l : list A) : spec.subseq [] l.
Proof. induction l; constructor; assumption. Qed.

Lemma subseq_snoc_skip {A : Type} (l1 l2 : list A) (x : A) :
  spec.subseq l1 l2 -> spec.subseq l1 (l2 ++ [x]).
Proof.
  induction 1; cbn [app].
  - repeat constructor.
  - now constructor.
  - now constructor.
Qed.

Lemma subseq_snoc_take {A : Type} (l1 l2 : list A) (x : A) :
  spec.subseq l1 l2 -> spec.subseq (l1 ++ [x]) (l2 ++ [x]).
Proof.
  induction 1; cbn [app].
  - apply spec.subseq_take, spec.subseq_nil.
  - now constructor.
  - now constructor.
Qed.

Lemma subseq_length {A : Type} (l1 l2 : list A) :
  spec.subseq l1 l2 -> (length l1 <= length l2)%nat.
Proof. induction 1; cbn [length]; lia. Qed.

(** After an update the history is what it was, or that with the new
    vector appended, or empty. *)
Lemma update_history (b b' : BaselineBuilder) (f : FeatureVector) (t : Q) :
  update b f t = py.Return b' ->
  _feature_history b' = _feature_history b
  \/ _feature_history b' = _feature_history b ++ [f]
  \/ _feature_history b' = [].
Proof.
  intro Hup.
  destruct (_baseline b) as [p|] eqn:Hb.
  - unfold update in Hup. rewrite Hb in Hup. injection Hup as <-. now left.
  - destruct (_calibration_start b) as [start|] eqn:Hs.
    + destruct (Qlt_le_dec (calibration_duration b) (t - start)) as [Hout|Hin].
      * rewrite (update_after_window b f t start Hb Hs Hout) in Hup.
        destruct (build_baseline_cases b) as (b2 & Hret & _ & _ & Hcase).
        rewrite Hret in Hup. injection Hup as <-.
        destruct Hcase as [(-> & _)|(_ & Hnil)]; [now left|now right; right].
      * destruct (update_within_window b f t start Hb Hs Hin)
          as (b2 & Hret & _ & _ & Hearly & Hlate).
        rewrite Hret in Hup. injection Hup as <-.
        cbv zeta in Hearly, Hlate.
        match type of Hearly with
        | ?e = true -> _ => destruct e
        end.
        -- right; right. now apply Hearly.
        -- right; left. now rewrite (Hlate eq_refl).
    + unfold update in Hup. rewrite Hb, Hs in Hup. injection Hup as <-.
      now right; right.
Qed.

(** The history only holds vectors that were passed to [update] during
    the calibration in progress. *)
Lemma history_observed (calls : list Call) :
  forall (b b' : BaselineBuilder) (seen : list FeatureVector),
    spec.subseq (_feature_history b) seen ->
    run b calls = py.Return b' ->
    spec.subseq (_feature_history b') (fold_left observe calls seen).
Proof.
  induction calls as [|c calls IH]; intros b b' seen Hsub Hrun.
  - cbn in Hrun. injection Hrun as <-. exact Hsub.
  - cbn [run] in Hrun.
    destruct (step b c) as [b1|e] eqn:Hstep; cbn [py.bind] in Hrun;
      [|discriminate].
    cbn [fold_left]. apply (IH b1); [|exact Hrun].
    destruct c as [t0|f t|]; cbn [step observe] in *.
    + injection Hstep as <-. apply spec.subseq_nil.
    + destruct (update_history b b1 f t Hstep) as [-> | [-> | ->]].
      * now apply subseq_snoc_skip.
      * now apply subseq_snoc_take.
      * apply subseq_nil_l.
    + injection Hstep as <-. apply spec.subseq_nil.
Qed.

End ObservedFacts.

(** C5.  In every state a fresh builder reaches through
    [start_calibration], [update] and [reset] calls: if it is calibrated,
    the baseline it holds was frozen by one [update] call of the sequence,
    made on an uncalibrated builder in calibration, and at that call
    either the history, with the new vector, held at least 5 samples, or
    the call came more than [calibration_duration] after the calibration
    start (the forced finalisation, which may use fewer samples or the
    fallback profile).  The samples of the history were observed during
    that calibration: they are vectors that [update] calls passed after
    the last [start_calibration] or [reset] call before the freezing
    call, in the order they were passed. *)
Theorem C5_calibrated_needs_samples_or_timeout
  (cd : Q) (calls : list builder_calls.Call)
  (b : baseline_builder.BaselineBuilder) :
  builder_calls.run (baseline_builder.init cd) calls = py.Return b ->
  baseline_builder.is_calibrated b = true ->
  exists pre f t post b0 b1 start,
    calls = pre ++ builder_calls.Update f t :: post
    /\ builder_calls.run (baseline_builder.init cd) pre = py.Return b0
    /\ baseline_builder.is_calibrated b0 = false
    /\ baseline_builder._calibration_start b0 = Some start
    /\ baseline_builder.update b0 f t = py.Return b1
    /\ baseline_builder.is_calibrated b1 = true
    /\ baseline_builder._baseline b = baseline_builder._baseline b1
    /\ spec.subseq (baseline_builder._feature_history b0 ++ [f])
         (builder_calls.observed_in_calibration
            (pre ++ [builder_calls.Update f t]))
    /\ ((t - start <= cd
         /\ (5 <= length (baseline_builder._feature_history b0 ++ [f]))%nat)
        \/ cd < t - start).
Proof.
  revert b. induction calls as [|c calls IH] using rev_ind; intros b Hrun Hcal.
  - cbn in Hrun. injection Hrun as <-. discriminate Hcal.
  - rewrite run_app in Hrun.
    destruct (builder_calls.run (baseline_builder.init cd) calls)
      as [bp|e] eqn:Hprev; cbn [py.bind] in Hrun; [|discriminate].
    cbn [builder_calls.run] in Hrun.
    destruct (builder_calls.step bp c) as [bn|e] eqn:Hstep;
      cbn [py.bind] in Hrun; [|discriminate].
    injection Hrun as <-.
    destruct c as [t0|f t|]; cbn [builder_calls.step] in Hstep.
    + injection Hstep as <-. discriminate Hcal.
    + destruct (baseline_builder.is_calibrated bp) eqn:Hbp.
      * rewrite (update_calibrated bp f t Hbp) in Hstep.
        injection Hstep as <-.
        destruct (IH bp eq_refl Hbp)
          as (pre & f' & t' & post & b0 & b1 & start & -> & H).
        exists pre, f', t', (post ++ [builder_calls.Update f t]), b0, b1, start.
        split; [now rewrite <- app_assoc|exact H].
      * destruct (update_calibrates bp bn f t Hstep Hbp Hcal)
          as (start & Hs & Hwhy).
        exists calls, f, t, [], bp, bn, start.
        rewrite (run_duration _ _ _ Hprev) in Hwhy.
        cbn [baseline_builder.init baseline_builder.calibration_duration] in Hwhy.
        assert (Hobs : spec.subseq (baseline_builder._feature_history bp)
                         (builder_calls.observed_in_calibration calls)).
        { apply (history_observed calls (baseline_builder.init cd) bp []);
            [constructor|exact Hprev]. }
        repeat split; auto.
        unfold builder_calls.observed_in_calibration.
        rewrite fold_left_app. cbn [fold_left builder_calls.observe].
        now apply subseq_snoc_take.
    + injection Hstep as <-. discriminate Hcal.
Qed.

(** C5, at a concrete input: an earlier calibration of three windows is
    abandoned by [start_calibration]; the new one stores six windows with
    typing, and the last of them, at half of the calibration duration,
    freezes the baseline from exactly those six. *)
Lemma C5_calibrated_needs_samples_or_timeout_witness :
  let fv t := feature_extractor.mkFeatureVector 120 1 0%Z 0 0.5 (t - 30) t 60%Z in
  let calls :=
    map (fun t => builder_calls.Update (fv t) t) [0; 15; 30; 45]
    ++ builder_calls.StartCalibration 50
    :: map (fun t => builder_calls.Update (fv t) t) [65; 80; 95; 110; 125; 140] in
  exists b,
    builder_calls.run (baseline_builder.init 180) calls = py.Return b
    /\ baseline_builder.is_calibrated b = true
    /\ exists pre f t post b0 b1 start,
         calls = pre ++ builder_calls.Update f t :: post
         /\ builder_calls.run (baseline_builder.init 180) pre = py.Return b0
         /\ baseline_builder.is_calibrated b0 = false
         /\ baseline_builder._calibration_start b0 = Some start
         /\ baseline_builder.update b0 f t = py.Return b1
         /\ baseline_builder.is_calibrated b1 = true
         /\ baseline_builder._baseline b = baseline_builder._baseline b1
         /\ spec.subseq (baseline_builder._feature_history b0 ++ [f])
              (builder_calls.observed_in_calibration
                 (pre ++ [builder_calls.Update f t]))
         /\ ((t - start <= 180
              /\ (5 <= length (baseline_builder._feature_history b0 ++ [f]))%nat)
             \/ 180 < t - start).
Proof.
  intros fv calls.
  eexists. split; [vm_compute; reflexivity|].
  split; [reflexivity|].
  apply (C5_calibrated_needs_samples_or_timeout 180 calls);
    [vm_compute; reflexivity|reflexivity].
Defined.

(** C6 (as amended).  For a calibrating builder and an update inside the
    calibration window, the baseline is built by this call exactly when,
    after the new vector is appended, (a) the history holds at least 5
    samples, (b) at least half of the calibration duration has elapsed,
    and (c) some sample has a typing speed above 5.0 or a key-press count
    above 2.  The build then succeeds and clears the history; otherwise
    the builder keeps calibrating with the vector appended. *)
Theorem C6_early_build
  (b : baseline_builder.BaselineBuilder)
  (f : feature_extractor.FeatureVector) (t start : Q) :
  baseline_builder._baseline b = None ->
  baseline_builder._calibration_start b = Some start ->
  t - start <= baseline_builder.calibration_duration b ->
  let h := baseline_builder._feature_history b ++ [f] in
  let conditions :=
    (5 <= length h)%nat
    /\ baseline_builder.calibration_duration b * 0.5 <= t - start
    /\ Exists (fun fv => 5 < feature_extractor.avg_typing_speed fv
                         \/ (2 < feature_extractor.key_press_count fv)%Z) h in
  exists b',
    baseline_builder.update b f t = py.Return b'
    /\ (baseline_builder.is_calibrated b' = true <-> conditions)
    /\ (conditions -> baseline_builder._feature_history b' = [])
    /\ (~ conditions ->
        baseline_builder._feature_history b' = h
        /\ baseline_builder._calibration_start b' = Some start).
Proof.
  intros Hb Hs Hin h conditions.
  destruct (update_within_window b f t start Hb Hs Hin)
    as (b' & Hret & _ & Hst & Hearly & Hlate).
  cbv zeta in Hearly, Hlate.
  set (b1 := baseline_builder.mkBaselineBuilder
               (baseline_builder.calibration_duration b)
               (baseline_builder._feature_history b ++ [f]) None (Some start))
    in *.
  set (early := ((baseline_builder._min_samples_required
                  <=? length (baseline_builder._feature_history b ++ [f]))%nat
                 && py.leb (baseline_builder.calibration_duration b * 0.5)
                      (t - start)
                 && baseline_builder._has_typing_data b1)) in *.
  assert (Hiff : early = true <-> conditions).
  { unfold early, conditions, h.
    rewrite !andb_true_iff, Nat.leb_le, leb_true, has_typing_data_Exists.
    unfold baseline_builder._min_samples_required. cbn. tauto. }
  exists b'. split; [exact Hret|].
  destruct early eqn:E.
  - destruct (Hearly eq_refl) as [Hc Hh].
    assert (Hcond : conditions) by now apply Hiff.
    split; [tauto|]. split; [auto|]. intro Hn. contradiction.
  - rewrite (Hlate eq_refl).
    assert (Hn : ~ conditions) by (intro Hc; apply Hiff in Hc; discriminate).
    split; [split; [discriminate|contradiction]|].
    split; [contradiction|]. intros _. split; reflexivity.
Qed.

(** C6, at a concrete input: four stored windows and a fifth one with
    typing, at half of the calibration duration. *)
Lemma C6_early_build_witness :
  let fv := feature_extractor.mkFeatureVector 120 1 0%Z 0 0.5 60 90 60%Z in
  let b := baseline_builder.mkBaselineBuilder 180 [fv; fv; fv; fv] None (Some 0) in
  exists b',
    baseline_builder.update b fv 90 = py.Return b'
    /\ baseline_builder.is_calibrated b' = true
    /\ baseline_builder._feature_history b' = [].
Proof.
  intros fv b.
  destruct (C6_early_build b fv 90 0) as (b' & Hret & Hiff & Hclear & _);
    [reflexivity|reflexivity|vm_compute; discriminate|].
  assert (Hc : (5 <= length (baseline_builder._feature_history b ++ [fv]))%nat
               /\ baseline_builder.calibration_duration b * 0.5 <= 90 - 0
               /\ Exists
                    (fun v => 5 < feature_extractor.avg_typing_speed v
                              \/ (2 < feature_extractor.key_press_count v)%Z)
                    (baseline_builder._feature_history b ++ [fv])).
  { split; [simpl; lia|]. split; [vm_compute; discriminate|].
    apply Exists_cons_hd. left. vm_compute. reflexivity. }
  exists b'. split; [exact Hret|]. split; [now apply Hiff|now apply Hclear].
Defined.

(** C6 as stated fails: five windows with a single key press each (a
    nonzero key-press count, no typing speed), at more than half of the
    calibration duration, do not trigger the build. *)
Lemma C6_counterexample_single_key_press :
  let fv := feature_extractor.mkFeatureVector 0 0 0%Z 0 0 70 100 1%Z in
  let b := baseline_builder.mkBaselineBuilder 180 [fv; fv; fv; fv] None (Some 0) in
  let h := baseline_builder._feature_history b ++ [fv] in
  100 - 0 <= baseline_builder.calibration_duration b
  /\ (5 <= length h)%nat
  /\ baseline_builder.calibration_duration b * 0.5 <= 100 - 0
  /\ Exists (fun v => feature_extractor.key_press_count v <> 0%Z) h
  /\ exists b',
       baseline_builder.update b fv 100 = py.Return b'
       /\ baseline_builder.is_calibrated b' = false
       /\ baseline_builder._feature_history b' = h.
Proof.
  cbv zeta.
  split; [vm_compute; discriminate|].
  split; [simpl; lia|].
  split; [vm_compute; discriminate|].
  split; [apply Exists_cons_hd; simpl; lia|].
  eexists. split; [vm_compute; reflexivity|]. split; reflexivity.
Qed.

(** C10.  On a builder that is neither calibrating nor calibrated,
    [update(f, t)] starts the calibration at [t] and drops [f]: the
    history is empty after the call, whatever it held before, and no
    baseline is set. *)
Theorem C10_first_update_discarded
  (b : baseline_builder.BaselineBuilder)
  (f : feature_extractor.FeatureVector) (t : Q) :
  baseline_builder._calibration_start b = None ->
  baseline_builder._baseline b = None ->
  exists b',
    baseline_builder.update b f t = py.Return b'
    /\ baseline_builder._calibration_start b' = Some t
    /\ baseline_builder._feature_history b' = []
    /\ ~ In f (baseline_builder._feature_history b')
    /\ baseline_builder.is_calibrated b' = false
    /\ baseline_builder.calibration_duration b'
       = baseline_builder.calibration_duration b.
Proof.
  intros Hs Hb. unfold baseline_builder.update. rewrite Hb, Hs.
  eexists. split; [reflexivity|]. cbn. repeat split; auto.
Qed.

(** C10, at a concrete input: the first update of a fresh builder. *)
Lemma C10_first_update_discarded_witness :
  let f := feature_extractor.mkFeatureVector 120 1 0%Z 0 0.5 0 30 60%Z in
  exists b',
    baseline_builder.update (baseline_builder.init 180) f 30 = py.Return b'
    /\ baseline_builder._calibration_start b' = Some 30
    /\ baseline_builder._feature_history b' = []
    /\ ~ In f (baseline_builder._feature_history b')
    /\ baseline_builder.is_calibrated b' = false
    /\ baseline_builder.calibration_duration b'
       = baseline_builder.calibration_duration (baseline_builder.init 180).
Proof.
  intro f.
  apply (C10_first_update_discarded (baseline_builder.init 180) f 30);
    reflexivity.
Defined.

(** A baseline with typing speed 0 is reachable: a calibration with ten
    windows in which nothing was typed, finalised by the timeout, freezes
    such a profile, and the detector that receives it raises on a window
    with some idle time and some typing. *)
Lemma zero_baseline_reachable :
  let fv t := feature_extractor.mkFeatureVector 0 0 0%Z 0 0 (t - 30) t 0%Z in
  let calls :=
    map (fun t => builder_calls.Update (fv t) t)
      [0; 10; 20; 30; 40; 50; 60; 70; 80; 90; 100; 181] in
  exists b p,
    builder_calls.run (baseline_builder.init 180) calls = py.Return b
    /\ baseline_builder.baseline b = Some p
    /\ baseline_builder.avg_typing_speed p == 0
    /\ activity_shift_detector.compute_scores
         (activity_shift_detector.set_baseline
            (activity_shift_detector.init None) p)
         (feature_extractor.mkFeatureVector 120 3.5 0%Z 0 0.5 0 30 60%Z)
       = py.Raise py.ZeroDivisionError.
Proof.
  eexists. eexists.
  split; [vm_compute; reflexivity|].
  split; [reflexivity|].
  split; vm_compute; reflexivity.
Qed.

(** ** Feature extractor *)

Section ExtractorFacts.
Import models feature_extractor.
Variable sqrt : Q -> Q.

Lemma intervals_length (ts : list Q) :
  length (intervals ts) = (length ts - 1)%nat.
Proof.
  induction ts as [|a [|b ts] IH]; try reflexivity.
  change (intervals (a :: b :: ts)) with ((b - a) :: intervals (b :: ts)).
  cbn [length] in *. rewrite IH. lia.
Qed.

Lemma len_nonzero {A : Type} (l : list A) :
  (1 <= length l)%nat -> ~ py.len l == 0.
Proof.
  intro H. unfold py.len. apply inject_Z_nonzero. lia.
Qed.

Lemma idle_average_returns (buf : list BaseEvent) :
  exists x,
    match idle_durations buf with
    | [] => py.Return 0
    | _ :: _ => py.div (py.sum (idle_durations buf)) (py.len (idle_durations buf))
    end = py.Return x.
Proof.
  destruct (idle_durations buf) as [|d ds]; [eauto|].
  rewrite div_returns by (apply len_nonzero; simpl; lia). eauto.
Qed.

Lemma mouse_speed_returns (buf : list BaseEvent) :
  let ps := mouse_positions buf in
  exists x,
    (if (2 <=? length ps)%nat then
       if py.ltb 0 (fst (fst (last ps (0, 0%Z, 0%Z)))
                    - fst (fst (hd (0, 0%Z, 0%Z) ps)))
       then py.div (total_distance sqrt ps)
              (fst (fst (last ps (0, 0%Z, 0%Z)))
               - fst (fst (hd (0, 0%Z, 0%Z) ps)))
       else py.Return 0
     else py.Return 0) = py.Return x.
Proof.
  intro ps. destruct (2 <=? length ps)%nat; [|eauto].
  destruct (py.ltb 0 _) eqn:E; [|eauto].
  apply ltb_true in E. rewrite div_returns by lra. eauto.
Qed.

(** [compute_features] always returns; the buffer it leaves is the pruned
    one, and the keystroke features are as follows. *)
Lemma compute_features_returns (ex : FeatureExtractor) (now : Q) :
  let ex' := _prune_buffer ex now in
  let presses := press_timestamps (_event_buffer ex') in
  let window_len := now - (now - window_duration ex) in
  exists fv,
    compute_features sqrt ex now = py.Return (fv, ex')
    /\ window_start fv = now - window_duration ex
    /\ window_end fv = now
    /\ key_press_count fv = Z.of_nat (length presses)
    /\ focus_loss_count fv = count_focus_lost (_event_buffer ex')
    /\ ((2 <= length presses)%nat ->
        inter_key_interval fv
        = py.sum (intervals presses) / py.len (intervals presses)
        /\ (0 < window_len ->
            avg_typing_speed fv = py.len presses / window_len * 60)
        /\ (window_len <= 0 -> avg_typing_speed fv = 0))
    /\ ((length presses < 2)%nat ->
        inter_key_interval fv = 0 /\ avg_typing_speed fv = 0).
Proof.
  intros ex' presses window_len. unfold compute_features. cbv zeta.
  fold ex'. fold presses.
  change (window_duration ex') with (window_duration ex). fold window_len.
  destruct (idle_average_returns (_event_buffer ex')) as [idle ->].
  destruct (mouse_speed_returns (_event_buffer ex')) as [mouse Hm].
  cbv zeta in Hm.
  destruct (2 <=? length presses)%nat eqn:E2.
  - apply Nat.leb_le in E2.
    rewrite (div_returns (py.sum (intervals presses)))
      by (apply len_nonzero; rewrite intervals_length; lia).
    cbn [py.bind].
    destruct (py.ltb 0 window_len) eqn:Ew.
    + apply ltb_true in Ew. rewrite div_returns by lra.
      cbn [py.bind]. rewrite Hm. cbn [py.bind].
      eexists. split; [reflexivity|].
      cbn [window_start window_end key_press_count focus_loss_count
           inter_key_interval avg_typing_speed].
      repeat split; try reflexivity; intros; try lia; try lra.
    + apply ltb_false in Ew.
      cbn [py.bind]. rewrite Hm. cbn [py.bind].
      eexists. split; [reflexivity|].
      cbn [window_start window_end key_press_count focus_loss_count
           inter_key_interval avg_typing_speed].
      repeat split; try reflexivity; intros; try lia; try lra.
  - apply Nat.leb_gt in E2.
    cbn [py.bind]. rewrite Hm. cbn [py.bind].
    eexists. split; [reflexivity|].
      cbn [window_start window_end key_press_count focus_loss_count
           inter_key_interval avg_typing_speed].
    repeat split; try reflexivity; intros; try lia.
Qed.

End ExtractorFacts.

Section BufferFacts.
Import models feature_extractor.

Lemma popleft_Forall (P : BaseEvent -> Prop) (cutoff : Q) (buf : list BaseEvent) :
  Forall P buf -> Forall P (popleft_while_older cutoff buf).
Proof.
  induction 1 as [|e rest He Hrest IH]; cbn [popleft_while_older]; [constructor|].
  destruct (py.ltb (timestamp e) cutoff); [exact IH|now constructor].
Qed.

Lemma popleft_ordered (cutoff : Q) (buf : list BaseEvent) :
  spec.ordered buf -> spec.ordered (popleft_while_older cutoff buf).
Proof.
  unfold spec.ordered.
  induction 1 as [|e rest Hrest IH He]; cbn [popleft_while_older]; [constructor|].
  destruct (py.ltb (timestamp e) cutoff); [exact IH|now constructor].
Qed.

(** Pruning an ordered buffer keeps exactly the events that are not older
    than the cutoff. *)
Lemma popleft_filter (cutoff : Q) (buf : list BaseEvent) :
  spec.ordered buf ->
  popleft_while_older cutoff buf
  = filter (fun e => py.leb cutoff (timestamp e)) buf.
Proof.
  unfold spec.ordered.
  induction 1 as [|e rest Hrest IH He]; cbn [popleft_while_older filter];
    [reflexivity|].
  destruct (py.ltb (timestamp e) cutoff) eqn:E.
  - apply ltb_true in E.
    assert (El : py.leb cutoff (timestamp e) = false) by now apply leb_false.
    rewrite El. exact IH.
  - apply ltb_false in E.
    assert (El : py.leb cutoff (timestamp e) = true) by now apply leb_true.
    rewrite El. f_equal.
    clear IH Hrest. induction He as [|x rest Hx Hall IH]; [reflexivity|].
    cbn [filter].
    assert (Ex : py.leb cutoff (timestamp x) = true) by (apply leb_true; lra).
    rewrite Ex. now rewrite <- IH.
Qed.

Lemma popleft_none_older (cutoff : Q) (buf : list BaseEvent) :
  spec.ordered buf -> spec.none_older cutoff (popleft_while_older cutoff buf).
Proof.
  intro Ho. rewrite (popleft_filter cutoff buf Ho).
  unfold spec.none_older. apply Forall_forall.
  intros e He. apply filter_In in He as [_ He]. now apply leb_true.
Qed.

Lemma insert_Forall (P : BaseEvent -> Prop) (event : BaseEvent)
  (buf : list BaseEvent) :
  P event -> Forall P buf -> Forall P (insert_out_of_order event buf).
Proof.
  intros Pe. induction 1 as [|e rest He Hrest IH];
    cbn [insert_out_of_order]; [constructor|].
  destruct (py.ltb (timestamp event) (timestamp e)); repeat constructor; auto.
Qed.

Lemma insert_ordered (event : BaseEvent) (buf : list BaseEvent) :
  spec.ordered buf -> spec.ordered (insert_out_of_order event buf).
Proof.
  unfold spec.ordered.
  induction 1 as [|e rest Hrest IH He]; cbn [insert_out_of_order]; [constructor|].
  destruct (py.ltb (timestamp event) (timestamp e)) eqn:E.
  - apply ltb_true in E. constructor; [now constructor|].
    constructor; [lra|].
    eapply Forall_impl; [|exact He]. cbn. intros x Hx. lra.
  - apply ltb_false in E. constructor; [exact IH|].
    apply insert_Forall; assumption.
Qed.

Lemma snoc_ordered (buf : list BaseEvent) (event : BaseEvent) :
  spec.ordered buf ->
  Forall (fun x => timestamp x <= timestamp event) buf ->
  spec.ordered (buf ++ [event]).
Proof.
  unfold spec.ordered.
  induction 1 as [|e rest Hrest IH He]; intro Hall; cbn [app].
  - repeat constructor.
  - inversion Hall as [|? ? Hx Hr]; subst.
    constructor; [now apply IH|].
    apply Forall_app. split; [exact He|]. now repeat constructor.
Qed.

(** In an ordered buffer nothing is later than the last event. *)
Lemma ordered_last (buf : list BaseEvent) (l : BaseEvent) (pre : list BaseEvent) :
  spec.ordered buf -> rev buf = l :: pre ->
  Forall (fun x => timestamp x <= timestamp l) buf.
Proof.
  intros Ho Hrev.
  assert (Hb : buf = rev pre ++ [l]).
  { rewrite <- (rev_involutive buf), Hrev. reflexivity. }
  subst buf. clear Hrev. unfold spec.ordered in Ho.
  induction (rev pre) as [|x xs IH]; cbn [app] in *.
  - repeat constructor. lra.
  - inversion Ho as [|? ? Hs Hall]; subst.
    constructor; [|now apply IH].
    apply Forall_app in Hall as [_ Hl]. now inversion Hl.
Qed.

Lemma add_event_ordered (ex : FeatureExtractor) (event : BaseEvent) :
  spec.ordered (_event_buffer ex) ->
  spec.ordered (_event_buffer (add_event ex event)).
Proof.
  intro Ho. unfold add_event.
  destruct (rev (_event_buffer ex)) as [|l pre] eqn:Hrev.
  - cbn [_event_buffer].
    assert (Hnil : _event_buffer ex = []).
    { rewrite <- (rev_involutive (_event_buffer ex)), Hrev. reflexivity. }
    rewrite Hnil. repeat constructor.
  - destruct (py.leb (timestamp l) (timestamp event)) eqn:E; cbn [_event_buffer].
    + apply leb_true in E. apply snoc_ordered; [exact Ho|].
      eapply Forall_impl; [|exact (ordered_last _ _ _ Ho Hrev)].
      cbn. intros x Hx. lra.
    + now apply insert_ordered.
Qed.

Lemma add_event_none_older (bound : Q) (ex : FeatureExtractor) (event : BaseEvent) :
  bound <= timestamp event ->
  spec.none_older bound (_event_buffer ex) ->
  spec.none_older bound (_event_buffer (add_event ex event)).
Proof.
  intros He Hall. unfold add_event, spec.none_older in *.
  destruct (rev (_event_buffer ex)) as [|l pre]; cbn [_event_buffer].
  - apply Forall_app. split; [exact Hall|now repeat constructor].
  - destruct (py.leb (timestamp l) (timestamp event)); cbn [_event_buffer].
    + apply Forall_app. split; [exact Hall|now repeat constructor].
    + now apply insert_Forall.
Qed.

Lemma add_event_window (ex : FeatureExtractor) (event : BaseEvent) :
  window_duration (add_event ex event) = window_duration ex.
Proof.
  unfold add_event. destruct (rev _); [reflexivity|].
  destruct (py.leb _ _); reflexivity.
Qed.

End BufferFacts.

Section ExtractorRuns.
Import models feature_extractor extractor_calls.
Variable sqrt : Q -> Q.

Lemma step_returns (ex : FeatureExtractor) (c : Call) :
  exists ex',
    step sqrt ex c = py.Return ex'
    /\ window_duration ex' = window_duration ex
    /\ (spec.ordered (_event_buffer ex) -> spec.ordered (_event_buffer ex')).
Proof.
  destruct c as [event|now]; cbn [step].
  - eexists. split; [reflexivity|].
    split; [apply add_event_window|apply add_event_ordered].
  - destruct (compute_features_returns sqrt ex now) as (fv & Hret & _).
    cbv zeta in Hret. rewrite Hret. cbn [py.bind snd].
    eexists. split; [reflexivity|].
    split; [reflexivity|]. cbn [_prune_buffer _event_buffer].
    apply popleft_ordered.
Qed.

Lemma extractor_run_app (ex : FeatureExtractor) (l1 l2 : list Call) :
  run sqrt ex (l1 ++ l2) = (ex1 <- run sqrt ex l1 ;; run sqrt ex1 l2).
Proof.
  revert ex. induction l1 as [|c l1 IH]; intro ex; [reflexivity|].
  cbn [app run]. destruct (step sqrt ex c) as [ex1|e]; [|reflexivity].
  cbn [py.bind]. apply IH.
Qed.

(** Every call sequence runs to completion, keeps the window duration
    and keeps the buffer ordered. *)
Lemma extractor_run_ordered (calls : list Call) :
  forall ex,
    exists ex',
      run sqrt ex calls = py.Return ex'
      /\ window_duration ex' = window_duration ex
      /\ (spec.ordered (_event_buffer ex) -> spec.ordered (_event_buffer ex')).
Proof.
  induction calls as [|c calls IH]; intro ex; cbn [run].
  - exists ex. auto.
  - destruct (step_returns ex c) as (ex1 & -> & Hw1 & Ho1). cbn [py.bind].
    destruct (IH ex1) as (ex' & Hret & Hw & Ho).
    exists ex'. split; [exact Hret|]. split; [congruence|auto].
Qed.

(** With timely deliveries, no buffered event is older than the window
    that ends at the most recent reference time. *)
Lemma extractor_run_timely (calls : list Call) :
  forall ex seen ex',
    spec.ordered (_event_buffer ex) ->
    match seen with
    | Some t => spec.none_older (t - window_duration ex) (_event_buffer ex)
    | None => True
    end ->
    timely (window_duration ex) calls seen ->
    run sqrt ex calls = py.Return ex' ->
    match last_reference calls seen with
    | Some t => spec.none_older (t - window_duration ex) (_event_buffer ex')
    | None => True
    end.
Proof.
  induction calls as [|c calls IH]; intros ex seen ex' Ho Hinv Ht Hrun.
  - cbn in Hrun. injection Hrun as <-. exact Hinv.
  - cbn [run] in Hrun.
    destruct (step_returns ex c) as (ex1 & Hstep & Hw1 & Ho1).
    rewrite Hstep in Hrun. cbn [py.bind] in Hrun.
    destruct c as [event|now]; cbn [last_reference timely step] in *.
    + injection Hstep as <-. destruct Ht as [Hev Ht].
      rewrite <- Hw1. apply (IH _ seen ex'); auto.
      * destruct seen as [t|]; [|exact I].
        rewrite Hw1. now apply add_event_none_older.
      * now rewrite Hw1.
    + destruct (compute_features_returns sqrt ex now) as (fv & Hret & _).
      cbv zeta in Hret. rewrite Hret in Hstep. cbn [py.bind snd] in Hstep.
      injection Hstep as <-.
      apply (IH (_prune_buffer ex now) (Some now) ex'); auto.
      cbn [_prune_buffer _event_buffer window_duration].
      now apply popleft_none_older.
Qed.

End ExtractorRuns.

(** C7 (as amended).  For every sequence of [add_event] and
    [compute_features] calls on a fresh extractor: the sequence runs to
    completion; immediately after [compute_features(now)] no buffered
    event has a timestamp below [now - window_duration]; and in every
    reachable state every buffered timestamp is at least the most recent
    reference time minus [window_duration], provided that every event
    added after a [compute_features(t)] call is stamped no earlier than
    [t - window_duration]. *)
Theorem C7_buffer_window_bound (sqrt : Q -> Q) (window : Q) :
  (forall calls, exists ex,
      extractor_calls.run sqrt (feature_extractor.init window) calls
      = py.Return ex)
  /\ (forall calls now ex,
         extractor_calls.run sqrt (feature_extractor.init window)
           (calls ++ [extractor_calls.ComputeFeatures now]) = py.Return ex ->
         spec.none_older (now - window) (feature_extractor._event_buffer ex))
  /\ (forall calls now ex,
         extractor_calls.timely window calls None ->
         extractor_calls.run sqrt (feature_extractor.init window) calls
         = py.Return ex ->
         extractor_calls.last_reference calls None = Some now ->
         spec.none_older (now - window) (feature_extractor._event_buffer ex)).
Proof.
  assert (Hinit : spec.ordered
                    (feature_extractor._event_buffer
                       (feature_extractor.init window))) by constructor.
  split; [|split].
  - intro calls.
    destruct (extractor_run_ordered sqrt calls (feature_extractor.init window))
      as (ex & Hret & _).
    eauto.
  - intros calls now ex Hrun.
    rewrite extractor_run_app in Hrun.
    destruct (extractor_run_ordered sqrt calls (feature_extractor.init window))
      as (ex1 & Hret & Hw & Ho).
    rewrite Hret in Hrun. cbn [py.bind extractor_calls.run extractor_calls.step]
      in Hrun.
    destruct (compute_features_returns sqrt ex1 now) as (fv & Hcf & _).
    cbv zeta in Hcf. rewrite Hcf in Hrun. cbn [py.bind snd] in Hrun.
    injection Hrun as <-.
    cbn [feature_extractor._prune_buffer feature_extractor._event_buffer].
    rewrite Hw. cbn [feature_extractor.init feature_extractor.window_duration].
    apply popleft_none_older. auto.
  - intros calls now ex Ht Hrun Hlast.
    pose proof (extractor_run_timely sqrt calls (feature_extractor.init window)
                  None ex Hinit I Ht Hrun) as H.
    rewrite Hlast in H. exact H.
Qed.

(** C7, at a concrete input: three key presses, a query, and a late but
    timely key press. *)
Lemma C7_buffer_window_bound_witness :
  let key t := models.mkEvent t models.KEY_PRESS models.KeystrokeEvent in
  let calls :=
    [extractor_calls.AddEvent (key 5); extractor_calls.AddEvent (key 50);
     extractor_calls.AddEvent (key 40); extractor_calls.ComputeFeatures 60;
     extractor_calls.AddEvent (key 31)] in
  exists ex,
    extractor_calls.run (fun x => x) (feature_extractor.init 30) calls
    = py.Return ex
    /\ map models.timestamp (feature_extractor._event_buffer ex) = [31; 40; 50]
    /\ spec.none_older (60 - 30) (feature_extractor._event_buffer ex).
Proof.
  intros key calls. eexists.
  split; [vm_compute; reflexivity|].
  split; [reflexivity|].
  apply (proj2 (proj2 (C7_buffer_window_bound (fun x => x) 30)) calls 60).
  - cbn. repeat split; vm_compute; discriminate.
  - vm_compute. reflexivity.
  - reflexivity.
Defined.

(** C7 as stated fails: [add_event] takes any timestamp, so an event
    delivered after a query and stamped before that query's window sits in
    the buffer until the next query. *)
Lemma C7_counterexample_late_event :
  let stale := models.mkEvent 10 models.KEY_PRESS models.KeystrokeEvent in
  let calls :=
    [extractor_calls.ComputeFeatures 100; extractor_calls.AddEvent stale] in
  exists ex,
    extractor_calls.run (fun x => x) (feature_extractor.init 30) calls
    = py.Return ex
    /\ extractor_calls.last_reference calls None = Some 100
    /\ feature_extractor._event_buffer ex = [stale]
    /\ ~ spec.none_older (100 - 30) (feature_extractor._event_buffer ex).
Proof.
  intros stale calls. eexists.
  split; [vm_compute; reflexivity|].
  split; [reflexivity|]. split; [reflexivity|].
  intro H. inversion H as [|? ? Hle _]; subst.
  vm_compute in Hle. apply Hle. reflexivity.
Qed.

Lemma intervals_deltas (ts : list Q) :
  feature_extractor.intervals ts = spec.deltas ts.
Proof.
  unfold spec.deltas.
  induction ts as [|a [|b ts] IH]; try reflexivity.
  change (feature_extractor.intervals (a :: b :: ts))
    with ((b - a) :: feature_extractor.intervals (b :: ts)).
  rewrite IH. reflexivity.
Qed.

Lemma press_count (buf : list models.BaseEvent) :
  length (feature_extractor.press_timestamps buf)
  = length (filter spec.is_key_press buf).
Proof.
  unfold feature_extractor.press_timestamps. apply length_map.
Qed.

(** C9.  For every extractor with a positive window duration and every
    query time [now], [compute_features(now)] returns a vector whose
    [window_start] is [now - window_duration] and whose [key_press_count]
    is the number of KEY_PRESS events in the window, the buffer left by
    the pruning (for an ordered buffer: the buffered events stamped
    [now - window_duration] or later).  With at least 2 presses,
    [inter_key_interval] is the mean of the consecutive press-to-press
    deltas and [avg_typing_speed] is
    [(key_press_count / (now - window_start)) * 60]; with fewer, both are
    0. *)
Theorem C9_keystroke_features
  (sqrt : Q -> Q) (ex : feature_extractor.FeatureExtractor) (now : Q) :
  0 < feature_extractor.window_duration ex ->
  exists fv ex',
    feature_extractor.compute_features sqrt ex now = py.Return (fv, ex')
    /\ feature_extractor.window_start fv
       = now - feature_extractor.window_duration ex
    /\ (spec.ordered (feature_extractor._event_buffer ex) ->
        feature_extractor._event_buffer ex'
        = filter
            (fun e => py.leb (now - feature_extractor.window_duration ex)
                        (models.timestamp e))
            (feature_extractor._event_buffer ex))
    /\ let window := feature_extractor._event_buffer ex' in
       let presses := map models.timestamp (filter spec.is_key_press window) in
       let count := feature_extractor.key_press_count fv in
       count = Z.of_nat (length (filter spec.is_key_press window))
       /\ ((2 <= count)%Z ->
           feature_extractor.inter_key_interval fv
           == spec.mean (spec.deltas presses)
           /\ feature_extractor.avg_typing_speed fv
              == inject_Z count / (now - feature_extractor.window_start fv) * 60)
       /\ ((count < 2)%Z ->
           feature_extractor.inter_key_interval fv = 0
           /\ feature_extractor.avg_typing_speed fv = 0).
Proof.
  intro Hw.
  destruct (compute_features_returns sqrt ex now)
    as (fv & Hret & Hws & _ & Hcount & _ & Hmany & Hfew).
  cbv zeta in Hret, Hcount, Hmany, Hfew.
  exists fv. eexists. split; [exact Hret|].
  split; [exact Hws|].
  split; [intro Ho; now apply popleft_filter|].
  cbv zeta. rewrite press_count in Hcount, Hmany, Hfew.
  split; [exact Hcount|].
  rewrite Hcount, Hws. split.
  - intro H2. destruct Hmany as (Hiki & Hspeed & _); [lia|].
    rewrite Hiki, Hspeed by lra. split.
    + unfold spec.mean, py.len. rewrite sum_Qsum, intervals_deltas. reflexivity.
    + unfold py.len. rewrite press_count. reflexivity.
  - intro H2. apply Hfew. lia.
Qed.

(** C9, at a concrete input: a first key press that has left the window,
    three key presses and a mouse move inside it. *)
Lemma C9_keystroke_features_witness :
  let key t := models.mkEvent t models.KEY_PRESS models.KeystrokeEvent in
  let ex :=
    feature_extractor.mkFeatureExtractor 30
      [key 5; key 12; models.mkEvent 13 models.MOUSE_MOVE (models.MouseEvent 3 4);
       key 14; key 20] in
  0 < feature_extractor.window_duration ex
  /\ exists fv ex',
       feature_extractor.compute_features (fun x => x) ex 40 = py.Return (fv, ex')
       /\ feature_extractor.key_press_count fv = 3%Z
       /\ feature_extractor.inter_key_interval fv == 4
       /\ feature_extractor.avg_typing_speed fv == 6.
Proof.
  intros key ex.
  assert (Hw : 0 < feature_extractor.window_duration ex) by reflexivity.
  split; [exact Hw|].
  destruct (C9_keystroke_features (fun x => x) ex 40 Hw)
    as (fv & ex' & Hret & _).
  exists fv, ex'. split; [exact Hret|].
  vm_compute in Hret. injection Hret as <- <-.
  repeat split; vm_compute; reflexivity.
Defined.

(** ** Anomaly validator *)

Section ValidatorFacts.
Import models anomaly_validator.

Lemma in_range_true (lo x hi : Q) : in_range lo x hi = true <-> lo <= x <= hi.
Proof.
  unfold in_range. rewrite andb_true_iff, !leb_true. tauto.
Qed.

Lemma in_range_false (lo x hi : Q) :
  in_range lo x hi = false <-> ~ lo <= x <= hi.
Proof.
  rewrite <- in_range_true. destruct (in_range lo x hi); split; congruence.
Qed.

Lemma truthy_true (s : str) : truthy s = true <-> s <> [].
Proof. destruct s; cbn; split; congruence. Qed.

Local Ltac split_range x E :=
  destruct (in_range 0 x 100) eqn:E; cbn [negb];
  [apply in_range_true in E
  |apply in_range_false in E; cbn; split; [discriminate|tauto]].

Local Ltac split_zero x E :=
  destruct (py.eqb x 0) eqn:E;
  [apply eqb_true in E
  |apply eqb_false in E; cbn; split; [discriminate|tauto]].

(** What [validate] accepts. *)
Lemma validate_true (p : RiskData) :
  let s := anomaly_scores p in
  fst (validate p) = true
  <-> 0 <= risk_score p <= 100
      /\ 0 <= idle_burst s <= 100
      /\ 0 <= focus_instability s <= 100
      /\ 0 <= behavioral_drift s <= 100
      /\ (risk_score p == 0 ->
          idle_burst s == 0 /\ focus_instability s == 0
          /\ behavioral_drift s == 0)
      /\ strip (session_id p) <> []
      /\ 0 < rd_timestamp p.
Proof.
  intro s. unfold validate. fold s.
  unfold risk_score_min, risk_score_max, anomaly_score_min, anomaly_score_max.
  cbn [first_out_of_range].
  unfold anomaly_score_min, anomaly_score_max.
  split_range (risk_score p) Er.
  split_range (idle_burst s) Ea.
  split_range (focus_instability s) Eb.
  split_range (behavioral_drift s) Ec.
  assert (Hz : py.eqb (risk_score p) 0
               && (negb (py.eqb (idle_burst s) 0)
                   || negb (py.eqb (focus_instability s) 0)
                   || negb (py.eqb (behavioral_drift s) 0)) = false
               <-> (risk_score p == 0 ->
                    idle_burst s == 0 /\ focus_instability s == 0
                    /\ behavioral_drift s == 0)).
  { destruct (py.eqb (risk_score p) 0) eqn:E0;
      [apply eqb_true in E0|apply eqb_false in E0; cbn; tauto].
    split_zero (idle_burst s) E1.
    split_zero (focus_instability s) E2.
    split_zero (behavioral_drift s) E3.
    cbn. tauto. }
  destruct (py.eqb (risk_score p) 0
            && (negb (py.eqb (idle_burst s) 0)
                || negb (py.eqb (focus_instability s) 0)
                || negb (py.eqb (behavioral_drift s) 0))) eqn:Ez.
  - cbn. split; [discriminate|]. intros (_ & _ & _ & _ & H & _).
    apply Hz in H. discriminate H.
  - assert (Hcons := proj1 Hz eq_refl).
    destruct (truthy (session_id p)) eqn:Es; cbn [negb orb].
    + destruct (truthy (strip (session_id p))) eqn:Et; cbn [negb].
      * apply truthy_true in Et.
        destruct (py.leb (rd_timestamp p) 0) eqn:El.
        -- apply leb_true in El. cbn. split; [discriminate|].
           intros (_ & _ & _ & _ & _ & _ & H). lra.
        -- apply leb_false in El. cbn. tauto.
      * cbn. split; [discriminate|]. intros (_ & _ & _ & _ & _ & H & _).
        apply truthy_true in H. congruence.
    + cbn. split; [discriminate|]. intros (_ & _ & _ & _ & _ & H & _).
      destruct (session_id p); [exfalso; now apply H|discriminate Es].
Qed.

End ValidatorFacts.

(** C8 (as amended).  For every risk record with a session id that is
    not blank (not empty once white space is stripped) and a positive
    timestamp, [validate] accepts the record if and only if [risk_score]
    and the three sub-scores lie in [[0, 100]] and a [risk_score] of 0
    comes with three sub-scores of 0.  Records with a [risk_score] or a
    sub-score outside [[0, 100]], with a zero [risk_score] and a nonzero
    sub-score, with an empty or blank session id, or with a non-positive
    timestamp are rejected. *)
Theorem C8_validate_accepts_iff (p : models.RiskData) :
  let s := models.anomaly_scores p in
  let in_bounds x := 0 <= x <= 100 in
  let consistent :=
    models.risk_score p == 0 ->
    models.idle_burst s == 0 /\ models.focus_instability s == 0
    /\ models.behavioral_drift s == 0 in
  let accepted := fst (anomaly_validator.validate p) = true in
  let rejected := fst (anomaly_validator.validate p) = false in
  (anomaly_validator.strip (models.session_id p) <> [] ->
   0 < models.rd_timestamp p ->
   (accepted <->
    in_bounds (models.risk_score p) /\ in_bounds (models.idle_burst s)
    /\ in_bounds (models.focus_instability s)
    /\ in_bounds (models.behavioral_drift s) /\ consistent))
  /\ (~ in_bounds (models.risk_score p) -> rejected)
  /\ (~ in_bounds (models.idle_burst s) -> rejected)
  /\ (~ in_bounds (models.focus_instability s) -> rejected)
  /\ (~ in_bounds (models.behavioral_drift s) -> rejected)
  /\ (~ consistent -> rejected)
  /\ (models.session_id p = [] -> rejected)
  /\ (anomaly_validator.strip (models.session_id p) = [] -> rejected)
  /\ (models.rd_timestamp p <= 0 -> rejected).
Proof.
  intros s in_bounds consistent accepted rejected.
  pose proof (validate_true p) as Hv. cbv zeta in Hv. fold s in Hv.
  unfold accepted, rejected, in_bounds, consistent.
  assert (Hrej : forall A : Prop,
             (fst (anomaly_validator.validate p) = true -> A) ->
             ~ A -> fst (anomaly_validator.validate p) = false).
  { intros A HA HnA. destruct (fst (anomaly_validator.validate p));
      [exfalso; now apply HnA, HA|reflexivity]. }
  split; [intros Hs Ht; rewrite Hv; tauto|].
  repeat split; intro H.
  - apply (Hrej _ (fun a => proj1 (proj1 Hv a)) H).
  - apply (Hrej _ (fun a => proj1 (proj2 (proj1 Hv a))) H).
  - apply (Hrej _ (fun a => proj1 (proj2 (proj2 (proj1 Hv a)))) H).
  - apply (Hrej _ (fun a => proj1 (proj2 (proj2 (proj2 (proj1 Hv a))))) H).
  - apply (Hrej _ (fun a => proj1 (proj2 (proj2 (proj2 (proj2 (proj1 Hv a)))))) H).
  - apply (Hrej (anomaly_validator.strip (models.session_id p) <> [])).
    + intro a. apply Hv in a. tauto.
    + rewrite H. intro Hn. now apply Hn.
  - apply (Hrej (anomaly_validator.strip (models.session_id p) <> [])).
    + intro a. apply Hv in a. tauto.
    + intro Hn. now apply Hn.
  - apply (Hrej (0 < models.rd_timestamp p)).
    + intro a. apply Hv in a. tauto.
    + lra.
Qed.

(** C8, at a concrete input: the record of a quiet session. *)
Lemma C8_validate_accepts_iff_witness :
  let p :=
    models.mkRiskData 1700000000 12
      (models.mkAnomalyScores 30 0 0 30) [115; 49]%N None in
  anomaly_validator.strip (models.session_id p) <> []
  /\ 0 < models.rd_timestamp p
  /\ anomaly_validator.validate p = (true, anomaly_validator.Accepted)
  /\ (fst (anomaly_validator.validate p) = true <->
      0 <= models.risk_score p <= 100
      /\ 0 <= models.idle_burst (models.anomaly_scores p) <= 100
      /\ 0 <= models.focus_instability (models.anomaly_scores p) <= 100
      /\ 0 <= models.behavioral_drift (models.anomaly_scores p) <= 100
      /\ (models.risk_score p == 0 ->
          models.idle_burst (models.anomaly_scores p) == 0
          /\ models.focus_instability (models.anomaly_scores p) == 0
          /\ models.behavioral_drift (models.anomaly_scores p) == 0)).
Proof.
  intro p.
  assert (Hs : anomaly_validator.strip (models.session_id p) <> [])
    by (vm_compute; discriminate).
  assert (Ht : 0 < models.rd_timestamp p) by reflexivity.
  split; [exact Hs|]. split; [exact Ht|].
  split; [vm_compute; reflexivity|].
  exact (proj1 (C8_validate_accepts_iff p) Hs Ht).
Defined.

(** C8 as stated fails: a session id made of a single space is not empty,
    yet the validator strips it and rejects a record that is otherwise in
    range and consistent. *)
Lemma C8_counterexample_blank_session_id :
  let p :=
    models.mkRiskData 1700000000 50
      (models.mkAnomalyScores 10 20 30 30) [32]%N None in
  models.session_id p <> []
  /\ 0 < models.rd_timestamp p
  /\ (0 <= models.risk_score p <= 100
      /\ 0 <= models.idle_burst (models.anomaly_scores p) <= 100
      /\ 0 <= models.focus_instability (models.anomaly_scores p) <= 100
      /\ 0 <= models.behavioral_drift (models.anomaly_scores p) <= 100
      /\ 0 <= models.overall (models.anomaly_scores p) <= 100
      /\ (models.risk_score p == 0 ->
          models.idle_burst (models.anomaly_scores p) == 0
          /\ models.focus_instability (models.anomaly_scores p) == 0
          /\ models.behavioral_drift (models.anomaly_scores p) == 0))
  /\ anomaly_validator.validate p
     = (false, anomaly_validator.SessionIdEmpty).
Proof.
  cbv zeta. split; [discriminate|]. split; [reflexivity|].
  split; [|vm_compute; reflexivity].
  cbn. repeat split; vm_compute; discriminate.
Qed.

(** * Further properties *)

(** ** Feature extractor: buffer maintenance *)

Section ExtractorMore.
Import models feature_extractor.

Lemma insert_permutation (event : BaseEvent) (buf : list BaseEvent) :
  Exists (fun x => timestamp event < timestamp x) buf ->
  Permutation (event :: buf) (insert_out_of_order event buf).
Proof.
  induction buf as [|e rest IH]; intro Hex; cbn [insert_out_of_order].
  - inversion Hex.
  - destruct (py.ltb (timestamp event) (timestamp e)) eqn:E;
      [apply Permutation_refl|].
    apply ltb_false in E.
    inversion Hex as [? ? Hlt|? ? Hrest]; subst; [lra|].
    rewrite perm_swap. apply perm_skip. now apply IH.
Qed.

Lemma popleft_idempotent (cutoff : Q) (buf : list BaseEvent) :
  popleft_while_older cutoff (popleft_while_older cutoff buf)
  = popleft_while_older cutoff buf.
Proof.
  induction buf as [|e rest IH]; cbn [popleft_while_older]; [reflexivity|].
  destruct (py.ltb (timestamp e) cutoff) eqn:E; [exact IH|].
  cbn [popleft_while_older]. now rewrite E.
Qed.

Lemma popleft_suffix (cutoff : Q) (buf : list BaseEvent) :
  exists dropped,
    buf = dropped ++ popleft_while_older cutoff buf
    /\ Forall (fun e => timestamp e < cutoff) dropped.
Proof.
  induction buf as [|e rest IH]; cbn [popleft_while_older].
  - exists []. split; [reflexivity|constructor].
  - destruct (py.ltb (timestamp e) cutoff) eqn:E.
    + destruct IH as (dropped & Heq & Hall).
      exists (e :: dropped). cbn [app]. split; [now f_equal|].
      constructor; [now apply ltb_true|exact Hall].
    + exists []. split; [reflexivity|constructor].
Qed.

Lemma popleft_all_older (cutoff : Q) (buf : list BaseEvent) :
  Forall (fun e => timestamp e < cutoff) buf ->
  popleft_while_older cutoff buf = [].
Proof.
  induction 1 as [|e rest He Hrest IH]; cbn [popleft_while_older];
    [reflexivity|].
  apply ltb_true in He. now rewrite He.
Qed.

End ExtractorMore.

(** X1.  [add_event] never rejects or loses an event: whatever the buffer
    and the timestamp, the new buffer holds the old events and the new one,
    each once; the window duration is untouched; and an ordered buffer
    stays ordered, so the call is an insertion into a sorted sequence. *)
Theorem X1_add_event_sorted_insert
  (ex : feature_extractor.FeatureExtractor) (event : models.BaseEvent) :
  let ex' := feature_extractor.add_event ex event in
  Permutation (event :: feature_extractor._event_buffer ex)
    (feature_extractor._event_buffer ex')
  /\ feature_extractor.window_duration ex'
     = feature_extractor.window_duration ex
  /\ (spec.ordered (feature_extractor._event_buffer ex) ->
      spec.ordered (feature_extractor._event_buffer ex')).
Proof.
  cbv zeta. split; [|split; [apply add_event_window|apply add_event_ordered]].
  unfold feature_extractor.add_event.
  destruct (rev (feature_extractor._event_buffer ex)) as [|l pre] eqn:Hrev.
  - cbn [feature_extractor._event_buffer]. apply Permutation_cons_append.
  - destruct (py.leb (models.timestamp l) (models.timestamp event)) eqn:E;
      cbn [feature_extractor._event_buffer].
    + apply Permutation_cons_append.
    + apply leb_false in E. apply insert_permutation.
      apply Exists_exists. exists l. split; [|exact E].
      apply in_rev. rewrite Hrev. now left.
Qed.

(** X2.  [compute_features] only drops events from the front of the
    buffer, all of them older than [now - window_duration]; it never adds
    or reorders one.  Asking again at the same time changes nothing: the
    same vector, the same buffer. *)
Theorem X2_compute_features_prunes_prefix
  (sqrt : Q -> Q) (ex : feature_extractor.FeatureExtractor) (now : Q) :
  exists fv ex' dropped,
    feature_extractor.compute_features sqrt ex now = py.Return (fv, ex')
    /\ feature_extractor._event_buffer ex
       = dropped ++ feature_extractor._event_buffer ex'
    /\ Forall (fun e => models.timestamp e
                        < now - feature_extractor.window_duration ex) dropped
    /\ feature_extractor.window_duration ex'
       = feature_extractor.window_duration ex
    /\ feature_extractor.compute_features sqrt ex' now = py.Return (fv, ex').
Proof.
  destruct (compute_features_returns sqrt ex now) as (fv & Hret & _).
  cbv zeta in Hret.
  destruct (popleft_suffix (now - feature_extractor.window_duration ex)
              (feature_extractor._event_buffer ex)) as (dropped & Heq & Hall).
  exists fv, (feature_extractor._prune_buffer ex now), dropped.
  split; [exact Hret|]. split; [exact Heq|]. split; [exact Hall|].
  split; [reflexivity|].
  unfold feature_extractor.compute_features in *.
  assert (Hid : feature_extractor._prune_buffer
                  (feature_extractor._prune_buffer ex now) now
                = feature_extractor._prune_buffer ex now).
  { unfold feature_extractor._prune_buffer.
    cbn [feature_extractor.window_duration feature_extractor._event_buffer].
    now rewrite popleft_idempotent. }
  cbv zeta in *. rewrite Hid. exact Hret.
Qed.

(** X3.  When every buffered event is older than the window (in
    particular when the buffer is empty), [compute_features] returns the
    all-zero vector with the window bounds and leaves the buffer empty; no
    division is attempted. *)
Theorem X3_compute_features_empty_window
  (sqrt : Q -> Q) (ex : feature_extractor.FeatureExtractor) (now : Q) :
  Forall (fun e => models.timestamp e
                   < now - feature_extractor.window_duration ex)
    (feature_extractor._event_buffer ex) ->
  feature_extractor.compute_features sqrt ex now
  = py.Return
      (feature_extractor.mkFeatureVector 0 0 0%Z 0 0
         (now - feature_extractor.window_duration ex) now 0%Z,
       feature_extractor.mkFeatureExtractor
         (feature_extractor.window_duration ex) []).
Proof.
  intro Hold. unfold feature_extractor.compute_features.
  unfold feature_extractor._prune_buffer.
  rewrite (popleft_all_older _ _ Hold). reflexivity.
Qed.

(** X3, at a concrete input: two key presses that have left the window. *)
Lemma X3_compute_features_empty_window_witness :
  let key t := models.mkEvent t models.KEY_PRESS models.KeystrokeEvent in
  let ex := feature_extractor.mkFeatureExtractor 30 [key 1; key 2] in
  feature_extractor.compute_features (fun x => x) ex 100
  = py.Return
      (feature_extractor.mkFeatureVector 0 0 0%Z 0 0 (100 - 30) 100 0%Z,
       feature_extractor.mkFeatureExtractor 30 []).
Proof.
  intros key ex.
  apply (X3_compute_features_empty_window (fun x => x) ex 100).
  repeat constructor.
Defined.

(** ** Feature extractor: keystroke features *)

Section KeystrokeMore.
Import models feature_extractor.

Lemma Qsum_intervals (a : Q) (l : list Q) :
  spec.Qsum (intervals (a :: l)) == last (a :: l) 0 - a.
Proof.
  revert a. induction l as [|b l IH]; intro a.
  - cbn. lra.
  - change (intervals (a :: b :: l)) with ((b - a) :: intervals (b :: l)).
    cbn [spec.Qsum]. rewrite IH.
    change (last (a :: b :: l) 0) with (last (b :: l) 0). lra.
Qed.

Lemma intervals_nonneg (ts : list Q) :
  StronglySorted Qle ts -> Forall (fun d => 0 <= d) (intervals ts).
Proof.
  induction 1 as [|a l Hl IH Ha]; [constructor|].
  destruct l as [|b l]; [constructor|].
  change (intervals (a :: b :: l)) with ((b - a) :: intervals (b :: l)).
  constructor; [|exact IH].
  inversion Ha; subst. lra.
Qed.

Lemma Qsum_nonneg (l : list Q) : Forall (fun d => 0 <= d) l -> 0 <= spec.Qsum l.
Proof.
  induction 1 as [|d l Hd Hl IH]; cbn [spec.Qsum]; lra.
Qed.

Lemma press_timestamps_sorted (buf : list BaseEvent) :
  spec.ordered buf -> StronglySorted Qle (press_timestamps buf).
Proof.
  unfold spec.ordered, press_timestamps.
  induction 1 as [|e rest Hrest IH He]; cbn [filter map]; [constructor|].
  destruct (EventType_eqb (type e) KEY_PRESS); [|exact IH].
  cbn [map]. constructor; [exact IH|].
  apply Forall_forall. intros t Ht.
  apply in_map_iff in Ht as (x & <- & Hx).
  apply filter_In in Hx as [Hx _].
  rewrite Forall_forall in He. now apply He.
Qed.

Lemma Qdiv_nonneg (a b : Q) : 0 <= a -> 0 < b -> 0 <= a / b.
Proof.
  intros Ha Hb. unfold Qdiv. apply Qmult_le_0_compat; [exact Ha|].
  apply Qinv_le_0_compat. lra.
Qed.

Lemma Qdiv_pos (a b : Q) : 0 < a -> 0 < b -> 0 < a / b.
Proof.
  intros Ha Hb. apply Qlt_shift_div_l; [exact Hb|]. lra.
Qed.

Lemma len_pos {A : Type} (l : list A) : (1 <= length l)%nat -> 0 < py.len l.
Proof.
  intro H. unfold py.len.
  change 0 with (inject_Z 0). rewrite <- Zlt_Qlt. lia.
Qed.

End KeystrokeMore.

(** X4.  With at least two key presses in the window the consecutive
    deltas telescope: [inter_key_interval] is the time from the first to
    the last press divided by the number of gaps.  On an ordered buffer
    it is never negative. *)
Theorem X4_inter_key_interval_telescopes
  (sqrt : Q -> Q) (ex : feature_extractor.FeatureExtractor) (now : Q) :
  exists fv ex',
    feature_extractor.compute_features sqrt ex now = py.Return (fv, ex')
    /\ let presses :=
         feature_extractor.press_timestamps
           (feature_extractor._event_buffer ex') in
       ((2 <= length presses)%nat ->
        feature_extractor.inter_key_interval fv
        == (last presses 0 - hd 0 presses)
           / inject_Z (Z.of_nat (length presses) - 1))
       /\ (spec.ordered (feature_extractor._event_buffer ex) ->
           0 <= feature_extractor.inter_key_interval fv).
Proof.
  destruct (compute_features_returns sqrt ex now)
    as (fv & Hret & _ & _ & _ & _ & Hmany & Hfew).
  cbv zeta in Hret, Hmany, Hfew.
  exists fv. eexists. split; [exact Hret|]. cbv zeta.
  set (presses := feature_extractor.press_timestamps _) in *.
  split.
  - intro H2. destruct (Hmany H2) as (-> & _).
    rewrite sum_Qsum. unfold py.len. rewrite intervals_length.
    destruct presses as [|a l]; [cbn in H2; lia|].
    rewrite Qsum_intervals. cbn [hd].
    replace (Z.of_nat (length (a :: l) - 1)) with (Z.of_nat (length (a :: l)) - 1)%Z
      by (cbn [length] in *; lia).
    reflexivity.
  - intro Ho.
    destruct (le_lt_dec 2 (length presses)) as [H2|H2].
    + destruct (Hmany H2) as (-> & _).
      apply Qdiv_nonneg.
      * rewrite sum_Qsum. apply Qsum_nonneg, intervals_nonneg.
        apply press_timestamps_sorted.
        cbn [feature_extractor._prune_buffer feature_extractor._event_buffer].
        now apply popleft_ordered.
      * apply len_pos. rewrite intervals_length. lia.
    + destruct (Hfew H2) as (-> & _). lra.
Qed.

(** X5.  [avg_typing_speed] is never negative, and it is positive exactly
    when the window has at least two key presses and the window duration
    is positive; with a window duration of zero or less the division is
    skipped and the speed is 0. *)
Theorem X5_typing_speed_sign
  (sqrt : Q -> Q) (ex : feature_extractor.FeatureExtractor) (now : Q) :
  exists fv ex',
    feature_extractor.compute_features sqrt ex now = py.Return (fv, ex')
    /\ 0 <= feature_extractor.avg_typing_speed fv
    /\ (0 < feature_extractor.avg_typing_speed fv
        <-> (2 <= feature_extractor.key_press_count fv)%Z
            /\ 0 < feature_extractor.window_duration ex).
Proof.
  destruct (compute_features_returns sqrt ex now)
    as (fv & Hret & _ & _ & Hcount & _ & Hmany & Hfew).
  cbv zeta in Hret, Hcount, Hmany, Hfew.
  exists fv. eexists. split; [exact Hret|].
  set (presses := feature_extractor.press_timestamps _) in *.
  set (w := feature_extractor.window_duration ex) in *.
  rewrite Hcount.
  destruct (le_lt_dec 2 (length presses)) as [H2|H2].
  - destruct (Hmany H2) as (_ & Hpos & Hzero).
    destruct (Qlt_le_dec 0 w) as [Hw|Hw].
    + rewrite Hpos by lra.
      assert (H : 0 < py.len presses / (now - (now - w)))
        by (apply Qdiv_pos; [apply len_pos; lia|lra]).
      split; [lra|]. split; [intros _; split; [lia|exact Hw]|intros _; lra].
    + rewrite Hzero by lra.
      split; [lra|]. split; [intro; lra|intros [_ H]; lra].
  - destruct (Hfew H2) as (_ & ->).
    split; [lra|]. split; [intro; lra|intros [H _]; lia].
Qed.

(** X4, at a concrete input: presses at 12, 14 and 20 inside the window,
    8 seconds over 2 gaps. *)
Lemma X4_inter_key_interval_telescopes_witness :
  let key t := models.mkEvent t models.KEY_PRESS models.KeystrokeEvent in
  let ex :=
    feature_extractor.mkFeatureExtractor 30 [key 5; key 12; key 14; key 20] in
  exists fv ex',
    feature_extractor.compute_features (fun x => x) ex 40 = py.Return (fv, ex')
    /\ feature_extractor.inter_key_interval fv == 4.
Proof.
  intros key ex.
  destruct (X4_inter_key_interval_telescopes (fun x => x) ex 40)
    as (fv & ex' & Hret & Htel & _).
  exists fv, ex'. split; [exact Hret|].
  vm_compute in Hret. injection Hret as <- <-.
  rewrite Htel; [vm_compute; reflexivity|simpl; lia].
Defined.

(** ** Baseline builder: freezing, fallback and deferral *)

Section BuilderMore.
Import feature_extractor baseline_builder builder_calls.

Lemma fold_typing_speed (l : list FeatureVector) (acc : Q) :
  fold_left (fun acc fv => acc + feature_extractor.avg_typing_speed fv) l acc
  == acc + spec.Qsum (map feature_extractor.avg_typing_speed l).
Proof.
  revert acc. induction l as [|fv l IH]; intro acc; cbn [fold_left map spec.Qsum].
  - lra.
  - rewrite IH. lra.
Qed.

Lemma Qsum_pos (l : list Q) :
  Forall (fun x => 0 <= x) l -> Exists (fun x => 0 < x) l -> 0 < spec.Qsum l.
Proof.
  induction 1 as [|x l Hx Hl IH]; intro Hex; [inversion Hex|].
  cbn [spec.Qsum]. pose proof (Qsum_nonneg l Hl).
  inversion Hex; subst; [lra|]. specialize (IH H1). lra.
Qed.

Lemma build_baseline_defers (b : BaselineBuilder) :
  _feature_history b <> [] ->
  valid_filter (_feature_history b) = [] ->
  (length (_feature_history b) < 10)%nat ->
  _build_baseline b = py.Return b.
Proof.
  intros Hne Hv Hlen. unfold _build_baseline.
  destruct (_feature_history b) as [|f0 h] eqn:Eh; [contradiction|].
  rewrite Hv. apply Nat.leb_gt in Hlen. now rewrite Hlen.
Qed.

Lemma valid_filter_incl (h : list FeatureVector) (fv : FeatureVector) :
  In fv (valid_filter h) -> In fv h.
Proof. unfold valid_filter. intro H. now apply filter_In in H. Qed.

Lemma valid_filter_keeps_typing (h : list FeatureVector) (fv : FeatureVector) :
  In fv h -> 0 < feature_extractor.avg_typing_speed fv -> In fv (valid_filter h).
Proof.
  intros Hin Hpos. unfold valid_filter. apply filter_In. split; [exact Hin|].
  apply orb_true_iff. left. now apply ltb_true.
Qed.

End BuilderMore.

(** X6.  A frozen baseline is never recomputed: on a calibrated builder
    every further [update], whatever the vector and the time, leaves the
    builder exactly as it is. *)
Theorem X6_frozen_baseline_ignores_updates
  (b : baseline_builder.BaselineBuilder)
  (updates : list (feature_extractor.FeatureVector * Q)) :
  baseline_builder.is_calibrated b = true ->
  builder_calls.run b
    (map (fun u => builder_calls.Update (fst u) (snd u)) updates)
  = py.Return b.
Proof.
  intro Hcal. induction updates as [|[f t] updates IH]; [reflexivity|].
  cbn [map builder_calls.run builder_calls.step fst snd].
  rewrite (update_calibrated b f t Hcal). cbn [py.bind]. exact IH.
Qed.

(** X6, at a concrete input: two late windows fed to a builder frozen on
    the fallback profile. *)
Lemma X6_frozen_baseline_ignores_updates_witness :
  let b := baseline_builder.mkBaselineBuilder 180 []
             (Some (baseline_builder.mkBaselineProfile 150 2 0.5)) (Some 0) in
  let fv := feature_extractor.mkFeatureVector 300 9 4%Z 0 0.2 170 200 150%Z in
  builder_calls.run b
    (map (fun u => builder_calls.Update (fst u) (snd u)) [(fv, 200); (fv, 201)])
  = py.Return b.
Proof.
  intros b fv.
  apply (X6_frozen_baseline_ignores_updates b [(fv, 200); (fv, 201)]).
  reflexivity.
Defined.

(** X7.  When the calibration duration runs out and no sample was
    stored, the update freezes the fixed fallback profile (150 keys/min,
    2.0 s idle, 0.5 focus losses/min); the vector passed with that update
    is not used. *)
Theorem X7_timeout_without_samples_falls_back
  (b : baseline_builder.BaselineBuilder)
  (f : feature_extractor.FeatureVector) (t start : Q) :
  baseline_builder._baseline b = None ->
  baseline_builder._calibration_start b = Some start ->
  baseline_builder._feature_history b = [] ->
  baseline_builder.calibration_duration b < t - start ->
  baseline_builder.update b f t
  = py.Return
      (baseline_builder.mkBaselineBuilder
         (baseline_builder.calibration_duration b) []
         (Some (baseline_builder.mkBaselineProfile 150 2 0.5)) (Some start)).
Proof.
  intros Hb Hs Hh Hout.
  rewrite (update_after_window b f t start Hb Hs Hout).
  unfold baseline_builder._build_baseline. rewrite Hh, Hs. reflexivity.
Qed.

(** X7, at a concrete input: a calibration started at 0 and next updated
    at 200, past its 180 seconds. *)
Lemma X7_timeout_without_samples_falls_back_witness :
  let b := baseline_builder.start_calibration (baseline_builder.init 180) 0 in
  let fv := feature_extractor.mkFeatureVector 300 9 4%Z 0 0.2 170 200 150%Z in
  baseline_builder.update b fv 200
  = py.Return
      (baseline_builder.mkBaselineBuilder 180 []
         (Some (baseline_builder.mkBaselineProfile 150 2 0.5)) (Some 0)).
Proof.
  intros b fv.
  apply (X7_timeout_without_samples_falls_back b fv 200 0); reflexivity.
Defined.

(** X8.  A calibration that reaches its timeout with between 1 and 9
    samples, none of them with a typing signal, never finishes: every
    update past the calibration duration defers the build and stores
    nothing, so the builder stays as it is, uncalibrated, however many
    such updates follow. *)
Theorem X8_deferred_calibration_never_finishes
  (b : baseline_builder.BaselineBuilder) (start : Q)
  (updates : list (feature_extractor.FeatureVector * Q)) :
  baseline_builder._baseline b = None ->
  baseline_builder._calibration_start b = Some start ->
  baseline_builder._feature_history b <> [] ->
  baseline_builder.valid_filter (baseline_builder._feature_history b) = [] ->
  (length (baseline_builder._feature_history b) < 10)%nat ->
  Forall (fun u => baseline_builder.calibration_duration b < snd u - start)
    updates ->
  builder_calls.run b
    (map (fun u => builder_calls.Update (fst u) (snd u)) updates)
  = py.Return b
  /\ baseline_builder.is_calibrated b = false.
Proof.
  intros Hb Hs Hne Hv Hlen Hlate.
  split; [|now apply is_calibrated_false].
  induction Hlate as [|[f t] updates Hout Hrest IH]; [reflexivity|].
  cbn [map builder_calls.run builder_calls.step fst snd] in *.
  rewrite (update_after_window b f t start Hb Hs Hout).
  rewrite (build_baseline_defers b Hne Hv Hlen). cbn [py.bind]. exact IH.
Qed.

(** X8, at a concrete input: three silent windows stored, then updates at
    181, 182 and 400 seconds. *)
Lemma X8_deferred_calibration_never_finishes_witness :
  let silent := feature_extractor.mkFeatureVector 0 0 0%Z 0 0 0 30 0%Z in
  let b := baseline_builder.mkBaselineBuilder 180 [silent; silent; silent]
             None (Some 0) in
  builder_calls.run b
    (map (fun u => builder_calls.Update (fst u) (snd u))
       [(silent, 181); (silent, 182); (silent, 400)])
  = py.Return b
  /\ baseline_builder.is_calibrated b = false.
Proof.
  intros silent b.
  apply (X8_deferred_calibration_never_finishes b 0
           [(silent, 181); (silent, 182); (silent, 400)]);
    try reflexivity.
  - discriminate.
  - simpl. lia.
  - repeat constructor.
Defined.

(** X9.  When no stored window has a negative typing speed and at least
    one has a positive one, [_build_baseline] freezes a profile whose
    typing speed is the mean over the windows with a typing signal, and
    that mean is positive; the history is cleared.  The detector then
    never divides by zero on this profile: [compute_scores] returns for
    every feature vector. *)
Theorem X9_baseline_typing_speed_positive
  (b : baseline_builder.BaselineBuilder) :
  Forall (fun fv => 0 <= feature_extractor.avg_typing_speed fv)
    (baseline_builder._feature_history b) ->
  Exists (fun fv => 0 < feature_extractor.avg_typing_speed fv)
    (baseline_builder._feature_history b) ->
  exists b' p,
    baseline_builder._build_baseline b = py.Return b'
    /\ baseline_builder._baseline b' = Some p
    /\ baseline_builder._feature_history b' = []
    /\ baseline_builder.avg_typing_speed p
       == spec.mean
            (map feature_extractor.avg_typing_speed
               (baseline_builder.valid_filter
                  (baseline_builder._feature_history b)))
    /\ 0 < baseline_builder.avg_typing_speed p
    /\ forall d f,
         activity_shift_detector._baseline d = Some p ->
         exists s d', activity_shift_detector.compute_scores d f
                      = py.Return (s, d').
Proof.
  intros Hnonneg Hsome.
  apply Exists_exists in Hsome as (fv0 & Hin0 & Hpos0).
  pose proof (valid_filter_keeps_typing _ _ Hin0 Hpos0) as Hv0.
  unfold baseline_builder._build_baseline.
  destruct (baseline_builder._feature_history b) as [|f0 h] eqn:Eh;
    [inversion Hin0|].
  destruct (baseline_builder.valid_filter (f0 :: h)) as [|v vs] eqn:Ev;
    [inversion Hv0|].
  cbn [length Nat.ltb Nat.leb].
  rewrite !div_returns by apply len_cons_nonzero.
  cbn [py.bind].
  set (wd := if py.leb _ 0 then 30 else _).
  assert (Hwd : ~ wd == 0).
  { unfold wd. destruct (py.leb _ 0) eqn:E; [lra|].
    apply leb_false in E. lra. }
  rewrite (div_returns 60 wd Hwd). cbn [py.bind].
  eexists. eexists. split; [reflexivity|].
  cbn [baseline_builder._baseline baseline_builder._feature_history].
  split; [reflexivity|]. split; [reflexivity|].
  cbn [baseline_builder.avg_typing_speed].
  assert (Hmean : fold_left
                    (fun acc fv => acc + feature_extractor.avg_typing_speed fv)
                    (v :: vs) 0 / py.len (v :: vs)
                  == spec.mean (map feature_extractor.avg_typing_speed (v :: vs))).
  { unfold spec.mean, py.len. rewrite fold_typing_speed, length_map.
    assert (Hz : 0 + spec.Qsum (map feature_extractor.avg_typing_speed (v :: vs))
                 == spec.Qsum (map feature_extractor.avg_typing_speed (v :: vs)))
      by lra.
    now rewrite Hz. }
  assert (Hpos : 0 < fold_left
                       (fun acc fv => acc + feature_extractor.avg_typing_speed fv)
                       (v :: vs) 0 / py.len (v :: vs)).
  { apply Qdiv_pos; [|apply len_pos; simpl; lia].
    rewrite fold_typing_speed.
    assert (0 < spec.Qsum (map feature_extractor.avg_typing_speed (v :: vs))); [|lra].
    apply Qsum_pos.
    - apply Forall_forall. intros x Hx.
      apply in_map_iff in Hx as (fv & <- & Hfv).
      rewrite <- Ev in Hfv. apply valid_filter_incl in Hfv.
      rewrite Forall_forall in Hnonneg. now apply Hnonneg.
    - apply Exists_exists. exists (feature_extractor.avg_typing_speed fv0).
      split; [|exact Hpos0]. apply in_map. exact Hv0. }
  split; [exact Hmean|]. split; [exact Hpos|].
  intros d f Hd. apply compute_scores_total_nonzero. rewrite Hd.
  cbn [baseline_builder.avg_typing_speed]. lra.
Qed.

(** X9, at a concrete input: one silent window and two with typing at
    100 and 140 keys per minute. *)
Lemma X9_baseline_typing_speed_positive_witness :
  let fv s k := feature_extractor.mkFeatureVector s 1 0%Z 0 0 0 30 k in
  let b := baseline_builder.mkBaselineBuilder 180
             [fv 0 0%Z; fv 100 50%Z; fv 140 70%Z] None (Some 0) in
  exists b' p,
    baseline_builder._build_baseline b = py.Return b'
    /\ baseline_builder._baseline b' = Some p
    /\ baseline_builder.avg_typing_speed p == 120.
Proof.
  intros fv b.
  destruct (X9_baseline_typing_speed_positive b)
    as (b' & p & Hret & Hp & _ & Hmean & _).
  - repeat constructor; vm_compute; discriminate.
  - apply Exists_cons_tl, Exists_cons_hd. reflexivity.
  - exists b', p. split; [exact Hret|]. split; [exact Hp|].
    rewrite Hmean. vm_compute. reflexivity.
Defined.

(** X10.  [calibration_progress] at clock reading [now]: 0 before any
    calibration, 100 once calibrated; while calibrating, with a positive
    calibration duration, it returns a percentage that never exceeds 100,
    is not negative when the clock has not gone back before the start, and
    is 100 from the end of the duration on; with a calibration duration of
    zero it raises [ZeroDivisionError]. *)
Theorem X10_calibration_progress
  (b : baseline_builder.BaselineBuilder) (now : Q) :
  (baseline_builder._calibration_start b = None ->
   baseline_builder.calibration_progress b now = py.Return 0)
  /\ (baseline_builder._calibration_start b <> None ->
      baseline_builder.is_calibrated b = true ->
      baseline_builder.calibration_progress b now = py.Return 100)
  /\ (forall start,
        baseline_builder._calibration_start b = Some start ->
        baseline_builder.is_calibrated b = false ->
        (baseline_builder.calibration_duration b == 0 ->
         baseline_builder.calibration_progress b now
         = py.Raise py.ZeroDivisionError)
        /\ (0 < baseline_builder.calibration_duration b ->
            exists pct,
              baseline_builder.calibration_progress b now = py.Return pct
              /\ pct <= 100
              /\ (start <= now -> 0 <= pct)
              /\ (baseline_builder.calibration_duration b <= now - start ->
                  pct == 100)
              /\ (now - start <= baseline_builder.calibration_duration b ->
                  pct == (now - start)
                         / baseline_builder.calibration_duration b * 100))).
Proof.
  unfold baseline_builder.calibration_progress, baseline_builder.is_calibrated.
  split; [intros ->; reflexivity|].
  split.
  - intros Hs Hcal.
    destruct (baseline_builder._calibration_start b); [|contradiction].
    destruct (baseline_builder._baseline b); [reflexivity|discriminate].
  - intros start -> Hcal.
    destruct (baseline_builder._baseline b); [discriminate|].
    set (cd := baseline_builder.calibration_duration b).
    split.
    + intro Hz. now rewrite div_raises.
    + intro Hcd. rewrite div_returns by lra. cbn [py.bind].
      eexists. split; [reflexivity|].
      assert (Hfrac : (now - start) / cd * cd == now - start)
        by (field; lra).
      destruct (min_cases 100 ((now - start) / cd * 100)) as [[-> H]|[-> H]].
      * split; [lra|]. split; [intro; lra|].
        split; [intro; lra|].
        intro Hle.
        assert ((now - start) / cd <= 1).
        { apply Qle_shift_div_r; [exact Hcd|lra]. }
        lra.
      * split; [lra|]. split.
        -- intro Hge.
           assert (0 <= (now - start) / cd) by (apply Qdiv_nonneg; lra).
           lra.
        -- split; [|intro; lra].
           intro Hle.
           assert (1 <= (now - start) / cd).
           { apply Qle_shift_div_l; [exact Hcd|lra]. }
           lra.
Qed.

(** X10, at a concrete input: 45 seconds into a calibration of 180. *)
Lemma X10_calibration_progress_witness :
  let b := baseline_builder.start_calibration (baseline_builder.init 180) 10 in
  exists pct,
    baseline_builder.calibration_progress b 55 = py.Return pct
    /\ pct == 25.
Proof.
  intro b.
  destruct (proj2 (proj2 (X10_calibration_progress b 55)) 10 eq_refl eq_refl)
    as [_ Hpos].
  destruct Hpos as (pct & Hret & _ & _ & _ & Hval); [reflexivity|].
  exists pct. split; [exact Hret|].
  rewrite Hval; [vm_compute; reflexivity|vm_compute; discriminate].
Defined.

(** ** Activity shift detector: history, bands and explanation *)

Section DetectorMore.
Import feature_extractor activity_shift_detector detector_calls.

Lemma remember_length (recent : list Q) (x : Q) :
  (length recent <= _max_history)%nat ->
  (length (remember recent x) <= _max_history)%nat.
Proof.
  intro H. unfold remember.
  destruct (_max_history <? length (recent ++ [x]))%nat eqn:E.
  - destruct recent as [|a recent]; cbn [app tl length] in *;
      [unfold _max_history; lia|].
    rewrite length_app. cbn [length]. lia.
  - now apply Nat.ltb_ge in E.
Qed.

Lemma remember_Forall (P : Q -> Prop) (recent : list Q) (x : Q) :
  Forall P recent -> P x -> Forall P (remember recent x).
Proof.
  intros Hall Hx. unfold remember.
  assert (H : Forall P (recent ++ [x]))
    by (apply Forall_app; split; [exact Hall|now repeat constructor]).
  destruct (_max_history <? length (recent ++ [x]))%nat; [|exact H].
  destruct (recent ++ [x]); [constructor|]. now inversion H.
Qed.

Lemma max3_range (x y z lo hi : Q) :
  lo <= x <= hi -> lo <= y <= hi -> lo <= z <= hi ->
  lo <= py.max3 x y z <= hi.
Proof.
  intros Hx Hy Hz.
  destruct (max3_upper x y z) as (_ & _ & _ & [-> | [-> | ->]]); assumption.
Qed.

(** What [compute_scores] returns and records when a baseline is set. *)
Lemma compute_scores_inv (d d' : ActivityShiftDetector) (f : FeatureVector)
  (s : AnomalyScores) :
  compute_scores d f = py.Return (s, d') ->
  _baseline d' = _baseline d
  /\ 0 <= idle_burst s <= 70 /\ 0 <= focus_instability s <= 70
  /\ 0 <= behavioral_drift s <= 70 /\ 0 <= overall s <= 70
  /\ (_baseline d = None -> d' = d /\ s = AnomalyScores_default)
  /\ (_baseline d <> None ->
      _recent_scores d' = remember (_recent_scores d) (overall s)).
Proof.
  unfold compute_scores. destruct (_baseline d) as [b|] eqn:Hb.
  - destruct (_detect_idle_burst b f) as [x|e] eqn:Ex; cbn [py.bind];
      [|discriminate].
    destruct (_detect_focus_instability b f) as [y|e] eqn:Ey; cbn [py.bind];
      [|discriminate].
    destruct (_detect_behavioral_drift b f) as [z|e] eqn:Ez; cbn [py.bind];
      [|discriminate].
    intros [= <- <-].
    pose proof (detect_idle_burst_range _ _ _ Ex) as Hx.
    pose proof (detect_focus_instability_range _ _ _ Ey) as Hy.
    pose proof (detect_behavioral_drift_range _ _ _ Ez) as Hz.
    cbn [_baseline idle_burst focus_instability behavioral_drift overall
         _recent_scores].
    split; [reflexivity|]. split; [exact Hx|]. split; [exact Hy|].
    split; [exact Hz|]. split; [now apply max3_range|].
    split; [discriminate|reflexivity].
  - intros [= <- <-]. cbn [AnomalyScores_default idle_burst focus_instability
                          behavioral_drift overall].
    split; [exact Hb|]. split; [lra|]. split; [lra|]. split; [lra|].
    split; [lra|]. split; [auto|]. intro H. contradiction.
Qed.

Lemma detector_step_history (d d' : ActivityShiftDetector) (c : Call) :
  step d c = py.Return d' ->
  (length (_recent_scores d) <= _max_history)%nat ->
  Forall (fun x => 0 <= x <= 70) (_recent_scores d) ->
  (length (_recent_scores d') <= _max_history)%nat
  /\ Forall (fun x => 0 <= x <= 70) (_recent_scores d').
Proof.
  intros Hstep Hlen Hall.
  destruct c as [p|f|]; cbn [step] in Hstep.
  - injection Hstep as <-. now split.
  - destruct (compute_scores d f) as [[s d1]|e] eqn:Hcs;
      cbn [py.bind snd] in Hstep; [|discriminate].
    injection Hstep as <-.
    destruct (compute_scores_inv d d1 f s Hcs)
      as (_ & _ & _ & _ & Ho & Hnone & Hsome).
    destruct (_baseline d) as [b|].
    + rewrite Hsome by discriminate.
      split; [now apply remember_length|now apply remember_Forall].
    + destruct (Hnone eq_refl) as [-> _]. now split.
  - injection Hstep as <-. cbn [reset _recent_scores length].
    split; [unfold _max_history; lia|constructor].
Qed.

End DetectorMore.

(** X11.  The detector's score history is bounded: after any sequence of
    baseline assignments, [compute_scores] calls and resets, it holds at
    most 10 entries, each an overall score in [[0, 70]]. *)
Theorem X11_recent_scores_bounded
  (baseline : option baseline_builder.BaselineProfile)
  (calls : list detector_calls.Call)
  (d : activity_shift_detector.ActivityShiftDetector) :
  detector_calls.run (activity_shift_detector.init baseline) calls
  = py.Return d ->
  (length (activity_shift_detector._recent_scores d) <= 10)%nat
  /\ Forall (fun x => 0 <= x <= 70) (activity_shift_detector._recent_scores d).
Proof.
  assert (Hgen : forall calls d0 d1,
             (length (activity_shift_detector._recent_scores d0) <= 10)%nat ->
             Forall (fun x => 0 <= x <= 70)
               (activity_shift_detector._recent_scores d0) ->
             detector_calls.run d0 calls = py.Return d1 ->
             (length (activity_shift_detector._recent_scores d1) <= 10)%nat
             /\ Forall (fun x => 0 <= x <= 70)
                  (activity_shift_detector._recent_scores d1)).
  { clear. induction calls as [|c calls IH]; intros d0 d1 Hlen Hall Hrun.
    - cbn in Hrun. injection Hrun as <-. now split.
    - cbn [detector_calls.run] in Hrun.
      destruct (detector_calls.step d0 c) as [d2|e] eqn:Hstep;
        cbn [py.bind] in Hrun; [|discriminate].
      destruct (detector_step_history d0 d2 c Hstep Hlen Hall) as [Hlen2 Hall2].
      exact (IH d2 d1 Hlen2 Hall2 Hrun). }
  intro Hrun. apply (Hgen calls (activity_shift_detector.init baseline) d);
    [cbn; lia|constructor|exact Hrun].
Qed.

(** X11, at a concrete input: twelve identical bursts scored in a row. *)
Lemma X11_recent_scores_bounded_witness :
  let p := baseline_builder.mkBaselineProfile 200 2 0.5 in
  let f := feature_extractor.mkFeatureVector 400 5 0%Z 0 0 0 30 0%Z in
  let calls := repeat (detector_calls.ComputeScores f) 12 in
  exists d,
    detector_calls.run (activity_shift_detector.init (Some p)) calls
    = py.Return d
    /\ length (activity_shift_detector._recent_scores d) = 10%nat.
Proof.
  intros p f calls. eexists. split; [vm_compute; reflexivity|].
  apply Nat.le_antisymm; [|simpl; lia].
  apply (X11_recent_scores_bounded (Some p) calls). vm_compute. reflexivity.
Defined.

(** X12.  Inside the normal band nothing is flagged: with a positive
    baseline typing speed, a typing speed within 30% of it (from 0.7 to
    1.3 times the baseline) and a focus-loss rate of at most 1.5 times
    the baseline rate, all three scores and the overall score are 0,
    whatever the idle duration. *)
Theorem X12_normal_band_scores_zero
  (d : activity_shift_detector.ActivityShiftDetector)
  (b : baseline_builder.BaselineProfile)
  (f : feature_extractor.FeatureVector) :
  activity_shift_detector._baseline d = Some b ->
  0 < baseline_builder.avg_typing_speed b ->
  0.7 * baseline_builder.avg_typing_speed b
    <= feature_extractor.avg_typing_speed f
    <= 1.3 * baseline_builder.avg_typing_speed b ->
  (0 < feature_extractor.window_end f - feature_extractor.window_start f ->
   inject_Z (feature_extractor.focus_loss_count f)
   * (60 / (feature_extractor.window_end f - feature_extractor.window_start f))
   <= 1.5 * baseline_builder.avg_focus_rate b) ->
  exists s d',
    activity_shift_detector.compute_scores d f = py.Return (s, d')
    /\ activity_shift_detector.idle_burst s == 0
    /\ activity_shift_detector.focus_instability s == 0
    /\ activity_shift_detector.behavioral_drift s == 0
    /\ activity_shift_detector.overall s == 0.
Proof.
  intros Hd Hb Hband Hfocus.
  unfold activity_shift_detector.compute_scores. rewrite Hd.
  assert (Hidle : activity_shift_detector._detect_idle_burst b f = py.Return 0).
  { unfold activity_shift_detector._detect_idle_burst.
    destruct (py.ltb _ (feature_extractor.avg_idle_duration f)); [|reflexivity].
    assert (E : py.ltb (baseline_builder.avg_typing_speed b
                        * activity_shift_detector.typing_speed_multiplier)
                  (feature_extractor.avg_typing_speed f) = false).
    { apply ltb_false.
      unfold activity_shift_detector.typing_speed_multiplier. lra. }
    now rewrite E. }
  assert (Hfoc : activity_shift_detector._detect_focus_instability b f
                 = py.Return 0).
  { unfold activity_shift_detector._detect_focus_instability.
    destruct (py.ltb 0 (feature_extractor.window_end f
                        - feature_extractor.window_start f)) eqn:Ew.
    - apply ltb_true in Ew. rewrite div_returns by lra. cbn [py.bind].
      assert (E : py.ltb (baseline_builder.avg_focus_rate b
                          * activity_shift_detector.focus_rate_multiplier)
                    (inject_Z (feature_extractor.focus_loss_count f)
                     * (60 / (feature_extractor.window_end f
                              - feature_extractor.window_start f))) = false).
      { apply ltb_false. specialize (Hfocus Ew).
        unfold activity_shift_detector.focus_rate_multiplier. lra. }
      now rewrite E.
    - cbn [py.bind].
      destruct (py.ltb _ 0 && py.ltb 0 _) eqn:E; [|reflexivity].
      apply andb_true_iff in E as [E1 E2].
      apply ltb_true in E1. apply ltb_true in E2.
      unfold activity_shift_detector.focus_rate_multiplier in E1. lra. }
  assert (Hdrift : activity_shift_detector._detect_behavioral_drift b f
                   = py.Return 0).
  { unfold activity_shift_detector._detect_behavioral_drift.
    assert (E0 : py.leb (baseline_builder.avg_typing_speed b) 0 = false)
      by now apply leb_false.
    rewrite E0. rewrite div_returns by lra. cbn [py.bind].
    assert (E : py.ltb activity_shift_detector.drift_threshold
                  (py.abs (feature_extractor.avg_typing_speed f
                           - baseline_builder.avg_typing_speed b)
                   / baseline_builder.avg_typing_speed b) = false).
    { apply ltb_false. unfold activity_shift_detector.drift_threshold.
      apply Qle_shift_div_r; [exact Hb|].
      unfold py.abs. destruct (py.ltb _ 0); lra. }
    now rewrite E. }
  rewrite Hidle, Hfoc, Hdrift. cbn [py.bind].
  eexists. eexists. split; [reflexivity|].
  cbn. repeat split; reflexivity.
Qed.

(** X12, at a concrete input: the "normal behavior" window of the
    module's own self-test. *)
Lemma X12_normal_band_scores_zero_witness :
  let b := baseline_builder.mkBaselineProfile 200 2 0.5 in
  let d := activity_shift_detector.init (Some b) in
  let f := feature_extractor.mkFeatureVector 210 2.2 0%Z 0 0 0 30 0%Z in
  exists s d',
    activity_shift_detector.compute_scores d f = py.Return (s, d')
    /\ activity_shift_detector.overall s == 0.
Proof.
  intros b d f.
  destruct (X12_normal_band_scores_zero d b f) as (s & d' & Hret & _ & _ & _ & Ho).
  - reflexivity.
  - reflexivity.
  - split; vm_compute; discriminate.
  - intros _. vm_compute. discriminate.
  - exists s, d'. split; [exact Hret|exact Ho].
Defined.

Section SaturationFacts.
Import feature_extractor activity_shift_detector.

Lemma clamp_saturates (hi raw : Q) :
  0 < hi -> (py.min hi (py.max 0 raw) == hi <-> hi <= raw).
Proof.
  intro Hhi.
  destruct (max_cases 0 raw) as [[-> H1]|[-> H1]].
  - destruct (min_cases hi 0) as [[-> H2]|[-> H2]]; split; intro; lra.
  - destruct (min_cases hi raw) as [[-> H2]|[-> H2]]; split; intro; lra.
Qed.

Lemma Qdiv_le_iff (a b c : Q) : 0 < b -> (c <= a / b <-> c * b <= a).
Proof.
  intro Hb. split; intro H.
  - assert (E : a == a / b * b) by (field; lra).
    rewrite E. apply Qmult_le_compat_r; lra.
  - now apply Qle_shift_div_l.
Qed.

End SaturationFacts.

(** X13.  Where each rule saturates.  With a baseline whose typing speed
    and focus rate are positive and a window of positive length, the
    scores reach their cap of 70 exactly as follows: the idle-burst score
    when the idle duration exceeds 1.2 times the baseline and the typing
    speed is at least twice the baseline; the focus score when the
    focus-loss rate is at least 2.5 times the baseline rate; the drift
    score when the typing speed is at least 65% away from the baseline. *)
Theorem X13_rules_saturate
  (d : activity_shift_detector.ActivityShiftDetector)
  (b : baseline_builder.BaselineProfile)
  (f : feature_extractor.FeatureVector) :
  activity_shift_detector._baseline d = Some b ->
  0 < baseline_builder.avg_typing_speed b ->
  0 < baseline_builder.avg_focus_rate b ->
  0 < feature_extractor.window_end f - feature_extractor.window_start f ->
  let typing := feature_extractor.avg_typing_speed f in
  let focus_rate :=
    inject_Z (feature_extractor.focus_loss_count f)
    * (60 / (feature_extractor.window_end f - feature_extractor.window_start f)) in
  exists s d',
    activity_shift_detector.compute_scores d f = py.Return (s, d')
    /\ (activity_shift_detector.idle_burst s == 70 <->
        baseline_builder.avg_idle_duration b * 1.2
          < feature_extractor.avg_idle_duration f
        /\ 2 * baseline_builder.avg_typing_speed b <= typing)
    /\ (activity_shift_detector.focus_instability s == 70 <->
        2.5 * baseline_builder.avg_focus_rate b <= focus_rate)
    /\ (activity_shift_detector.behavioral_drift s == 70 <->
        typing <= 0.35 * baseline_builder.avg_typing_speed b
        \/ 1.65 * baseline_builder.avg_typing_speed b <= typing).
Proof.
  intros Hd Hb Hfr Hw typing focus_rate.
  set (bt := baseline_builder.avg_typing_speed b) in *.
  set (bf := baseline_builder.avg_focus_rate b) in *.
  assert (Hidle : exists x,
             activity_shift_detector._detect_idle_burst b f = py.Return x
             /\ (x == 70 <->
                 baseline_builder.avg_idle_duration b * 1.2
                   < feature_extractor.avg_idle_duration f
                 /\ 2 * bt <= typing)).
  { unfold activity_shift_detector._detect_idle_burst.
    unfold activity_shift_detector.idle_multiplier,
      activity_shift_detector.typing_speed_multiplier,
      activity_shift_detector.idle_burst_scale.
    fold bt. fold typing.
    destruct (py.ltb _ (feature_extractor.avg_idle_duration f)) eqn:E1.
    - apply ltb_true in E1.
      destruct (py.ltb (bt * 1.3) typing) eqn:E2.
      + apply ltb_true in E2. rewrite div_returns by lra. cbn [py.bind].
        eexists. split; [reflexivity|].
        rewrite clamp_saturates by lra.
        assert (H : 70 <= (typing / bt - 1.3) * 100 <-> 2 <= typing / bt)
          by (split; intro; lra).
        rewrite H, Qdiv_le_iff by exact Hb. tauto.
      + apply ltb_false in E2. eexists. split; [reflexivity|].
        split; [intro; lra|intros [_ H]; lra].
    - apply ltb_false in E1. eexists. split; [reflexivity|].
      split; [intro; lra|intros [H _]; lra]. }
  assert (Hfocus : exists y,
             activity_shift_detector._detect_focus_instability b f = py.Return y
             /\ (y == 70 <-> 2.5 * bf <= focus_rate)).
  { unfold activity_shift_detector._detect_focus_instability.
    unfold activity_shift_detector.focus_rate_multiplier,
      activity_shift_detector.focus_scale.
    fold bf.
    assert (Ew : py.ltb 0 (feature_extractor.window_end f
                           - feature_extractor.window_start f) = true)
      by now apply ltb_true.
    rewrite Ew. rewrite div_returns by lra. cbn [py.bind]. fold focus_rate.
    assert (Ef : py.ltb 0 bf = true) by now apply ltb_true.
    rewrite Ef, andb_true_r.
    destruct (py.ltb (bf * 1.5) focus_rate) eqn:E.
    - apply ltb_true in E. rewrite div_returns by lra. cbn [py.bind].
      eexists. split; [reflexivity|].
      rewrite clamp_saturates by lra.
      assert (H : 70 <= (focus_rate / bf - 1.5) * 70 <-> 2.5 <= focus_rate / bf)
        by (split; intro; lra).
      rewrite H, Qdiv_le_iff by exact Hfr. tauto.
    - apply ltb_false in E. eexists. split; [reflexivity|].
      split; intro; lra. }
  assert (Hdrift : exists z,
             activity_shift_detector._detect_behavioral_drift b f = py.Return z
             /\ (z == 70 <-> typing <= 0.35 * bt \/ 1.65 * bt <= typing)).
  { unfold activity_shift_detector._detect_behavioral_drift.
    unfold activity_shift_detector.drift_threshold,
      activity_shift_detector.drift_scale.
    fold bt. fold typing.
    assert (E0 : py.leb bt 0 = false) by now apply leb_false.
    rewrite E0. rewrite div_returns by lra. cbn [py.bind].
    set (dev := py.abs (typing - bt)).
    assert (Hdev : forall c, c * bt <= dev <->
                             typing <= (1 - c) * bt \/ (1 + c) * bt <= typing).
    { intro c. unfold dev, py.abs.
      destruct (py.ltb (typing - bt) 0) eqn:Ea;
        [apply ltb_true in Ea|apply ltb_false in Ea]; split; intro H.
      - left. lra.
      - destruct H; lra.
      - right. lra.
      - destruct H as [H|H]; [|lra].
        (* typing <= (1 - c) * bt with typing >= bt: then c * bt <= 0 *)
        lra. }
    destruct (py.ltb 0.3 (dev / bt)) eqn:E.
    - eexists. split; [reflexivity|].
      rewrite clamp_saturates by lra.
      assert (H : 70 <= (dev / bt - 0.3) * 200 <-> 0.65 <= dev / bt)
        by (split; intro; lra).
      rewrite H, Qdiv_le_iff by exact Hb. rewrite Hdev.
      assert (E1 : (1 - 0.65) * bt == 0.35 * bt) by lra.
      assert (E2 : (1 + 0.65) * bt == 1.65 * bt) by lra.
      rewrite E1, E2. tauto.
    - apply ltb_false in E. eexists. split; [reflexivity|].
      split; [intro; lra|]. intro H.
      assert (H' : 0.65 * bt <= dev).
      { apply Hdev.
        assert (E1 : (1 - 0.65) * bt == 0.35 * bt) by lra.
        assert (E2 : (1 + 0.65) * bt == 1.65 * bt) by lra.
        rewrite E1, E2. exact H. }
      apply (Qdiv_le_iff dev bt 0.65 Hb) in H'. lra. }
  destruct Hidle as (x & Hx & Hxi).
  destruct Hfocus as (y & Hy & Hyi).
  destruct Hdrift as (z & Hz & Hzi).
  unfold activity_shift_detector.compute_scores. rewrite Hd, Hx, Hy, Hz.
  cbn [py.bind]. eexists. eexists. split; [reflexivity|].
  cbn [activity_shift_detector.idle_burst
       activity_shift_detector.focus_instability
       activity_shift_detector.behavioral_drift].
  split; [exact Hxi|]. split; [exact Hyi|exact Hzi].
Qed.

(** X13, at a concrete input: the typing burst of the module's own
    self-test, twice the baseline speed after a long idle period. *)
Lemma X13_rules_saturate_witness :
  let b := baseline_builder.mkBaselineProfile 200 2 0.5 in
  let d := activity_shift_detector.init (Some b) in
  let f := feature_extractor.mkFeatureVector 400 5 0%Z 0 0 0 30 0%Z in
  exists s d',
    activity_shift_detector.compute_scores d f = py.Return (s, d')
    /\ activity_shift_detector.idle_burst s == 70.
Proof.
  intros b d f.
  destruct (X13_rules_saturate d b f) as (s & d' & Hret & Hidle & _);
    try reflexivity.
  exists s, d'. split; [exact Hret|].
  apply Hidle. split; [reflexivity|vm_compute; discriminate].
Defined.

Section ExplanationFacts.
Import String.

(** X14.  [get_anomaly_explanation] reports normal behaviour exactly when
    none of the three rule scores exceeds 30; as soon as one does, the
    text is made of warning or critical messages and differs from the
    normal-behaviour text. *)
Theorem X14_explanation_normal_iff
  (s : activity_shift_detector.AnomalyScores) :
  activity_shift_detector.get_anomaly_explanation s
  = "Normal behavior detected"%string
  <-> activity_shift_detector.idle_burst s <= 30
      /\ activity_shift_detector.focus_instability s <= 30
      /\ activity_shift_detector.behavioral_drift s <= 30.
Proof.
  unfold activity_shift_detector.get_anomaly_explanation.
  destruct (py.ltb 60 (activity_shift_detector.idle_burst s)) eqn:I60;
    destruct (py.ltb 30 (activity_shift_detector.idle_burst s)) eqn:I30;
    destruct (py.ltb 60 (activity_shift_detector.focus_instability s)) eqn:F60;
    destruct (py.ltb 30 (activity_shift_detector.focus_instability s)) eqn:F30;
    destruct (py.ltb 60 (activity_shift_detector.behavioral_drift s)) eqn:D60;
    destruct (py.ltb 30 (activity_shift_detector.behavioral_drift s)) eqn:D30;
    repeat match goal with
           | H : py.ltb _ _ = true |- _ => apply ltb_true in H
           | H : py.ltb _ _ = false |- _ => apply ltb_false in H
           end;
    cbn; (split; [try discriminate; intro; lra|intros (? & ? & ?); try lra]).
  reflexivity.
Qed.

End ExplanationFacts.

(** ** Risk engine: bounds over call sequences *)

Section EngineMore.
Import activity_shift_detector risk_engine engine_calls.

Lemma deque_append_Forall (P : Q -> Prop) (w : nat) (h : list Q) (r : Q) :
  Forall P h -> P r -> Forall P (deque_append w h r).
Proof.
  intros Hall Hr. unfold deque_append.
  assert (H : Forall P (h ++ [r]))
    by (apply Forall_app; split; [exact Hall|now repeat constructor]).
  destruct (w <? length (h ++ [r]))%nat; [|exact H].
  destruct (h ++ [r]); [constructor|]. now inversion H.
Qed.

Lemma deque_append_length (w : nat) (h : list Q) (r : Q) :
  (length h <= w)%nat -> (length (deque_append w h r) <= w)%nat.
Proof.
  intro Hlen. unfold deque_append.
  destruct (w <? length (h ++ [r]))%nat eqn:E.
  - rewrite length_app in E. cbn [length] in E. apply Nat.ltb_lt in E.
    destruct h as [|a h]; cbn [app tl length] in *; [lia|].
    rewrite length_app. cbn [length]. lia.
  - now apply Nat.ltb_ge in E.
Qed.

Lemma Qsum_bounds (lo hi : Q) (l : list Q) :
  Forall (fun x => lo <= x <= hi) l ->
  inject_Z (Z.of_nat (length l)) * lo <= spec.Qsum l
  /\ spec.Qsum l <= inject_Z (Z.of_nat (length l)) * hi.
Proof.
  induction 1 as [|x l Hx Hl IH].
  - cbn [spec.Qsum length Z.of_nat]. change (inject_Z 0) with 0. lra.
  - cbn [spec.Qsum length]. rewrite Nat2Z.inj_succ. unfold Z.succ.
    rewrite inject_Z_plus. change (inject_Z 1) with 1. lra.
Qed.

Lemma mean_bounds (lo hi : Q) (l : list Q) :
  l <> [] -> Forall (fun x => lo <= x <= hi) l -> lo <= spec.mean l <= hi.
Proof.
  intros Hne Hall. unfold spec.mean.
  destruct (Qsum_bounds lo hi l Hall) as [H1 H2].
  assert (Hn : 0 < inject_Z (Z.of_nat (length l))).
  { change 0 with (inject_Z 0). rewrite <- Zlt_Qlt.
    destruct l; [contradiction|cbn [length]; lia]. }
  split.
  - apply Qle_shift_div_l; [exact Hn|lra].
  - apply Qle_shift_div_r; [exact Hn|lra].
Qed.

Lemma removelast_Forall (P : Q -> Prop) (l : list Q) :
  Forall P l -> Forall P (removelast l).
Proof.
  induction 1 as [|x l Hx Hl IH]; [constructor|].
  cbn [removelast]. destruct l; [constructor|]. now constructor.
Qed.

(** One call keeps the history and the smoothed value between any bounds
    that hold for the old history and the new raw score. *)
Lemma compute_risk_between (lo hi : Q) (e e' : RiskEngine)
  (s : AnomalyScores) (sm : Q) :
  Forall (fun x => lo <= x <= hi) (_risk_history e) ->
  lo <= clamped s <= hi ->
  compute_risk e s = py.Return (sm, e') ->
  lo <= sm <= hi
  /\ Forall (fun x => lo <= x <= hi) (_risk_history e')
  /\ raw_risk e' = clamped s
  /\ current_risk e' = sm
  /\ smoothing_window e' = smoothing_window e
  /\ _risk_history e'
     = deque_append (smoothing_window e) (_risk_history e) (clamped s).
Proof.
  intros Hall Hr Hret.
  destruct (compute_risk_returns e s) as (sm' & Hret' & Hle & Hge).
  rewrite Hret' in Hret. injection Hret as -> <-.
  cbn [_risk_history raw_risk current_risk _last_raw_risk _last_smoothed_risk
       smoothing_window].
  pose proof (deque_append_Forall _ (smoothing_window e) _ _ Hall Hr) as Hall'.
  split; [|repeat split; try reflexivity; exact Hall'].
  set (h := deque_append (smoothing_window e) (_risk_history e) (clamped s)) in *.
  destruct (le_lt_dec (length h) 1) as [H1|H1].
  - rewrite (Hle H1). exact Hr.
  - rewrite (Hge H1).
    assert (Hm : lo <= spec.mean (removelast h) <= hi).
    { apply mean_bounds; [|now apply removelast_Forall].
      destruct h as [|a [|b h]]; cbn [length] in H1; try lia. discriminate. }
    unfold spec.mean in Hm.
    rewrite sum_Qsum, removelast_length_Z by lia. lra.
Qed.

Lemma clamped_range (s : AnomalyScores) : 0 <= clamped s <= 100.
Proof.
  unfold clamped.
  assert (H : 0 <= 100) by lra.
  destruct (max_min_clamp 0 100 (weighted s) H) as [Hb _]. exact Hb.
Qed.

Lemma engine_step_inv (e e' : RiskEngine) (c : Call) :
  step e c = py.Return e' ->
  Forall (fun x => 0 <= x <= 100) (_risk_history e) ->
  (length (_risk_history e) <= smoothing_window e)%nat ->
  0 <= current_risk e <= 100 ->
  0 <= raw_risk e <= 100 ->
  smoothing_window e' = smoothing_window e
  /\ Forall (fun x => 0 <= x <= 100) (_risk_history e')
  /\ (length (_risk_history e') <= smoothing_window e')%nat
  /\ 0 <= current_risk e' <= 100
  /\ 0 <= raw_risk e' <= 100.
Proof.
  intros Hstep Hall Hlen Hcur Hraw.
  destruct c as [s|]; cbn [step] in Hstep.
  - destruct (compute_risk e s) as [[sm e1]|x] eqn:Hcr;
      cbn [py.bind snd] in Hstep; [|discriminate].
    injection Hstep as <-.
    destruct (compute_risk_between 0 100 e e1 s sm Hall (clamped_range s) Hcr)
      as (Hsm & Hall' & Hr & Hc & Hw & Hh).
    split; [exact Hw|]. split; [exact Hall'|].
    split; [rewrite Hh, Hw; now apply deque_append_length|].
    split; [now rewrite Hc|]. rewrite Hr. apply clamped_range.
  - injection Hstep as <-.
    unfold reset, current_risk, raw_risk.
    cbn [smoothing_window _risk_history _last_raw_risk _last_smoothed_risk
         length].
    split; [reflexivity|]. split; [constructor|]. split; [lia|].
    split; lra.
Qed.

Lemma engine_run_inv (calls : list Call) :
  forall e0 e1,
    Forall (fun x => 0 <= x <= 100) (_risk_history e0) ->
    (length (_risk_history e0) <= smoothing_window e0)%nat ->
    0 <= current_risk e0 <= 100 ->
    0 <= raw_risk e0 <= 100 ->
    run e0 calls = py.Return e1 ->
    smoothing_window e1 = smoothing_window e0
    /\ Forall (fun x => 0 <= x <= 100) (_risk_history e1)
    /\ (length (_risk_history e1) <= smoothing_window e1)%nat
    /\ 0 <= current_risk e1 <= 100
    /\ 0 <= raw_risk e1 <= 100.
Proof.
  induction calls as [|c calls IH]; intros e0 e1 Hall Hlen Hcur Hraw Hrun.
  - cbn in Hrun. injection Hrun as <-. auto.
  - cbn [run] in Hrun.
    destruct (step e0 c) as [e2|x] eqn:Hstep; cbn [py.bind] in Hrun;
      [|discriminate].
    destruct (engine_step_inv e0 e2 c Hstep Hall Hlen Hcur Hraw)
      as (Hw & Hall2 & Hlen2 & Hcur2 & Hraw2).
    destruct (IH e2 e1 Hall2 Hlen2 Hcur2 Hraw2 Hrun) as (Hw1 & H).
    split; [congruence|exact H].
Qed.

Lemma engine_init_inv (window : nat) (calls : list Call) (e : RiskEngine) :
  run (init window) calls = py.Return e ->
  smoothing_window e = window
  /\ Forall (fun x => 0 <= x <= 100) (_risk_history e)
  /\ (length (_risk_history e) <= window)%nat
  /\ 0 <= current_risk e <= 100
  /\ 0 <= raw_risk e <= 100.
Proof.
  intro Hrun.
  destruct (engine_run_inv calls (init window) e)
    as (Hw & Hall & Hlen & Hcur & Hraw);
    try exact Hrun; cbn; try lra; try lia; [constructor|].
  cbn in Hw. rewrite Hw in Hlen. auto.
Qed.

End EngineMore.

(** X15.  The engine stays within its documented range: after any
    sequence of [compute_risk] calls and resets on a fresh engine, the
    smoothed risk and the raw risk lie in [[0, 100]], the history holds at
    most [smoothing_window] entries, and each entry lies in [[0, 100]]. *)
Theorem X15_engine_risk_in_range
  (window : nat) (calls : list engine_calls.Call)
  (e : risk_engine.RiskEngine) :
  engine_calls.run (risk_engine.init window) calls = py.Return e ->
  0 <= risk_engine.current_risk e <= 100
  /\ 0 <= risk_engine.raw_risk e <= 100
  /\ risk_engine.smoothing_window e = window
  /\ (length (risk_engine._risk_history e) <= window)%nat
  /\ Forall (fun x => 0 <= x <= 100) (risk_engine._risk_history e).
Proof.
  intro Hrun.
  destruct (engine_init_inv window calls e Hrun) as (Hw & Hall & Hlen & Hcur & Hraw).
  auto.
Qed.

(** X15, at a concrete input: out-of-range scores, a reset, and more
    scores on a default engine. *)
Lemma X15_engine_risk_in_range_witness :
  let wild := activity_shift_detector.mkAnomalyScores 500 (-20) 300 500 in
  let calm := activity_shift_detector.mkAnomalyScores 10 0 5 10 in
  let calls :=
    [engine_calls.ComputeRisk wild; engine_calls.ComputeRisk calm;
     engine_calls.Reset; engine_calls.ComputeRisk wild;
     engine_calls.ComputeRisk wild; engine_calls.ComputeRisk calm;
     engine_calls.ComputeRisk calm] in
  exists e,
    engine_calls.run (risk_engine.init 3) calls = py.Return e
    /\ 0 <= risk_engine.current_risk e <= 100
    /\ (length (risk_engine._risk_history e) <= 3)%nat.
Proof.
  intros wild calm calls.
  destruct (engine_calls.run (risk_engine.init 3) calls) as [e|x] eqn:Hrun;
    [|vm_compute in Hrun; discriminate Hrun].
  exists e. split; [reflexivity|].
  destruct (X15_engine_risk_in_range 3 calls e Hrun)
    as (Hcur & _ & _ & Hlen & _).
  split; [exact Hcur|exact Hlen].
Defined.

(** X16.  With a smoothing window of 0 or 1 nothing is smoothed: in every
    state such an engine reaches, [compute_risk] returns the raw score
    itself. *)
Theorem X16_window_one_returns_raw
  (window : nat) (calls : list engine_calls.Call)
  (e : risk_engine.RiskEngine) (s : activity_shift_detector.AnomalyScores) :
  (window <= 1)%nat ->
  engine_calls.run (risk_engine.init window) calls = py.Return e ->
  exists e',
    risk_engine.compute_risk e s = py.Return (engine_calls.clamped s, e')
    /\ risk_engine.raw_risk e' = engine_calls.clamped s
    /\ risk_engine.current_risk e' = engine_calls.clamped s.
Proof.
  intros Hw Hrun.
  destruct (engine_init_inv window calls e Hrun) as (Hwe & _ & Hlen & _).
  destruct (compute_risk_returns e s) as (sm & Hret & Hle & _).
  cbv zeta in Hret, Hle.
  assert (Hl : (length (risk_engine.deque_append (risk_engine.smoothing_window e)
                          (risk_engine._risk_history e) (engine_calls.clamped s))
                <= 1)%nat).
  { apply Nat.le_trans with (risk_engine.smoothing_window e); [|lia].
    apply deque_append_length. lia. }
  rewrite (Hle Hl) in Hret.
  eexists. split; [exact Hret|]. split; reflexivity.
Qed.

(** X16, at a concrete input: the engine of the anomaly test script,
    built with [smoothing_window=1]. *)
Lemma X16_window_one_returns_raw_witness :
  let burst := activity_shift_detector.mkAnomalyScores 70 0 70 70 in
  let calm := activity_shift_detector.mkAnomalyScores 0 0 0 0 in
  exists e',
    risk_engine.compute_risk
      (risk_engine.mkRiskEngine 1 [engine_calls.clamped burst]
         (engine_calls.clamped burst) (engine_calls.clamped burst)) calm
    = py.Return (engine_calls.clamped calm, e').
Proof.
  intros burst calm.
  destruct (X16_window_one_returns_raw 1 [engine_calls.ComputeRisk burst]
              (risk_engine.mkRiskEngine 1 [engine_calls.clamped burst]
                 (engine_calls.clamped burst) (engine_calls.clamped burst))
              calm) as (e' & Hret & _).
  - lia.
  - reflexivity.
  - exists e'. exact Hret.
Defined.

(** ** The client loop: detector, engine and sink together *)

Section ClientFacts.
Import activity_shift_detector risk_engine engine_calls.
Variable sqrt : Q -> Q.

(** Scores in [[0, 70]] give a weighted sum in [[0, 70]], which the clamp
    leaves alone, and which is 0 only when the three scores are. *)
Lemma clamped_of_bounded (s : AnomalyScores) :
  0 <= idle_burst s <= 70 ->
  0 <= focus_instability s <= 70 ->
  0 <= behavioral_drift s <= 70 ->
  0 <= clamped s <= 70
  /\ (clamped s == 0 ->
      idle_burst s == 0 /\ focus_instability s == 0 /\ behavioral_drift s == 0).
Proof.
  intros Hi Hf Hd. unfold clamped.
  assert (Hw : 0 <= weighted s <= 70
               /\ (weighted s == 0 ->
                   idle_burst s == 0 /\ focus_instability s == 0
                   /\ behavioral_drift s == 0)).
  { unfold weighted, weight_idle_burst, weight_focus_instability,
      weight_behavioral_drift.
    split; [lra|]. intro H. repeat split; lra. }
  destruct Hw as [Hw Hz].
  assert (H0 : 0 <= 100) by lra.
  destruct (max_min_clamp 0 100 (weighted s) H0) as (_ & Hin & _).
  assert (E : py.max 0 (py.min 100 (weighted s)) == weighted s)
    by (apply Hin; lra).
  rewrite E. split; [exact Hw|exact Hz].
Qed.

(** With a history that has no negative entry, a smoothed value of 0
    means that the raw score is 0. *)
Lemma smoothed_zero_raw_zero (e e' : RiskEngine) (s : AnomalyScores) (sm : Q) :
  Forall (fun x => 0 <= x <= 70) (_risk_history e) ->
  0 <= clamped s <= 70 ->
  compute_risk e s = py.Return (sm, e') ->
  sm == 0 -> clamped s == 0.
Proof.
  intros Hall Hr Hret Hz.
  destruct (compute_risk_returns e s) as (sm' & Hret' & Hle & Hge).
  rewrite Hret' in Hret. injection Hret as -> _.
  pose proof (deque_append_Forall _ (smoothing_window e) _ _ Hall Hr) as Hall'.
  set (h := deque_append (smoothing_window e) (_risk_history e) (clamped s)) in *.
  destruct (le_lt_dec (length h) 1) as [H1|H1].
  - rewrite (Hle H1) in Hz. exact Hz.
  - rewrite (Hge H1) in Hz.
    assert (Hm : 0 <= spec.mean (removelast h) <= 70).
    { apply mean_bounds; [|now apply removelast_Forall].
      destruct h as [|a [|b h]]; cbn [length] in H1; try lia. discriminate. }
    unfold spec.mean in Hm.
    rewrite sum_Qsum, removelast_length_Z in Hz by lia. lra.
Qed.

(** The state a client keeps between passes. *)
Lemma tick_inv (c c' : client.Client) (events : list models.BaseEvent)
  (now : Q) (out : option (Q * AnomalyScores)) :
  client.tick sqrt c events now = py.Return (c', out) ->
  Forall (fun x => 0 <= x <= 70) (_risk_history (client.risk_engine c)) ->
  _baseline (client.detector c)
  = baseline_builder.baseline (client.baseline_builder c) ->
  Forall (fun x => 0 <= x <= 70) (_risk_history (client.risk_engine c'))
  /\ _baseline (client.detector c')
     = baseline_builder.baseline (client.baseline_builder c')
  /\ (forall p,
        baseline_builder.baseline (client.baseline_builder c) = Some p ->
        client.baseline_builder c' = client.baseline_builder c)
  /\ match out with
     | Some (risk, s) =>
         baseline_builder.is_calibrated (client.baseline_builder c') = true
         /\ 0 <= risk <= 70
         /\ 0 <= idle_burst s <= 70 /\ 0 <= focus_instability s <= 70
         /\ 0 <= behavioral_drift s <= 70 /\ 0 <= overall s <= 70
         /\ (risk == 0 ->
             idle_burst s == 0 /\ focus_instability s == 0
             /\ behavioral_drift s == 0)
     | None =>
         baseline_builder.is_calibrated (client.baseline_builder c') = false
     end.
Proof.
  intros Htick Hall Hbase. unfold client.tick in Htick.
  set (ex0 := fold_left feature_extractor.add_event events (client.extractor c))
    in Htick.
  destruct (compute_features_returns sqrt ex0 now) as (fv & Hcf & _).
  cbv zeta in Hcf. rewrite Hcf in Htick. cbn [py.bind fst snd] in Htick.
  destruct (update_total (client.baseline_builder c) fv
              (feature_extractor.window_end fv)) as (bb & Hup & _).
  rewrite Hup in Htick. cbn [py.bind] in Htick.
  assert (Hfreeze : forall p,
             baseline_builder.baseline (client.baseline_builder c) = Some p ->
             bb = client.baseline_builder c).
  { intros p Hp.
    assert (Hcal : baseline_builder.is_calibrated (client.baseline_builder c)
                   = true).
    { unfold baseline_builder.is_calibrated, baseline_builder.baseline in *.
      now rewrite Hp. }
    rewrite (update_calibrated _ fv _ Hcal) in Hup. now injection Hup as <-. }
  set (det := match baseline_builder.baseline bb,
                    _baseline (client.detector c) with
              | Some profile, None => set_baseline (client.detector c) profile
              | _, _ => client.detector c
              end) in Htick.
  assert (Hdet : _baseline det = baseline_builder.baseline bb
                 /\ _recent_scores det = _recent_scores (client.detector c)).
  { unfold det.
    destruct (baseline_builder.baseline (client.baseline_builder c)) as [p|] eqn:Hp.
    - rewrite (Hfreeze p eq_refl), Hp, Hbase. split; [exact Hbase|reflexivity].
    - rewrite Hbase.
      destruct (baseline_builder.baseline bb);
        (split; [first [reflexivity|exact Hbase]|reflexivity]). }
  destruct Hdet as [Hdet _].
  destruct (_baseline det) as [p|] eqn:Hp.
  - destruct (compute_scores det fv) as [[s det']|x] eqn:Hcs;
      cbn [py.bind fst snd] in Htick; [|discriminate].
    destruct (compute_risk (client.risk_engine c) s) as [[sm eng']|x] eqn:Hcr;
      cbn [py.bind fst snd] in Htick; [|discriminate].
    assert (Hcal : baseline_builder.is_calibrated bb = true).
    { unfold baseline_builder.is_calibrated, baseline_builder.baseline in *.
      now rewrite <- Hdet. }
    rewrite Hcal in Htick. cbn [negb py.bind] in Htick.
    injection Htick as <- <-.
    cbn [client.risk_engine client.detector client.baseline_builder].
    destruct (compute_scores_inv det det' fv s Hcs)
      as (Hb' & Hi & Hf & Hd & Ho & _).
    destruct (clamped_of_bounded s Hi Hf Hd) as [Hr Hzero].
    destruct (compute_risk_between 0 70 _ _ s sm Hall Hr Hcr)
      as (Hsm & Hall' & _).
    split; [exact Hall'|]. split; [congruence|]. split; [exact Hfreeze|].
    split.
    { unfold baseline_builder.is_calibrated, baseline_builder.baseline in *.
      now rewrite <- Hdet. }
    repeat (split; [assumption|]).
    intro Hz. apply Hzero.
    exact (smoothed_zero_raw_zero _ _ s sm Hall Hr Hcr Hz).
  - assert (Hcal : baseline_builder.is_calibrated bb = false).
    { unfold baseline_builder.is_calibrated, baseline_builder.baseline in *.
      now rewrite <- Hdet. }
    rewrite Hcal in Htick. cbn [negb py.bind] in Htick.
    destruct (client.progress c now) as [percent|x];
      cbn [py.bind] in Htick; [|discriminate].
    injection Htick as <- <-.
    cbn [client.risk_engine client.detector client.baseline_builder].
    split; [exact Hall|]. split; [congruence|]. split; [exact Hfreeze|].
    exact Hcal.
Qed.

Lemma client_run_inv (passes : list (list models.BaseEvent * Q)) :
  forall c c',
    client.run sqrt c passes = py.Return c' ->
    Forall (fun x => 0 <= x <= 70) (_risk_history (client.risk_engine c)) ->
    _baseline (client.detector c)
    = baseline_builder.baseline (client.baseline_builder c) ->
    Forall (fun x => 0 <= x <= 70) (_risk_history (client.risk_engine c'))
    /\ _baseline (client.detector c')
       = baseline_builder.baseline (client.baseline_builder c')
    /\ (forall p,
          baseline_builder.baseline (client.baseline_builder c) = Some p ->
          client.baseline_builder c' = client.baseline_builder c).
Proof.
  induction passes as [|[events now] passes IH]; intros c c' Hrun Hall Hbase.
  - cbn in Hrun. injection Hrun as <-. auto.
  - cbn [client.run] in Hrun.
    destruct (client.tick sqrt c events now) as [[c1 out]|x] eqn:Htick;
      cbn [py.bind fst] in Hrun; [|discriminate].
    destruct (tick_inv c c1 events now out Htick Hall Hbase)
      as (Hall1 & Hbase1 & Hfreeze1 & _).
    destruct (IH c1 c' Hrun Hall1 Hbase1) as (Hall' & Hbase' & Hfreeze').
    split; [exact Hall'|]. split; [exact Hbase'|].
    intros p Hp. rewrite <- (Hfreeze1 p Hp).
    apply (Hfreeze' p). rewrite (Hfreeze1 p Hp). exact Hp.
Qed.

End ClientFacts.

Section ClientTheorems.
Import String.

(** X17.  What the client loop can report.  In every state the loop
    reaches from its initial components, a pass that produces a risk
    produces one in [[0, 70]], which the dashboard never rates CRITICAL;
    and the [RiskData] built from that risk and its scores, with a
    non-blank session id and a positive timestamp, passes the field checks
    of the model and is accepted by the sink validator. *)
Theorem X17_client_reports_are_accepted
  (sqrt : Q -> Q) (feature_window calibration_duration calibration_start_time : Q)
  (passes : list (list models.BaseEvent * Q)) (c c' : client.Client)
  (events : list models.BaseEvent) (now risk : Q)
  (scores : activity_shift_detector.AnomalyScores) :
  client.run sqrt
    (client.init feature_window calibration_duration calibration_start_time)
    passes
  = py.Return c ->
  client.tick sqrt c events now = py.Return (c', Some (risk, scores)) ->
  0 <= risk <= 70
  /\ fst (fst (dashboard.get_risk_level risk)) <> "CRITICAL"%string
  /\ forall (t : Q) (session_id source : models.str),
       anomaly_validator.strip session_id <> [] ->
       0 < t ->
       exists payload,
         client.make_payload t risk scores session_id source = Some payload
         /\ models.risk_score payload = risk
         /\ fst (anomaly_validator.validate payload) = true.
Proof.
  intros Hrun Htick.
  destruct (client_run_inv sqrt passes _ c Hrun) as (Hall & Hbase & _);
    [constructor|reflexivity|].
  destruct (tick_inv sqrt c c' events now _ Htick Hall Hbase)
    as (_ & _ & _ & _ & Hrisk & Hi & Hf & Hd & Ho & Hzero).
  split; [exact Hrisk|]. split.
  - unfold dashboard.get_risk_level.
    assert (E : py.leb 80 risk = false) by (apply leb_false; lra).
    rewrite E.
    destruct (py.leb 60 risk); [discriminate|].
    destruct (py.leb 30 risk); [discriminate|].
    destruct (py.leb 10 risk); discriminate.
  - intros t sid src Hsid Ht.
    unfold client.make_payload, client.in_field_bounds.
    assert (Hb : forall x, 0 <= x <= 70 -> py.leb 0 x && py.leb x 100 = true).
    { intros x Hx. apply andb_true_iff. split; apply leb_true; lra. }
    rewrite !Hb by assumption. cbn [andb].
    eexists. split; [reflexivity|]. split; [reflexivity|].
    apply validate_true.
    cbn [models.risk_score models.anomaly_scores models.idle_burst
         models.focus_instability models.behavioral_drift models.session_id
         models.rd_timestamp].
    repeat split; try lra; try apply Hzero; assumption.
Qed.

(** X17, at a concrete input: the default windows (30 s of features,
    180 s of calibration), the loop started at time 1000, one pass a
    second, each delivering the key press of the half second before.  The
    first pass starts the calibration; after 90 passes the builder holds
    89 windows and is not calibrated; the 91st pass, at half of the
    calibration duration, freezes the baseline and produces the first
    risk. *)
Lemma X17_client_reports_are_accepted_witness :
  let pass (k : nat) :=
    let now := 1000 + inject_Z (Z.of_nat k) in
    ([models.mkEvent (now - 0.5) models.KEY_PRESS models.KeystrokeEvent], now) in
  exists c c' risk scores,
    client.run (fun x => x) (client.init 30 180 1000) (map pass (seq 1 90))
    = py.Return c
    /\ List.length
         (baseline_builder._feature_history (client.baseline_builder c))
       = 89%nat
    /\ baseline_builder.is_calibrated (client.baseline_builder c) = false
    /\ client.tick (fun x => x) c (fst (pass 91%nat)) (snd (pass 91%nat))
       = py.Return (c', Some (risk, scores))
    /\ 0 <= risk <= 70.
Proof.
  intro pass.
  destruct (client.run (fun x => x) (client.init 30 180 1000)
              (map pass (seq 1 90))) as [c|x] eqn:Hrun;
    [|vm_compute in Hrun; discriminate Hrun].
  pose proof Hrun as Hc. vm_compute in Hc. injection Hc as Hc.
  destruct (client.tick (fun x => x) c (fst (pass 91%nat)) (snd (pass 91%nat)))
    as [[c' out]|x] eqn:Htick;
    [|subst c; vm_compute in Htick; discriminate Htick].
  destruct out as [[risk scores]|];
    [|subst c; vm_compute in Htick; discriminate Htick].
  exists c, c', risk, scores. split; [reflexivity|].
  split; [subst c; reflexivity|]. split; [subst c; reflexivity|].
  split; [exact Htick|].
  exact (proj1 (X17_client_reports_are_accepted (fun x => x) 30 180 1000
                  (map pass (seq 1 90)) c c' (fst (pass 91%nat))
                  (snd (pass 91%nat)) risk scores Hrun Htick)).
Defined.

End ClientTheorems.

(** X18.  The hand-over of the baseline.  In every state the client loop
    reaches, the detector's baseline is the builder's: none while the
    builder calibrates, the frozen profile afterwards.  Once a profile is
    frozen, later passes change neither the builder nor the detector's
    baseline.  A pass produces a risk exactly when the builder is
    calibrated at the end of that pass. *)
Theorem X18_client_baseline_handover
  (sqrt : Q -> Q) (feature_window calibration_duration calibration_start_time : Q)
  (passes : list (list models.BaseEvent * Q)) (c : client.Client) :
  client.run sqrt
    (client.init feature_window calibration_duration calibration_start_time)
    passes
  = py.Return c ->
  activity_shift_detector._baseline (client.detector c)
  = baseline_builder.baseline (client.baseline_builder c)
  /\ (forall p more c2,
        baseline_builder.baseline (client.baseline_builder c) = Some p ->
        client.run sqrt c more = py.Return c2 ->
        client.baseline_builder c2 = client.baseline_builder c
        /\ activity_shift_detector._baseline (client.detector c2) = Some p)
  /\ (forall events now c' out,
        client.tick sqrt c events now = py.Return (c', out) ->
        (out = None <->
         baseline_builder.is_calibrated (client.baseline_builder c') = false)).
Proof.
  intro Hrun.
  destruct (client_run_inv sqrt passes _ c Hrun) as (Hall & Hbase & _);
    [constructor|reflexivity|].
  split; [exact Hbase|]. split.
  - intros p more c2 Hp Hmore.
    destruct (client_run_inv sqrt more c c2 Hmore Hall Hbase)
      as (_ & Hbase2 & Hfreeze).
    split; [exact (Hfreeze p Hp)|].
    rewrite Hbase2, (Hfreeze p Hp). exact Hp.
  - intros events now c' out Htick.
    destruct (tick_inv sqrt c c' events now out Htick Hall Hbase)
      as (_ & _ & _ & Hout).
    destruct out as [[risk s]|].
    + destruct Hout as (Hcal & _). split; [discriminate|]. congruence.
    + split; [intros _; exact Hout|reflexivity].
Qed.

(** X18, at a concrete input: one pass on fresh components, a second
    after the loop was set up, during which the calibration only
    starts. *)
Lemma X18_client_baseline_handover_witness :
  exists c,
    client.run (fun x => x) (client.init 30 180 100) [([], 101)] = py.Return c
    /\ activity_shift_detector._baseline (client.detector c) = None
    /\ baseline_builder.baseline (client.baseline_builder c) = None.
Proof.
  destruct (client.run (fun x => x) (client.init 30 180 100) [([], 101)])
    as [c|x] eqn:Hrun; [|vm_compute in Hrun; discriminate Hrun].
  exists c. split; [reflexivity|].
  destruct (X18_client_baseline_handover (fun x => x) 30 180 100 [([], 101)] c Hrun)
    as (Hbase & _).
  rewrite Hbase. vm_compute in Hrun. injection Hrun as <-.
  split; reflexivity.
Defined.

(** X23.  The first pass of the loop and the calibration duration.  The
    first update only starts the calibration, so the builder is not
    calibrated at the end of the first pass and the progress is computed:
    with a [Config.CALIBRATION_DURATION] of 0 its division raises
    [ZeroDivisionError] and the loop ends there, whatever the events, the
    clock and the feature window; with any other duration the pass
    returns without a risk, the calibration started at that pass's
    clock reading. *)
Theorem X23_first_pass_needs_nonzero_duration
  (sqrt : Q -> Q) (feature_window calibration_duration calibration_start_time : Q)
  (events : list models.BaseEvent) (now : Q) :
  let c0 :=
    client.init feature_window calibration_duration calibration_start_time in
  (calibration_duration == 0 ->
   forall passes,
     client.run sqrt c0 ((events, now) :: passes)
     = py.Raise py.ZeroDivisionError)
  /\ (~ calibration_duration == 0 ->
      exists c,
        client.tick sqrt c0 events now = py.Return (c, None)
        /\ baseline_builder.is_calibrated (client.baseline_builder c) = false
        /\ baseline_builder._calibration_start (client.baseline_builder c)
           = Some now).
Proof.
  intro c0.
  set (ex0 := fold_left feature_extractor.add_event events (client.extractor c0)).
  destruct (compute_features_returns sqrt ex0 now) as (fv & Hcf & _ & Hend & _).
  cbv zeta in Hcf.
  assert (Htick : client.tick sqrt c0 events now
                  = (_ <- (percent <- client.progress c0 now ;;
                           py.Return (Some percent)) ;;
                     py.Return
                       (client.mkClient (feature_extractor._prune_buffer ex0 now)
                          (baseline_builder.start_calibration
                             (baseline_builder.init calibration_duration) now)
                          (activity_shift_detector.init None)
                          (risk_engine.init 3)
                          calibration_duration calibration_start_time,
                        None))).
  { unfold client.tick. fold ex0. rewrite Hcf. cbn [py.bind fst snd].
    rewrite Hend. reflexivity. }
  unfold client.progress in Htick.
  cbn [client.CALIBRATION_DURATION client.calibration_start_time c0 client.init]
    in Htick.
  split.
  - intros Hz passes. cbn [client.run]. rewrite Htick.
    unfold py.div, py.eqb.
    apply Qeq_bool_iff in Hz. rewrite Hz. reflexivity.
  - intro Hnz. rewrite Htick.
    rewrite div_returns by exact Hnz. cbn [py.bind].
    eexists. split; [reflexivity|]. split; reflexivity.
Qed.

(** X23, at a concrete input: the default feature window and a
    calibration duration of 0. *)
Lemma X23_first_pass_needs_nonzero_duration_witness :
  client.run (fun x => x) (client.init 30 0 1000) [([], 1001)]
  = py.Raise py.ZeroDivisionError.
Proof.
  apply (proj1 (X23_first_pass_needs_nonzero_duration (fun x => x) 30 0 1000
                  [] 1001)).
  reflexivity.
Defined.

(** ** Risk aggregator *)

Section DictFacts.
Import pydict.

Lemma str_eqb_eq (a b : models.str) : str_eqb a b = true <-> a = b.
Proof.
  revert b. induction a as [|x a IH]; intros [|y b]; cbn [str_eqb];
    try (split; [discriminate|discriminate]); [tauto|].
  rewrite andb_true_iff, N.eqb_eq, IH. split.
  - intros [-> ->]. reflexivity.
  - intros [= -> ->]. auto.
Qed.

Lemma str_eqb_refl (a : models.str) : str_eqb a a = true.
Proof. now apply str_eqb_eq. Qed.

Lemma str_eqb_neq (a b : models.str) : str_eqb a b = false <-> a <> b.
Proof.
  rewrite <- str_eqb_eq. destruct (str_eqb a b); split; congruence.
Qed.

Context {V : Type}.

Lemma get_set (d : dict V) (k q : models.str) (v : V) :
  get (set d k v) q = if str_eqb q k then Some v else get d q.
Proof.
  induction d as [|[k' v'] rest IH]; cbn [set get]; [reflexivity|].
  destruct (str_eqb k k') eqn:E; cbn [get].
  - apply str_eqb_eq in E. subst k'.
    destruct (str_eqb q k); reflexivity.
  - rewrite IH. destruct (str_eqb q k') eqn:E1; [|reflexivity].
    apply str_eqb_eq in E1. subst k'.
    assert (E2 : str_eqb q k = false).
    { apply str_eqb_neq. intro H. subst q. rewrite str_eqb_refl in E.
      discriminate E. }
    now rewrite E2.
Qed.

Lemma get_del (d : dict V) (k q : models.str) :
  get (del d k) q = if str_eqb q k then None else get d q.
Proof.
  induction d as [|[k' v'] rest IH]; cbn [del get].
  - destruct (str_eqb q k); reflexivity.
  - destruct (str_eqb k k') eqn:E; cbn [get].
    + apply str_eqb_eq in E. subst k'. rewrite IH.
      destruct (str_eqb q k); reflexivity.
    + rewrite IH. destruct (str_eqb q k') eqn:E1; [|reflexivity].
      apply str_eqb_eq in E1. subst k'.
      assert (E2 : str_eqb q k = false).
      { apply str_eqb_neq. intro H. subst q. rewrite str_eqb_refl in E.
        discriminate E. }
      now rewrite E2.
Qed.

End DictFacts.

Section AggregatorFacts.
Import models risk_aggregator aggregator_calls.

Lemma fold_max_upper (rest : list Q) (first : Q) :
  first <= fold_left py.max rest first
  /\ Forall (fun x => x <= fold_left py.max rest first) rest.
Proof.
  revert first. induction rest as [|x rest IH]; intro first; cbn [fold_left].
  - split; [lra|constructor].
  - destruct (IH (py.max first x)) as [H1 H2].
    destruct (max_cases first x) as [[E Hle]|[E Hlt]]; rewrite E in *;
      (split; [lra|constructor; [lra|exact H2]]).
Qed.

Lemma fold_min_lower (rest : list Q) (first : Q) :
  fold_left py.min rest first <= first
  /\ Forall (fun x => fold_left py.min rest first <= x) rest.
Proof.
  revert first. induction rest as [|x rest IH]; intro first; cbn [fold_left].
  - split; [lra|constructor].
  - destruct (IH (py.min first x)) as [H1 H2].
    destruct (min_cases first x) as [[E Hle]|[E Hlt]]; rewrite E in *;
      (split; [lra|constructor; [lra|exact H2]]).
Qed.

(** [max] and [min] return one of the entries. *)
Lemma fold_max_In (rest : list Q) (first : Q) :
  In (fold_left py.max rest first) (first :: rest).
Proof.
  revert first. induction rest as [|x rest IH]; intro first; cbn [fold_left].
  - now left.
  - destruct (IH (py.max first x)) as [H|H]; [|right; now right].
    rewrite <- H. unfold py.max.
    destruct (py.ltb first x); [right; now left|now left].
Qed.

Lemma fold_min_In (rest : list Q) (first : Q) :
  In (fold_left py.min rest first) (first :: rest).
Proof.
  revert first. induction rest as [|x rest IH]; intro first; cbn [fold_left].
  - now left.
  - destruct (IH (py.min first x)) as [H|H]; [|right; now right].
    rewrite <- H. unfold py.min.
    destruct (py.ltb x first); [right; now left|now left].
Qed.

(** The summary of a session with a non-empty history. *)
Lemma summary_of_history (a : RiskAggregator) (k : str)
  (first : Q) (rest : list Q) :
  pydict.get (_session_risk_history a) k = Some (first :: rest) ->
  exists s a',
    get_session_summary a k = py.Return (Some s, a')
    /\ _session_risk_history a' = _session_risk_history a
    /\ summary_session_id s = k
    /\ risk_count s = Z.of_nat (length (first :: rest))
    /\ average_risk s == spec.mean (first :: rest)
    /\ max_risk s = list_max first rest
    /\ min_risk s = list_min first rest
    /\ anomaly_counts s
       = match pydict.get (_session_anomaly_counts a) k with
         | Some c => c
         | None => default_counts
         end
    /\ pydict.get (_session_anomaly_counts a') k = Some (anomaly_counts s)
    /\ (forall q, q <> k ->
          pydict.get (_session_anomaly_counts a') q
          = pydict.get (_session_anomaly_counts a) q).
Proof.
  intro Hget. unfold get_session_summary, pydict.contains. rewrite Hget.
  cbn [negb]. rewrite div_returns by apply len_cons_nonzero. cbn [py.bind].
  unfold getitem_default.
  destruct (pydict.get (_session_anomaly_counts a) k) as [c|] eqn:Hc.
  - eexists. eexists. split; [reflexivity|].
    cbn [_session_risk_history _session_anomaly_counts summary_session_id
         risk_count average_risk max_risk min_risk anomaly_counts].
    repeat split; auto.
    unfold spec.mean, py.len. now rewrite sum_Qsum.
  - eexists. eexists. split; [reflexivity|].
    cbn [_session_risk_history _session_anomaly_counts summary_session_id
         risk_count average_risk max_risk min_risk anomaly_counts].
    repeat split; auto.
    + unfold spec.mean, py.len. now rewrite sum_Qsum.
    + rewrite get_set, str_eqb_refl. reflexivity.
    + intros q Hq. rewrite get_set.
      apply str_eqb_neq in Hq. now rewrite Hq.
Qed.

Lemma summary_of_missing (a : RiskAggregator) (k : str) :
  pydict.get (_session_risk_history a) k = None ->
  get_session_summary a k = py.Return (None, a).
Proof.
  intro Hget. unfold get_session_summary, pydict.contains. now rewrite Hget.
Qed.

(** The history dict after [add_risk_data]. *)
Lemma add_risk_data_history (a : RiskAggregator) (rd : RiskData) (q : str) :
  pydict.get (_session_risk_history (add_risk_data a rd)) q
  = if pydict.str_eqb q (session_id rd)
    then Some (match pydict.get (_session_risk_history a) (session_id rd) with
               | Some h => h
               | None => []
               end ++ [risk_score rd])
    else pydict.get (_session_risk_history a) q.
Proof.
  unfold add_risk_data, getitem_default, default_history.
  destruct (pydict.get (_session_risk_history a) (session_id rd)) as [h|] eqn:Hh;
    cbn [_session_risk_history]; rewrite get_set.
  - reflexivity.
  - destruct (pydict.str_eqb q (session_id rd)) eqn:E; [reflexivity|].
    rewrite get_set. now rewrite E.
Qed.

Lemma get_bump (field : AnomalyCounts -> AnomalyCounts)
  (counts : pydict.dict AnomalyCounts) (k q : str) :
  pydict.get (bump field counts k) q
  = if pydict.str_eqb q k
    then Some (field (match pydict.get counts k with
                      | Some c => c
                      | None => default_counts
                      end))
    else pydict.get counts q.
Proof.
  unfold bump, getitem_default.
  destruct (pydict.get counts k) as [c|] eqn:Hc; rewrite get_set.
  - reflexivity.
  - destruct (pydict.str_eqb q k) eqn:E; [reflexivity|].
    rewrite get_set. now rewrite E.
Qed.

End AggregatorFacts.

Section AggregatorInvariant.
Import models risk_aggregator aggregator_calls.

Lemma current_bump (field : AnomalyCounts -> AnomalyCounts)
  (counts : pydict.dict AnomalyCounts) (k : str) :
  current_counts (bump field counts k) k = field (current_counts counts k).
Proof.
  unfold current_counts. now rewrite get_bump, str_eqb_refl.
Qed.

(** The counts dict after [add_risk_data]: other sessions keep their
    entry; the session's counts go up by one where the score exceeds 50. *)
Lemma add_risk_data_counts (a : RiskAggregator) (rd : RiskData) :
  let sid := session_id rd in
  let counts := _session_anomaly_counts a in
  let counts' := _session_anomaly_counts (add_risk_data a rd) in
  let up (b : bool) := if b then 1%Z else 0%Z in
  (forall q, q <> sid -> pydict.get counts' q = pydict.get counts q)
  /\ (forall c, pydict.get counts' sid = Some c -> c = current_counts counts' sid)
  /\ count_idle_burst (current_counts counts' sid)
     = (count_idle_burst (current_counts counts sid)
        + up (py.ltb 50 (idle_burst (anomaly_scores rd))))%Z
  /\ count_focus_instability (current_counts counts' sid)
     = (count_focus_instability (current_counts counts sid)
        + up (py.ltb 50 (focus_instability (anomaly_scores rd))))%Z
  /\ count_behavioral_drift (current_counts counts' sid)
     = (count_behavioral_drift (current_counts counts sid)
        + up (py.ltb 50 (behavioral_drift (anomaly_scores rd))))%Z
  /\ (pydict.get counts' sid = None -> pydict.get counts sid = None).
Proof.
  cbv zeta. unfold add_risk_data.
  destruct (getitem_default default_history (_session_risk_history a)
              (session_id rd)) as [h hs].
  cbn [_session_anomaly_counts].
  set (sid := session_id rd). set (c0 := _session_anomaly_counts a).
  split.
  - intros q Hq. apply str_eqb_neq in Hq.
    destruct (py.ltb 50 (idle_burst _)), (py.ltb 50 (focus_instability _)),
      (py.ltb 50 (behavioral_drift _));
      rewrite ?get_bump, ?Hq; reflexivity.
  - split.
    + intros c Hc. unfold current_counts. now rewrite Hc.
    + destruct (py.ltb 50 (idle_burst _)), (py.ltb 50 (focus_instability _)),
        (py.ltb 50 (behavioral_drift _));
        rewrite ?current_bump;
        unfold bump_idle_burst, bump_focus_instability, bump_behavioral_drift;
        cbn [count_idle_burst count_focus_instability count_behavioral_drift];
        (repeat split; try lia);
        try (rewrite !get_bump, ?str_eqb_refl; discriminate); auto.
Qed.

Lemma reset_session_get (a : RiskAggregator) (k q : str) :
  pydict.get (_session_risk_history (reset_session a k)) q
  = (if pydict.str_eqb q k then None
     else pydict.get (_session_risk_history a) q)
  /\ pydict.get (_session_anomaly_counts (reset_session a k)) q
     = (if pydict.str_eqb q k then None
        else pydict.get (_session_anomaly_counts a) q).
Proof.
  unfold reset_session, pydict.contains.
  cbn [_session_risk_history _session_anomaly_counts].
  split.
  - destruct (pydict.get (_session_risk_history a) k) eqn:E.
    + apply get_del.
    + destruct (pydict.str_eqb q k) eqn:Eq; [|reflexivity].
      apply str_eqb_eq in Eq. now subst q.
  - destruct (pydict.get (_session_anomaly_counts a) k) eqn:E.
    + apply get_del.
    + destruct (pydict.str_eqb q k) eqn:Eq; [|reflexivity].
      apply str_eqb_eq in Eq. now subst q.
Qed.

(** What every reachable aggregator satisfies: no stored history is
    empty, and stored counts belong to a stored history whose length
    bounds them. *)
Lemma aggregator_step_inv (a a' : RiskAggregator) (c : Call) :
  step a c = py.Return a' ->
  (forall k h, pydict.get (_session_risk_history a) k = Some h ->
               h <> []
               /\ counts_within (current_counts (_session_anomaly_counts a) k)
                    (Z.of_nat (length h))) ->
  (forall k, pydict.get (_session_risk_history a) k = None ->
             pydict.get (_session_anomaly_counts a) k = None) ->
  (forall k h, pydict.get (_session_risk_history a') k = Some h ->
               h <> []
               /\ counts_within (current_counts (_session_anomaly_counts a') k)
                    (Z.of_nat (length h)))
  /\ (forall k, pydict.get (_session_risk_history a') k = None ->
                pydict.get (_session_anomaly_counts a') k = None).
Proof.
  intros Hstep Hinv Hnone.
  destruct c as [rd|sid|sid]; cbn [step] in Hstep.
  - injection Hstep as <-.
    destruct (add_risk_data_counts a rd) as (Hother & _ & Hi & Hf & Hd & Hn).
    cbv zeta in Hother, Hi, Hf, Hd, Hn.
    split.
    + intros k h. rewrite add_risk_data_history.
      destruct (pydict.str_eqb k (session_id rd)) eqn:E.
      * apply str_eqb_eq in E. subst k. intros [= <-].
        split; [intro H; apply app_eq_nil in H as [_ H]; discriminate H|].
        unfold counts_within. rewrite Hi, Hf, Hd.
        rewrite length_app. cbn [length].
        destruct (pydict.get (_session_risk_history a) (session_id rd))
          as [h0|] eqn:Hh.
        -- destruct (Hinv _ _ Hh) as (_ & Hc). unfold counts_within in Hc.
           destruct Hc as (H1 & H2 & H3).
           repeat split;
             repeat match goal with
                    | |- context [if ?b then _ else _] => destruct b
                    end; lia.
        -- unfold current_counts. rewrite (Hnone _ Hh).
           cbn [default_counts count_idle_burst count_focus_instability
                count_behavioral_drift length app].
           repeat split;
             repeat match goal with
                    | |- context [if ?b then _ else _] => destruct b
                    end; lia.
      * intro Hk. apply str_eqb_neq in E.
        unfold current_counts. rewrite (Hother k E). exact (Hinv k h Hk).
    + intros k. rewrite add_risk_data_history.
      destruct (pydict.str_eqb k (session_id rd)) eqn:E; [discriminate|].
      intro Hk. apply str_eqb_neq in E. rewrite (Hother k E). now apply Hnone.
  - destruct (pydict.get (_session_risk_history a) sid) as [[|first rest]|] eqn:Hh.
    + destruct (Hinv _ _ Hh) as [Hne _]. contradiction.
    + destruct (summary_of_history a sid first rest Hh)
        as (s & a1 & Hret & Hhist & _ & _ & _ & _ & _ & Hs & Hget & Hother).
      rewrite Hret in Hstep. cbn [py.bind snd] in Hstep. injection Hstep as <-.
      rewrite Hhist. split.
      * intros k h Hk. destruct (Hinv k h Hk) as [Hne Hc]. split; [exact Hne|].
        destruct (pydict.str_eqb k sid) eqn:E.
        -- apply str_eqb_eq in E. subst k.
           unfold current_counts in *. rewrite Hget, Hs. exact Hc.
        -- apply str_eqb_neq in E. unfold current_counts in *.
           now rewrite (Hother k E).
      * intros k Hk.
        destruct (pydict.str_eqb k sid) eqn:E.
        -- apply str_eqb_eq in E. subst k. congruence.
        -- apply str_eqb_neq in E. rewrite (Hother k E). now apply Hnone.
    + rewrite (summary_of_missing a sid Hh) in Hstep.
      cbn [py.bind snd] in Hstep. injection Hstep as <-. now split.
  - injection Hstep as <-. split.
    + intros k h. rewrite (proj1 (reset_session_get a sid k)).
      destruct (pydict.str_eqb k sid) eqn:E; [discriminate|].
      intro Hk. unfold current_counts.
      rewrite (proj2 (reset_session_get a sid k)), E. exact (Hinv k h Hk).
    + intro k. rewrite (proj1 (reset_session_get a sid k)),
        (proj2 (reset_session_get a sid k)).
      destruct (pydict.str_eqb k sid); [reflexivity|]. apply Hnone.
Qed.

Lemma aggregator_run_inv (calls : list Call) :
  forall a a',
    run a calls = py.Return a' ->
    (forall k h, pydict.get (_session_risk_history a) k = Some h ->
                 h <> []
                 /\ counts_within (current_counts (_session_anomaly_counts a) k)
                      (Z.of_nat (length h))) ->
    (forall k, pydict.get (_session_risk_history a) k = None ->
               pydict.get (_session_anomaly_counts a) k = None) ->
    (forall k h, pydict.get (_session_risk_history a') k = Some h ->
                 h <> []
                 /\ counts_within (current_counts (_session_anomaly_counts a') k)
                      (Z.of_nat (length h)))
    /\ (forall k, pydict.get (_session_risk_history a') k = None ->
                  pydict.get (_session_anomaly_counts a') k = None).
Proof.
  induction calls as [|c calls IH]; intros a a' Hrun Hinv Hnone.
  - cbn in Hrun. injection Hrun as <-. now split.
  - cbn [run] in Hrun.
    destruct (step a c) as [a1|x] eqn:Hstep; cbn [py.bind] in Hrun;
      [|discriminate].
    destruct (aggregator_step_inv a a1 c Hstep Hinv Hnone) as [Hinv1 Hnone1].
    exact (IH a1 a' Hrun Hinv1 Hnone1).
Qed.

End AggregatorInvariant.

Section AggregatorSummary.
Import models risk_aggregator aggregator_calls.

(** The returned summary depends on the session's own entries only. *)
Lemma summary_of_ext (a b : RiskAggregator) (k : str) :
  pydict.get (_session_risk_history a) k
  = pydict.get (_session_risk_history b) k ->
  current_counts (_session_anomaly_counts a) k
  = current_counts (_session_anomaly_counts b) k ->
  summary_of a k = summary_of b k.
Proof.
  intros Hh Hc. unfold summary_of, get_session_summary, pydict.contains.
  rewrite <- Hh.
  destruct (pydict.get (_session_risk_history a) k) as [[|first rest]|];
    cbn [negb py.bind fst]; try reflexivity.
  rewrite div_returns by apply len_cons_nonzero. cbn [py.bind].
  unfold getitem_default, current_counts in *.
  destruct (pydict.get (_session_anomaly_counts a) k),
    (pydict.get (_session_anomaly_counts b) k);
    cbn [py.bind fst]; congruence.
Qed.

Lemma summary_bounds (first : Q) (rest : list Q) :
  Forall (fun x => list_min first rest <= x <= list_max first rest)
    (first :: rest)
  /\ list_min first rest <= spec.mean (first :: rest) <= list_max first rest.
Proof.
  destruct (fold_max_upper rest first) as [Hmax1 Hmax].
  destruct (fold_min_lower rest first) as [Hmin1 Hmin].
  assert (Hall : Forall (fun x => list_min first rest <= x <= list_max first rest)
                   (first :: rest)).
  { unfold list_min, list_max. constructor; [lra|].
    rewrite Forall_forall in *. intros x Hx.
    split; [now apply Hmin|now apply Hmax]. }
  split; [exact Hall|]. apply mean_bounds; [discriminate|exact Hall].
Qed.

End AggregatorSummary.

(** X19.  After [add_risk_data], the summary of that session exists: its
    [risk_count] is one more than before (1 for a new session), its
    minimum and its maximum are scores of the session, and every stored
    score, the new one included, lies between them. *)
Theorem X19_summary_after_add
  (a : risk_aggregator.RiskAggregator) (rd : models.RiskData) :
  let sid := models.session_id rd in
  let before :=
    match pydict.get (risk_aggregator._session_risk_history a) sid with
    | Some h => h
    | None => []
    end in
  exists s a',
    risk_aggregator.get_session_summary (risk_aggregator.add_risk_data a rd) sid
    = py.Return (Some s, a')
    /\ risk_aggregator.summary_session_id s = sid
    /\ risk_aggregator.risk_count s = (Z.of_nat (length before) + 1)%Z
    /\ In (risk_aggregator.min_risk s) (before ++ [models.risk_score rd])
    /\ In (risk_aggregator.max_risk s) (before ++ [models.risk_score rd])
    /\ Forall (fun x => risk_aggregator.min_risk s <= x
                        <= risk_aggregator.max_risk s)
         (before ++ [models.risk_score rd]).
Proof.
  intros sid before.
  pose proof (add_risk_data_history a rd sid) as Hh.
  rewrite str_eqb_refl in Hh. fold sid in Hh. fold before in Hh.
  destruct (before ++ [models.risk_score rd]) as [|first rest] eqn:E.
  { apply app_eq_nil in E as [_ E]. discriminate E. }
  destruct (summary_of_history _ sid first rest Hh)
    as (s & a' & Hret & _ & Hsid & Hcount & _ & Hmax & Hmin & _).
  exists s, a'. split; [exact Hret|]. split; [exact Hsid|].
  split.
  - rewrite Hcount, <- E, length_app. cbn [length]. lia.
  - rewrite Hmax, Hmin.
    split; [apply fold_min_In|]. split; [apply fold_max_In|].
    exact (proj1 (summary_bounds first rest)).
Qed.

(** X20.  Sessions are isolated: adding a record for one session,
    resetting one session or reading the summary of one session leaves
    the summary of every other session as it was. *)
Theorem X20_sessions_isolated
  (a : risk_aggregator.RiskAggregator) (sid other : models.str) :
  other <> sid ->
  (forall rd,
      models.session_id rd = sid ->
      aggregator_calls.summary_of (risk_aggregator.add_risk_data a rd) other
      = aggregator_calls.summary_of a other)
  /\ aggregator_calls.summary_of (risk_aggregator.reset_session a sid) other
     = aggregator_calls.summary_of a other
  /\ (forall r a',
        risk_aggregator.get_session_summary a sid = py.Return (r, a') ->
        aggregator_calls.summary_of a' other
        = aggregator_calls.summary_of a other).
Proof.
  intro Hne. pose proof Hne as Hneb. apply str_eqb_neq in Hneb.
  split; [|split].
  - intros rd <-. apply summary_of_ext.
    + now rewrite add_risk_data_history, Hneb.
    + destruct (add_risk_data_counts a rd) as (Hother & _).
      cbv zeta in Hother. unfold aggregator_calls.current_counts.
      now rewrite (Hother other Hne).
  - destruct (reset_session_get a sid other) as [Hh Hc].
    apply summary_of_ext.
    + now rewrite Hh, Hneb.
    + unfold aggregator_calls.current_counts. now rewrite Hc, Hneb.
  - intros r a' Hret.
    destruct (pydict.get (risk_aggregator._session_risk_history a) sid)
      as [[|first rest]|] eqn:Hh.
    + unfold risk_aggregator.get_session_summary, pydict.contains in Hret.
      rewrite Hh in Hret. cbn [negb] in Hret. now injection Hret as _ <-.
    + destruct (summary_of_history a sid first rest Hh)
        as (s & a1 & Hret1 & Hhist & _ & _ & _ & _ & _ & _ & _ & Hother).
      rewrite Hret1 in Hret. injection Hret as _ <-.
      apply summary_of_ext; [now rewrite Hhist|].
      unfold aggregator_calls.current_counts. now rewrite (Hother other Hne).
    + rewrite (summary_of_missing a sid Hh) in Hret. now injection Hret as _ <-.
Qed.

(** X20, at a concrete input: two sessions, a record added to the first. *)
Lemma X20_sessions_isolated_witness :
  let rd sid r := models.mkRiskData 1 r (models.mkAnomalyScores 60 0 0 60) sid None in
  let a := risk_aggregator.add_risk_data
             (risk_aggregator.add_risk_data risk_aggregator.init (rd [97%N] 24))
             (rd [98%N] 30) in
  aggregator_calls.summary_of (risk_aggregator.add_risk_data a (rd [97%N] 12))
    [98%N]
  = aggregator_calls.summary_of a [98%N].
Proof.
  intros rd a.
  apply (proj1 (X20_sessions_isolated a [97%N] [98%N] ltac:(discriminate))).
  reflexivity.
Defined.

(** X21.  [reset_session] forgets a session: its summary is [None]
    afterwards, whether or not it existed, and a record added after the
    reset starts a new history, with a count of 1 and minimum, average
    and maximum equal to that record's score. *)
Theorem X21_reset_session_forgets
  (a : risk_aggregator.RiskAggregator) (rd : models.RiskData) :
  let sid := models.session_id rd in
  let cleared := risk_aggregator.reset_session a sid in
  aggregator_calls.summary_of cleared sid = py.Return None
  /\ exists s,
       aggregator_calls.summary_of (risk_aggregator.add_risk_data cleared rd) sid
       = py.Return (Some s)
       /\ risk_aggregator.risk_count s = 1%Z
       /\ risk_aggregator.average_risk s == models.risk_score rd
       /\ risk_aggregator.max_risk s = models.risk_score rd
       /\ risk_aggregator.min_risk s = models.risk_score rd.
Proof.
  intros sid cleared.
  assert (Hgone : pydict.get (risk_aggregator._session_risk_history cleared) sid
                  = None).
  { unfold cleared. rewrite (proj1 (reset_session_get a sid sid)).
    now rewrite str_eqb_refl. }
  split.
  - unfold aggregator_calls.summary_of.
    now rewrite (summary_of_missing cleared sid Hgone).
  - pose proof (add_risk_data_history cleared rd sid) as Hh.
    rewrite str_eqb_refl in Hh. fold sid in Hh. rewrite Hgone in Hh.
    cbn [app] in Hh.
    destruct (summary_of_history _ sid _ [] Hh)
      as (s & a' & Hret & _ & _ & Hcount & Havg & Hmax & Hmin & _).
    exists s. unfold aggregator_calls.summary_of. rewrite Hret.
    split; [reflexivity|]. split; [exact Hcount|].
    split; [|split; [exact Hmax|exact Hmin]].
    rewrite Havg. unfold spec.mean. cbn. field.
Qed.

(** X22.  In every state the aggregator reaches from empty, a summary
    that is returned counts at least one record, and none of its three
    anomaly counts is negative or exceeds the number of records. *)
Theorem X22_summary_counts_bounded
  (calls : list aggregator_calls.Call) (a a' : risk_aggregator.RiskAggregator)
  (k : models.str) (s : risk_aggregator.Summary) :
  aggregator_calls.run risk_aggregator.init calls = py.Return a ->
  risk_aggregator.get_session_summary a k = py.Return (Some s, a') ->
  (1 <= risk_aggregator.risk_count s)%Z
  /\ aggregator_calls.counts_within (risk_aggregator.anomaly_counts s)
       (risk_aggregator.risk_count s).
Proof.
  intros Hrun Hsum.
  destruct (aggregator_run_inv calls _ a Hrun) as [Hinv _];
    [intros q h Hq; discriminate Hq|reflexivity|].
  destruct (pydict.get (risk_aggregator._session_risk_history a) k)
    as [[|first rest]|] eqn:Hh.
  - unfold risk_aggregator.get_session_summary, pydict.contains in Hsum.
    rewrite Hh in Hsum. discriminate Hsum.
  - destruct (summary_of_history a k first rest Hh)
      as (s1 & a1 & Hret & _ & _ & Hcount & _ & _ & _ & Hc & _).
    rewrite Hret in Hsum. injection Hsum as -> _.
    rewrite Hcount. split; [cbn [length]; lia|].
    rewrite Hc. exact (proj2 (Hinv k _ Hh)).
  - rewrite (summary_of_missing a k Hh) in Hsum. discriminate Hsum.
Qed.

(** X22, at a concrete input: three records of one session, two of them
    with an idle-burst score above 50. *)
Lemma X22_summary_counts_bounded_witness :
  let rd i := models.mkRiskData 1 20 (models.mkAnomalyScores i 0 0 i) [97%N] None in
  let calls :=
    [aggregator_calls.AddRiskData (rd 60); aggregator_calls.AddRiskData (rd 10);
     aggregator_calls.GetSessionSummary [97%N];
     aggregator_calls.AddRiskData (rd 70)] in
  exists a s a',
    aggregator_calls.run risk_aggregator.init calls = py.Return a
    /\ risk_aggregator.get_session_summary a [97%N] = py.Return (Some s, a')
    /\ risk_aggregator.risk_count s = 3%Z
    /\ risk_aggregator.count_idle_burst (risk_aggregator.anomaly_counts s) = 2%Z
    /\ aggregator_calls.counts_within (risk_aggregator.anomaly_counts s)
         (risk_aggregator.risk_count s).
Proof.
  intros rd calls.
  destruct (aggregator_calls.run risk_aggregator.init calls) as [a|x] eqn:Hrun;
    [|vm_compute in Hrun; discriminate Hrun].
  pose proof Hrun as Ha. vm_compute in Ha. injection Ha as Ha.
  destruct (risk_aggregator.get_session_summary a [97%N])
    as [[[s|] a']|x] eqn:Hsum;
    try (subst a; vm_compute in Hsum; discriminate Hsum).
  exists a, s, a'. split; [reflexivity|]. split; [exact Hsum|].
  pose proof (X22_summary_counts_bounded calls a a' [97%N] s Hrun Hsum) as [_ Hc].
  subst a. vm_compute in Hsum. injection Hsum as <- _.
  split; [reflexivity|]. split; [reflexivity|exact Hc].
Defined.
